(** * convctl: the format router of [src/convctl/cli.py]

    A shallow embedding of the conversion table [CONVERTERS], of
    [find_chain], [dispatch] and [convert_file], of the PDF operations
    ([merge_pdfs], [split_pdf], [compress_pdf], [rotate_pdf],
    [watermark_pdf]) and of the argument front end [cli_mode], with the
    properties the specification states about them; then of
    [get_output_path], [get_input_file], the layout of [txt_to_pdf], the
    file names of [pdf_to_images] and the format choices of the menus,
    with further properties of the code.

    Conventions of the embedding.
    - Python [str] is [string]; [lower]/[upper] act on the ASCII letters.
    - The file system is the finite set of the paths that exist; a path is
      its string, and pathlib is the POSIX flavour.
    - Handlers, the PDF library and the deletion of a file by [os.remove]
      are external: their behaviour is a parameter of the development, and
      every theorem holds for all of them.
    - Exceptions are the instances of Python's [Exception]; asynchronous
      interrupts are outside the model.
    - Text is ASCII: whitespace is the ASCII whitespace of [str.isspace]. *)

From Stdlib Require Import ZArith Ascii String DecimalString DecimalNat.
From Stdlib Require PrimFloat Uint63.
From stdpp Require Import base option list strings gmap.

(** ** Handlers and the conversion table *)

(** The functions stored in [CONVERTERS].  The three lambdas are
    [lambda i, o: pdf_to_images(i, o.replace(sfx, "_{page:03d}" + sfx))];
    they are told apart by the suffix [sfx] they rewrite. *)
Inductive handler : Type :=
  | convert_pdf_to_docx
  | convert_docx_to_pdf
  | convert_doc_to_pdf
  | txt_to_pdf
  | md_to_pdf
  | image_to_pdf
  | pdf_to_images_lambda (sfx : string)
  | image_convert
  | media_convert.

#[global] Instance handler_eq_dec : EqDecision handler.
Proof. solve_decision. Defined.

(** A conversion key: (source format, destination format). *)
Abbreviation conv_key := (string * string)%type.

(** The literal of lines 519-542, in source order. *)
Definition CONVERTERS_items : list (conv_key * handler) :=
  [ (("pdf", "docx"), convert_pdf_to_docx);
    (("docx", "pdf"), convert_docx_to_pdf);
    (("doc", "pdf"), convert_doc_to_pdf);
    (("txt", "pdf"), txt_to_pdf);
    (("md", "pdf"), md_to_pdf);
    (("png", "pdf"), image_to_pdf);
    (("jpg", "pdf"), image_to_pdf);
    (("jpeg", "pdf"), image_to_pdf);
    (("bmp", "pdf"), image_to_pdf);
    (("webp", "pdf"), image_to_pdf);
    (("pdf", "png"), pdf_to_images_lambda ".png");
    (("pdf", "jpg"), pdf_to_images_lambda ".jpg");
    (("pdf", "jpeg"), pdf_to_images_lambda ".jpeg");
    (("png", "jpg"), image_convert);
    (("png", "jpeg"), image_convert);
    (("jpg", "png"), image_convert);
    (("jpeg", "png"), image_convert);
    (("bmp", "png"), image_convert);
    (("webp", "png"), image_convert);
    (("mp4", "mp3"), media_convert);
    (("wav", "mp3"), media_convert);
    (("mp4", "wav"), media_convert) ].

Definition CONVERTERS : gmap conv_key handler := list_to_map CONVERTERS_items.

(** [key in table] on a dict. *)
Definition has_key (table : gmap conv_key handler) (k : conv_key) : bool :=
  match table !! k with Some _ => true | None => false end.

(** ** find_chain (lines 544-555) *)

Definition intermediates : list string := ["pdf"; "png"; "jpg"].

(** ["jpg" if s == "jpeg" else s] *)
Definition jpeg_to_jpg (s : string) : string :=
  if String.eqb s "jpeg" then "jpg" else s.

Fixpoint find_chain_from (table : gmap conv_key handler) (src dst : string)
    (mids : list string) : option (list conv_key) :=
  match mids with
  | [] => None
  | mid :: rest =>
      let src_mid :=
        has_key table (src, mid) || (String.eqb src "jpeg" && String.eqb mid "jpg") in
      let mid_dst :=
        has_key table (mid, dst) || (String.eqb mid "jpg" && String.eqb dst "jpeg") in
      if src_mid && mid_dst then
        let actual_src := jpeg_to_jpg src in
        let actual_mid := jpeg_to_jpg mid in
        let actual_dst := jpeg_to_jpg dst in
        Some [(actual_src, actual_mid); (actual_mid, actual_dst)]
      else find_chain_from table src dst rest
  end.

Definition find_chain (table : gmap conv_key handler) (src dst : string)
    : option (list conv_key) :=
  find_chain_from table src dst intermediates.

(** ** Python strings and paths *)

Module Py.

(** [str.lower] and [str.upper] on the ASCII letters. *)
Definition ascii_lower (c : ascii) : ascii :=
  let n := nat_of_ascii c in
  if (65 <=? n)%nat && (n <=? 90)%nat then ascii_of_nat (n + 32) else c.

Definition ascii_upper (c : ascii) : ascii :=
  let n := nat_of_ascii c in
  if (97 <=? n)%nat && (n <=? 122)%nat then ascii_of_nat (n - 32) else c.

Fixpoint smap (f : ascii → ascii) (s : string) : string :=
  match s with
  | EmptyString => EmptyString
  | String c s' => String (f c) (smap f s')
  end.

Definition lower (s : string) : string := smap ascii_lower s.
Definition upper (s : string) : string := smap ascii_upper s.

(** [s.lstrip(".")] *)
Fixpoint lstrip_dots (s : string) : string :=
  match s with
  | String c s' => if Ascii.eqb c "." then lstrip_dots s' else s
  | EmptyString => EmptyString
  end.

(** [s[n:]] and [s[:n]] for [n >= 0]. *)
Fixpoint sdrop (n : nat) (s : string) : string :=
  match n, s with
  | S n', String _ s' => sdrop n' s'
  | _, _ => s
  end.

Fixpoint stake (n : nat) (s : string) : string :=
  match n, s with
  | S n', String c s' => String c (stake n' s')
  | _, _ => EmptyString
  end.

(** [s.rfind(".")], with [None] for Python's -1. *)
Fixpoint rfind_dot (s : string) : option nat :=
  match s with
  | EmptyString => None
  | String c s' =>
      match rfind_dot s' with
      | Some i => Some (S i)
      | None => if Ascii.eqb c "." then Some 0%nat else None
      end
  end.

(** [s.split("/")] *)
Fixpoint split_slash (s : string) : list string :=
  match s with
  | EmptyString => [EmptyString]
  | String c s' =>
      if Ascii.eqb c "/" then EmptyString :: split_slash s'
      else match split_slash s' with
           | w :: ws => String c w :: ws
           | [] => [String c EmptyString]
           end
  end.

(** ["/".join(ws)] *)
Fixpoint join_slash (ws : list string) : string :=
  match ws with
  | [] => EmptyString
  | [w] => w
  | w :: ws' => w +:+ "/" +:+ join_slash ws'
  end.

(** [str(i)] for a non-negative int. *)
Definition str_of_nat (n : nat) : string := NilZero.string_of_uint (Nat.to_uint n).

(** *** pathlib, POSIX flavour

    A path is parsed into a root and the list of its components; empty
    components and ["."] are dropped.  Exactly two leading slashes are
    kept as the root ["//"], any other number of them is ["/"]. *)
Definition path_root (p : string) : string :=
  match p with
  | String "/" (String "/" (String "/" _)) => "/"
  | String "/" (String "/" _) => "//"
  | String "/" _ => "/"
  | _ => ""
  end.

Definition path_parts (p : string) : list string :=
  filter (λ w : string, w ≠ "" ∧ w ≠ ".") (split_slash p).

(** [Path(p).name] *)
Definition name (p : string) : string := List.last (path_parts p) "".

(** [PurePath.suffix] of a file name: the part from the last dot on,
    when that dot is neither the first nor the last character. *)
Definition name_suffix (nm : string) : string :=
  match rfind_dot nm with
  | Some i =>
      if (0 <? i)%nat && (i <? String.length nm - 1)%nat then sdrop i nm else ""
  | None => ""
  end.

(** [Path(p).suffix] *)
Definition suffix (p : string) : string := name_suffix (name p).

(** Does the string contain a slash? *)
Fixpoint has_slash (s : string) : bool :=
  match s with
  | EmptyString => false
  | String c s' => Ascii.eqb c "/" || has_slash s'
  end.

(** [str(Path(p).with_suffix(sfx))]; [None] is the [ValueError] pathlib
    raises for an invalid suffix or an empty name. *)
Definition with_suffix (p sfx : string) : option string :=
  if has_slash sfx then None
  else if (negb (String.eqb sfx "") && negb (String.prefix "." sfx))
          || String.eqb sfx "." then None
  else
    let nm := name p in
    if String.eqb nm "" then None
    else
      let old := name_suffix nm in
      let nm' := stake (String.length nm - String.length old) nm +:+ sfx in
      let parts := path_parts p in
      Some (path_root p +:+ join_slash (take (length parts - 1) parts ++ [nm'])).

End Py.

(** ** Exceptions, events and the world *)

Inductive exn_class : Type :=
  | ValueError
  | RuntimeError
  | TypeError
  | IndexError
  | FileNotFoundError   (* a subclass of OSError *)
  | OSError             (* any other OSError *)
  | LibraryError.       (* any other Exception raised by an external tool *)

Record exn : Type := Exn { exn_cls : exn_class; exn_msg : string }.

(** [isinstance(e, OSError)] *)
Definition is_OSError (e : exn) : bool :=
  match exn_cls e with
  | FileNotFoundError | OSError => true
  | _ => false
  end.

(** Calls into the PDF and drawing libraries and the console. *)
Inductive libcall : Type :=
  | PdfMerger_new
  | Merger_append (f : string)
  | Merger_write (out : string)
  | Merger_close
  | PdfWriter_new
  | Writer_add_page (page : nat)
  | Writer_write (out : string)
  | Page_compress (page : nat)
  | Page_rotate (page : nat) (deg : Z)
  | Page_merge_watermark (page : nat)
  | Canvas_watermark (text : string)
  | Watermark_read
  | Makedirs (dir : string)
  | Doctor.

(** What a run does to the outside, oldest first. *)
Inductive event : Type :=
  | EvHandler (h : handler) (inp out : string)   (* handler(inp, out) *)
  | EvRemove (p : string)                        (* os.remove(p), p existing *)
  | EvLib (c : libcall)
  | EvPrint (s : string)                         (* print(s) *)
  | EvPrintError (e : exn)                       (* the print of line 615 *)
  | EvPrintHelp.                                 (* parser.print_help() *)

(** The behaviour of everything the program delegates to. *)
Record externals : Type := Externals {
  (** a handler, run on (inp, out) in a file system: whether it raises, and
      the file system it leaves *)
  handler_sem : handler → string → string → gset string → option exn * gset string;
  (** do the imports of [PdfMerger], of [PdfReader]/[PdfWriter] (from pypdf
      or PyPDF2) and of reportlab succeed? *)
  has_PdfMerger : bool;
  has_PdfReader : bool;
  has_reportlab : bool;
  (** library calls that read files or work in memory *)
  lib_mem_sem : libcall → gset string → option exn;
  (** library calls that write to the file system *)
  lib_io_sem : libcall → gset string → option exn * gset string;
  (** [PdfReader(inp)] and [len(reader.pages)] *)
  pdf_pages : string → gset string → exn + nat;
  (** [os.remove(p)] on a path that exists: the message of the OSError it
      raises when it cannot delete the path (a directory, a file that is in
      use or protected), [None] when it deletes the path *)
  remove_sem : string → gset string → option string;
}.

Record world : Type := World {
  fs : gset string;                      (* the paths that exist *)
  converters : gmap conv_key handler;    (* the module global CONVERTERS *)
  trace : list event;
}.

(** The world the module starts in. *)
Definition initial_world (files : gset string) : world :=
  World files CONVERTERS [].

Definition log (ev : event) (w : world) : world :=
  World (fs w) (converters w) (trace w ++ [ev]).

Definition set_fs (files : gset string) (w : world) : world :=
  World files (converters w) (trace w).

(** ** The monad of Python statements: a result or a raised exception,
       and the world after. *)

Inductive res (A : Type) : Type :=
  | Ok (a : A)
  | Raise (e : exn).
Arguments Ok {A} a.
Arguments Raise {A} e.

Definition M (A : Type) : Type := world → res A * world.

Definition ret {A} (a : A) : M A := λ w, (Ok a, w).
Definition raise {A} (e : exn) : M A := λ w, (Raise e, w).
Definition bind {A B} (m : M A) (k : A → M B) : M B :=
  λ w, match m w with
       | (Ok a, w') => k a w'
       | (Raise e, w') => (Raise e, w')
       end.

Notation "x <- m ;; k" := (bind m (λ x, k))
  (at level 100, m at next level, right associativity).
Notation "m ;; k" := (bind m (λ _, k))
  (at level 100, right associativity).

(** [try: body / except Exception as e: h(e)] *)
Definition try_except {A} (body : M A) (h : exn → M A) : M A :=
  λ w, match body w with
       | (Ok a, w') => (Ok a, w')
       | (Raise e, w') => h e w'
       end.

(** [try: body / finally: fin] *)
Definition try_finally {A} (body : M A) (fin : M unit) : M A :=
  λ w, match body w with
       | (r, w') =>
           match fin w' with
           | (Ok _, w'') => (r, w'')
           | (Raise e, w'') => (Raise e, w'')
           end
       end.

(** [for x in xs: body(x)] *)
Fixpoint for_each {A} (xs : list A) (body : A → M unit) : M unit :=
  match xs with
  | [] => ret ()
  | x :: xs' => body x ;; for_each xs' body
  end.

Definition emit (ev : event) : M unit := λ w, (Ok (), log ev w).
Definition print (s : string) : M unit := emit (EvPrint s).
Definition get_converters : M (gmap conv_key handler) := λ w, (Ok (converters w), w).

(** [os.path.exists(p)]; the argument is [None] when a caller passes an
    absent command-line argument, and [os.stat] then raises TypeError. *)
Definition os_path_exists (p : option string) : M bool :=
  match p with
  | Some s => λ w, (Ok (bool_decide (s ∈ fs w)), w)
  | None => raise (Exn TypeError "stat: path should be string, bytes, os.PathLike or integer, not NoneType")
  end.

Section Program.

Variable X : externals.

(** [os.remove(p)] *)
Definition os_remove (p : string) : M unit :=
  λ w, if bool_decide (p ∈ fs w)
       then match remove_sem X p (fs w) with
            | None => (Ok (), log (EvRemove p) (set_fs (fs w ∖ {[p]}) w))
            | Some msg => (Raise (Exn OSError msg), log (EvRemove p) w)
            end
       else (Raise (Exn FileNotFoundError ("No such file or directory: " +:+ p)), w).

(** safe_remove (lines 63-69) *)
Definition safe_remove (path : string) : M unit :=
  try_except
    (b <- os_path_exists (Some path) ;;
     if b then os_remove path else ret ())
    (λ e, if is_OSError e then ret () else raise e).

Definition call_handler (h : handler) (inp out : string) : M unit :=
  λ w, let '(r, files) := handler_sem X h inp out (fs w) in
       (match r with None => Ok () | Some e => Raise e end,
        log (EvHandler h inp out) (set_fs files w)).

Definition lib_mem (c : libcall) : M unit :=
  λ w, (match lib_mem_sem X c (fs w) with None => Ok () | Some e => Raise e end,
        log (EvLib c) w).

Definition lib_io (c : libcall) : M unit :=
  λ w, let '(r, files) := lib_io_sem X c (fs w) in
       (match r with None => Ok () | Some e => Raise e end,
        log (EvLib c) (set_fs files w)).

(** *** dispatch (lines 557-574) *)

(** Lines 559-565 on one extension: lowercase, strip leading dots,
    jpeg to jpg. *)
Definition norm_ext (s : string) : string :=
  jpeg_to_jpg (Py.lstrip_dots (Py.lower s)).

Definition dispatch (src dst inp out : string) : M unit :=
  let src := norm_ext src in
  let dst := norm_ext dst in
  let key := (src, dst) in
  table <- get_converters ;;
  match table !! key with
  | Some handler => call_handler handler inp out
  | None => raise (Exn ValueError ("No handler for " +:+ src +:+ " -> " +:+ dst))
  end.

(** *** convert_file (lines 576-616) *)

(** [Path(p).suffix[1:]] and [Path(p).suffix[1:].lower()] *)
Definition raw_ext (p : string) : string := Py.sdrop 1 (Py.suffix p).
Definition file_ext (p : string) : string := Py.lower (raw_ext p).

(** The loop of lines 593-602.  [temp_files] is the local list the
    [except] clause reads, so it is returned on both exits.  [len] is
    [len(chain)]; the body runs only for a chain that is not empty, where
    [len - 1] on [nat] is the integer [len(chain) - 1]. *)
Fixpoint chain_loop (inp out : string) (len : nat) (i : nat)
    (steps : list conv_key) (current_input : string) (temp_files : list string)
    : world → (res unit * list string) * world :=
  match steps with
  | [] => λ w, ((Ok (), temp_files), w)
  | (from_fmt, to_fmt) :: rest =>
      λ w,
      let step (current_output : string) (temp_files : list string) (w : world) :=
        match dispatch from_fmt to_fmt current_input current_output w with
        | (Ok _, w') =>
            chain_loop inp out len (S i) rest current_output temp_files w'
        | (Raise e, w') => ((Raise e, temp_files), w')
        end in
      if Nat.eqb i (len - 1) then step out temp_files w
      else
        match Py.with_suffix inp (".tmp_" +:+ Py.str_of_nat i +:+ "." +:+ to_fmt) with
        | Some temp => step temp (temp_files ++ [temp]) w
        | None => ((Raise (Exn ValueError "Invalid suffix"), temp_files), w)
        end
  end.

(** Lines 590-609: the chain with its clean-up on both exits. *)
Definition run_chain (inp out : string) (chain : list conv_key) : M unit :=
  λ w,
  let '((r, temp_files), w1) := chain_loop inp out (length chain) 0 chain inp [] w in
  let body :=
    match r with
    | Ok _ => for_each temp_files safe_remove w1
    | Raise e => (Raise e, w1)
    end in
  match body with
  | (Ok _, w2) => (Ok (), w2)
  | (Raise e, w2) => (for_each temp_files safe_remove ;; raise e) w2
  end.

Definition convert_file (inp out : string) : M bool :=
  let src := file_ext inp in
  let dst := file_ext out in
  let src_norm := jpeg_to_jpg src in
  let dst_norm := jpeg_to_jpg dst in
  try_except
    (table <- get_converters ;;
     (if has_key table (src_norm, dst_norm) then dispatch src dst inp out
      else
        match find_chain table src_norm dst_norm with
        | Some (step :: steps) => run_chain inp out (step :: steps)
        | _ => raise (Exn ValueError ("Unsupported conversion: " +:+ src +:+ " -> " +:+ dst))
        end) ;;
     ret true)
    (λ e, emit (EvPrintError e) ;; ret false).

(** *** PDF operations (lines 358-496) *)

(** The [try: from pypdf import ... except ImportError: ...] prologue. *)
Definition import_or_raise (ok : bool) (msg : string) : M unit :=
  if ok then ret () else raise (Exn RuntimeError msg).

Definition pypdf_missing : string := "pypdf not installed. Run: pip install pypdf".

(** [if not os.path.exists(inp): raise FileNotFoundError(...)] *)
Definition require_exists (inp : option string) : M string :=
  b <- os_path_exists inp ;;
  match inp with
  | Some s => if b then ret s else raise (Exn FileNotFoundError ("File not found: " +:+ s))
  | None => raise (Exn TypeError "path is None")
  end.

(** [reader = PdfReader(inp)], giving the number of pages. *)
Definition read_pdf (inp : string) : M nat :=
  λ w, match pdf_pages X inp (fs w) with
       | inr n => (Ok n, w)
       | inl e => (Raise e, w)
       end.

(** [with open(out, "wb") as f: writer.write(f)] *)
Definition open_write (out : option string) : M unit :=
  match out with
  | Some o => lib_io (Writer_write o)
  | None => raise (Exn TypeError "expected str, bytes or os.PathLike object, not NoneType")
  end.

(** merge_pdfs (lines 358-379) *)
Definition merge_pdfs (inputs : list string) (out : string) : M unit :=
  import_or_raise (has_PdfMerger X) pypdf_missing ;;
  if (length inputs <? 2)%nat then raise (Exn ValueError "Need at least 2 files to merge")
  else
    lib_mem PdfMerger_new ;;
    try_finally
      (for_each inputs (λ f,
         b <- os_path_exists (Some f) ;;
         if negb b then raise (Exn FileNotFoundError ("File not found: " +:+ f))
         else lib_mem (Merger_append f)) ;;
       lib_io (Merger_write out))
      (lib_mem Merger_close).

(** [f"{n:03d}"] *)
Definition pad3 (n : nat) : string :=
  let s := Py.str_of_nat n in
  String.string_of_list_ascii (replicate (3 - String.length s) "0"%char) +:+ s.

(** [os.path.join(dir, file)] for a relative [file] *)
Definition path_join (dir file : string) : string :=
  if String.eqb dir "" then file
  else if String.eqb (Py.sdrop (String.length dir - 1) dir) "/" then dir +:+ file
  else dir +:+ "/" +:+ file.

(** split_pdf (lines 381-404) *)
Definition split_pdf (inp : option string) (outdir : string) : M unit :=
  import_or_raise (has_PdfReader X) pypdf_missing ;;
  s <- require_exists inp ;;
  lib_io (Makedirs outdir) ;;
  n <- read_pdf s ;;
  for_each (seq 0 n) (λ i,
    lib_mem PdfWriter_new ;;
    lib_mem (Writer_add_page i) ;;
    lib_io (Writer_write (path_join outdir ("page_" +:+ pad3 (i + 1) +:+ ".pdf")))) ;;
  print ("✅ Split into " +:+ Py.str_of_nat n +:+ " pages in " +:+ outdir).

(** compress_pdf (lines 406-427) *)
Definition compress_pdf (inp out : option string) : M unit :=
  import_or_raise (has_PdfReader X) pypdf_missing ;;
  s <- require_exists inp ;;
  n <- read_pdf s ;;
  lib_mem PdfWriter_new ;;
  for_each (seq 0 n) (λ i,
    lib_mem (Page_compress i) ;;
    lib_mem (Writer_add_page i)) ;;
  open_write out.

(** Lines 442-444. *)
Definition normalize_degrees (deg : Z) : Z :=
  let deg := (((deg `mod` 360) `div` 90) * 90)%Z in
  if (deg <? 0)%Z then (deg + 360)%Z else deg.

(** rotate_pdf (lines 429-454) *)
Definition rotate_pdf (inp out : option string) (deg : Z) : M unit :=
  import_or_raise (has_PdfReader X) pypdf_missing ;;
  s <- require_exists inp ;;
  let deg := normalize_degrees deg in
  n <- read_pdf s ;;
  lib_mem PdfWriter_new ;;
  for_each (seq 0 n) (λ i,
    lib_mem (Page_rotate i deg) ;;
    lib_mem (Writer_add_page i)) ;;
  open_write out.

(** watermark_pdf (lines 456-496) *)
Definition watermark_pdf (inp out : option string) (text : string) : M unit :=
  import_or_raise (has_PdfReader X) pypdf_missing ;;
  import_or_raise (has_reportlab X) "reportlab not installed. Run: pip install reportlab" ;;
  s <- require_exists inp ;;
  lib_mem (Canvas_watermark text) ;;
  lib_mem Watermark_read ;;
  n <- read_pdf s ;;
  lib_mem PdfWriter_new ;;
  for_each (seq 0 n) (λ i,
    lib_mem (Page_merge_watermark i) ;;
    lib_mem (Writer_add_page i)) ;;
  open_write out.

(** *** cli_mode (lines 1016-1076) *)

(** The namespace [parser.parse_args()] returns. *)
Record cli_args : Type := CliArgs {
  a_input : option string;
  a_output : option string;
  a_merge : bool;
  a_split : bool;
  a_compress : bool;
  a_rotate : option Z;
  a_watermark : option string;
  a_batch : bool;
  a_doctor : bool;
  a_cli : bool;
}.

(** How [cli_mode] ends when no exception escapes it: by returning, or by
    [sys.exit(code)]. *)
Inductive exit_status : Type :=
  | Returned
  | SysExit (code : Z).

(** Truthiness of an optional string and of an optional int. *)
Definition truthy_str (s : option string) : bool :=
  match s with Some s => negb (String.eqb s "") | None => false end.
Definition truthy_int (n : option Z) : bool :=
  match n with Some n => negb (n =? 0)%Z | None => false end.

(** [sys.argv[-1]] *)
Definition argv_last (argv : list string) : M string :=
  match last argv with
  | Some s => ret s
  | None => raise (Exn IndexError "list index out of range")
  end.

Definition doctor : M unit := lib_mem Doctor.

Definition cli_mode (args : cli_args) (argv : list string) : M exit_status :=
  if a_doctor args then doctor ;; ret Returned
  else if a_merge args then
    let inputs := drop 2 (take (length argv - 1) argv) in
    output <- argv_last argv ;;
    merge_pdfs inputs output ;;
    print ("Merged " +:+ Py.str_of_nat (length inputs) +:+ " files into " +:+ output) ;;
    ret Returned
  else if a_split args then
    split_pdf (a_input args)
              (if truthy_str (a_output args) then default "" (a_output args) else "pages") ;;
    ret Returned
  else if a_compress args then
    compress_pdf (a_input args) (a_output args) ;; ret Returned
  else if truthy_int (a_rotate args) then
    rotate_pdf (a_input args) (a_output args) (default 0%Z (a_rotate args)) ;; ret Returned
  else if truthy_str (a_watermark args) then
    watermark_pdf (a_input args) (a_output args) (default "" (a_watermark args)) ;;
    ret Returned
  else
    match a_input args, a_output args with
    | Some input, Some output =>
        if String.eqb input "" || String.eqb output "" then emit EvPrintHelp ;; ret Returned
        else
          ok <- convert_file input output ;;
          if ok then print "Done." ;; ret Returned
          else ret (SysExit 1)
    | _, _ => emit EvPrintHelp ;; ret Returned
    end.

(** The status the process ends with: 0 after a normal return, the code of
    [sys.exit], 1 after an exception nobody caught. *)
Definition process_exit_code (r : res exit_status) : Z :=
  match r with
  | Ok Returned => 0
  | Ok (SysExit code) => code
  | Raise _ => 1
  end.

End Program.

(** * Definitions used to state the properties *)

(** The first intermediate, in the order of [intermediates], for which both
    keys are in the table. *)
Definition first_intermediate (table : gmap conv_key handler) (src dst : string)
    : option string :=
  List.find (λ mid, has_key table (src, mid) && has_key table (mid, dst)) intermediates.

(** Both hops through [mid] have a handler. *)
Definition both_keys (table : gmap conv_key handler) (src mid dst : string) : Prop :=
  has_key table (src, mid) = true ∧ has_key table (mid, dst) = true.

(** The [os.remove] call [safe_remove p] makes, if any. *)
Definition removal (files : gset string) (p : string) : list event :=
  if bool_decide (p ∈ files) then [EvRemove p] else [].

(** The file system [safe_remove p] leaves: [p] is gone, unless it exists
    and [os.remove] raises, which leaves everything as it is. *)
Definition after_remove (X : externals) (files : gset string) (p : string) : gset string :=
  if bool_decide (p ∈ files) then
    match remove_sem X p files with
    | None => files ∖ {[p]}
    | Some _ => files
    end
  else files.

(** The line [print] of the error a failed [convert_file] shows. *)
Definition error_line (r : option exn) : list event :=
  match r with Some e => [EvPrintError e] | None => [] end.

(** Did the call return without raising? *)
Definition succeeded (r : option exn) : bool :=
  match r with Some _ => false | None => true end.

(** A string with no dot in it. *)
Definition dotless (s : string) : Prop := Py.rfind_dot s = None.

(** The file system the two handlers of a two-hop conversion leave, before
    the clean-up: that of the first handler if it raises, else that of the
    second. *)
Definition two_hop_files (X : externals) (h1 h2 : handler)
    (inp temp out : string) (files : gset string) : gset string :=
  let '(r1, files1) := handler_sem X h1 inp temp files in
  match r1 with
  | Some _ => files1
  | None => (handler_sem X h2 temp out files1).2
  end.

(** What a two-hop conversion through the temporary path [temp] does: run
    [h1] from the input to [temp]; if it returns, run [h2] from [temp] to the
    output; on every exit [safe_remove] the path [temp]; print the error of
    the step that raised, if one did. *)
Definition two_hop_outcome (X : externals) (h1 h2 : handler)
    (inp temp out : string) (w : world) : res bool * world :=
  let '(r1, files1) := handler_sem X h1 inp temp (fs w) in
  match r1 with
  | Some e1 =>
      (Ok false,
       World (after_remove X files1 temp) (converters w)
         (trace w ++ [EvHandler h1 inp temp] ++ removal files1 temp ++ [EvPrintError e1]))
  | None =>
      let '(r2, files2) := handler_sem X h2 temp out files1 in
      (Ok (succeeded r2),
       World (after_remove X files2 temp) (converters w)
         (trace w ++ [EvHandler h1 inp temp; EvHandler h2 temp out]
            ++ removal files2 temp ++ error_line r2))
  end.

(** Spellings of one extension: upper or lower case, a leading dot,
    "jpeg" for "jpg", and what these generate. *)
Inductive ext_variant : string → string → Prop :=
  | variant_upper s : ext_variant s (Py.upper s)
  | variant_lower s : ext_variant s (Py.lower s)
  | variant_dot s : ext_variant s ("." +:+ s)
  | variant_jpeg : ext_variant "jpg" "jpeg"
  | variant_refl s : ext_variant s s
  | variant_sym s t : ext_variant s t → ext_variant t s
  | variant_trans s t u : ext_variant s t → ext_variant t u → ext_variant s u.

(** The decision [convert_file] takes at lines 585-611: a direct handler, a
    chain, or no conversion.  It is computed from the normalized extensions. *)
Inductive route : Type :=
  | Direct (h : handler)
  | TwoHop (chain : list conv_key)
  | Unsupported.

Definition lookup_route (table : gmap conv_key handler) (src dst : string) : route :=
  match table !! (norm_ext src, norm_ext dst) with
  | Some h => Direct h
  | None =>
      match find_chain table (norm_ext src) (norm_ext dst) with
      | Some (step :: steps) => TwoHop (step :: steps)
      | _ => Unsupported
      end
  end.

(** [convert_file] with its decision given. *)
Definition convert_via (X : externals) (r : route) (inp out : string) : M bool :=
  try_except
    (match r with
     | Direct h => call_handler X h inp out
     | TwoHop chain => run_chain X inp out chain
     | Unsupported =>
         raise (Exn ValueError
                  ("Unsupported conversion: " +:+ file_ext inp +:+ " -> " +:+ file_ext out))
     end ;;
     ret true)
    (λ e, emit (EvPrintError e) ;; ret false).

(** [w'] comes after [w]: the table is the same, and the trace has grown by
    events that all satisfy [P]. *)
Definition extends (P : event → Prop) (w w' : world) : Prop :=
  converters w' = converters w
  ∧ ∃ evs, trace w' = trace w ++ evs ∧ Forall P evs.

(** Every run of [m] leaves a world that comes after the one it started in. *)
Definition respects {A} (P : event → Prop) (m : M A) : Prop :=
  ∀ w, extends P w (m w).2.

(** The same for the loop of [convert_file], which also returns its
    [temp_files]. *)
Definition respects_loop (P : event → Prop)
    (m : world → (res unit * list string) * world) : Prop :=
  ∀ w, extends P w (m w).2.

(** The entry points of the program: what the menus and the argument front
    end call. *)
Inductive operation : Type :=
  | Op_safe_remove (path : string)
  | Op_dispatch (src dst inp out : string)
  | Op_convert_file (inp out : string)
  | Op_merge_pdfs (inputs : list string) (out : string)
  | Op_split_pdf (inp : option string) (outdir : string)
  | Op_compress_pdf (inp out : option string)
  | Op_rotate_pdf (inp out : option string) (deg : Z)
  | Op_watermark_pdf (inp out : option string) (text : string)
  | Op_doctor
  | Op_cli_mode (args : cli_args) (argv : list string).

(** The world an operation leaves, whether it returns or raises. *)
Definition run_operation (X : externals) (op : operation) (w : world) : world :=
  match op with
  | Op_safe_remove path => (safe_remove X path w).2
  | Op_dispatch src dst inp out => (dispatch X src dst inp out w).2
  | Op_convert_file inp out => (convert_file X inp out w).2
  | Op_merge_pdfs inputs out => (merge_pdfs X inputs out w).2
  | Op_split_pdf inp outdir => (split_pdf X inp outdir w).2
  | Op_compress_pdf inp out => (compress_pdf X inp out w).2
  | Op_rotate_pdf inp out deg => (rotate_pdf X inp out deg w).2
  | Op_watermark_pdf inp out text => (watermark_pdf X inp out text w).2
  | Op_doctor => (doctor X w).2
  | Op_cli_mode args argv => (cli_mode X args argv w).2
  end.

(** A session: operations one after the other. *)
Definition run_operations (X : externals) (ops : list operation) (w : world) : world :=
  foldl (λ w op, run_operation X op w) w ops.

(** No condition on the events. *)
Definition any_event (ev : event) : Prop := True.

(** The library calls of a [rotate_pdf] that returns, on a PDF of [n]
    pages: a writer, then for each page in order its rotation by [d] and
    its addition to the writer, then the write to [out]. *)
Definition rotate_calls (d : Z) (n : nat) (out : string) : list event :=
  [EvLib PdfWriter_new]
  ++ flat_map (λ i, [EvLib (Page_rotate i d); EvLib (Writer_add_page i)]) (seq 0 n)
  ++ [EvLib (Writer_write out)].

(** The angle of a [page.rotate] event is [d]. *)
Definition rotates_by (d : Z) (ev : event) : Prop :=
  match ev with
  | EvLib (Page_rotate _ r) => r = d
  | _ => True
  end.

(** The event is not a [merger.write]. *)
Definition not_merger_write (ev : event) : Prop :=
  match ev with
  | EvLib (Merger_write _) => False
  | _ => True
  end.

(** The command line [convctl --merge a.pdf out.pdf] and what argparse makes
    of it: one input only. *)
Definition merge_one_argv : list string := ["convctl"; "--merge"; "a.pdf"; "out.pdf"].
Definition merge_one_args : cli_args :=
  CliArgs (Some "a.pdf") (Some "out.pdf") true false false None None false false false.

(** The command line [convctl --rotate 90 missing.pdf out.pdf]. *)
Definition rotate_missing_argv : list string :=
  ["convctl"; "--rotate"; "90"; "missing.pdf"; "out.pdf"].
Definition rotate_missing_args : cli_args :=
  CliArgs (Some "missing.pdf") (Some "out.pdf") false false false (Some 90%Z) None
          false false false.

(** The command line [convctl input output], no flag. *)
Definition convert_args (input output : string) : cli_args :=
  CliArgs (Some input) (Some output) false false false None None false false false.

(** ** Sample behaviours of the external tools *)

(** The path a writing library call creates. *)
Definition writes_file (c : libcall) (files : gset string) : gset string :=
  match c with
  | Merger_write out | Writer_write out | Makedirs out => files ∪ {[out]}
  | _ => files
  end.

(** External tools of which the PDF-to-image handlers fail and the others
    succeed. *)
Definition images_fail : externals :=
  Externals (λ h _ out files,
               match h with
               | pdf_to_images_lambda _ =>
                   (Some (Exn RuntimeError "poppler not installed"), files)
               | _ => (None, files ∪ {[out]})
               end)
            true true true
            (λ _ _, None) (λ c files, (None, writes_file c files)) (λ _ _, inr 2) (λ _ _, None).

(** External tools that always succeed: a handler creates its output file,
    a PDF has two pages. *)
Definition obliging : externals :=
  Externals (λ _ _ out files, (None, files ∪ {[out]})) true true true
            (λ _ _, None) (λ c files, (None, writes_file c files)) (λ _ _, inr 2) (λ _ _, None).

(** External tools of which every handler fails, leaving a partial output
    file behind. *)
Definition failing : externals :=
  Externals (λ _ _ out files, (Some (Exn RuntimeError "tool failed"), files ∪ {[out]}))
            true true true
            (λ _ _, None) (λ c files, (None, writes_file c files)) (λ _ _, inr 2) (λ _ _, None).

(** A machine on which neither pypdf nor PyPDF2 is installed. *)
Definition no_pypdf : externals :=
  Externals (λ _ _ out files, (None, files ∪ {[out]})) false false true
            (λ _ _, None) (λ c files, (None, writes_file c files)) (λ _ _, inr 2) (λ _ _, None).

(** * More of the program *)

(** ** get_output_path (lines 89-95)

    [None] is the [ValueError] of [with_suffix]. *)
Definition get_output_path (input_path new_ext : string) : option string :=
  let new_ext := if String.prefix "." new_ext then new_ext else "." +:+ new_ext in
  Py.with_suffix input_path new_ext.

(** ** txt_to_pdf (lines 222-267)

    The text is ASCII.  What reading the input file gives is the list of
    its lines and, when [open] or a read raises, the exception.  The
    arithmetic on the vertical position is a parameter: [num] with its
    subtraction and comparison, [of_int] for the integer literals and
    [height] for [A4[1]]. *)

Module Txt.

(** [c.isspace()] *)
Definition is_space (c : ascii) : bool :=
  let n := nat_of_ascii c in
  ((9 <=? n)%nat && (n <=? 13)%nat) || ((28 <=? n)%nat && (n <=? 32)%nat).

(** The pieces between the whitespace characters of [s], empty ones
    included. *)
Fixpoint pieces (s : string) : list string :=
  match s with
  | EmptyString => [EmptyString]
  | String c s' =>
      if is_space c then EmptyString :: pieces s'
      else match pieces s' with
           | w :: ws => String c w :: ws
           | [] => [String c EmptyString]
           end
  end.

(** [s.split()] *)
Definition split (s : string) : list string :=
  filter (λ w : string, w ≠ "") (pieces s).

(** [s.lstrip(chars)] and [s.rstrip(chars)], for the characters [f]
    holds of. *)
Fixpoint lstrip_by (f : ascii → bool) (s : string) : string :=
  match s with
  | EmptyString => EmptyString
  | String c s' => if f c then lstrip_by f s' else s
  end.

Fixpoint rstrip_by (f : ascii → bool) (s : string) : string :=
  match s with
  | EmptyString => EmptyString
  | String c s' =>
      match rstrip_by f s' with
      | EmptyString => if f c then EmptyString else String c EmptyString
      | r => String c r
      end
  end.

(** [s.rstrip()] and [s.strip()] *)
Definition rstrip (s : string) : string := rstrip_by is_space s.
Definition strip (s : string) : string := lstrip_by is_space (rstrip_by is_space s).

Fixpoint has_space (s : string) : bool :=
  match s with
  | EmptyString => false
  | String c s' => is_space c || has_space s'
  end.

Section Layout.

Variable num : Type.
Variable of_int : Z → num.
Variable sub : num → num → num.
Variable ltb : num → num → bool.
Variable height : num.

(** The calls made on the canvas [c]. *)
Inductive canvas_op : Type :=
  | Canvas_new (out : string)
  | DrawString (x y : num) (text : string)
  | ShowPage
  | Save.

Definition x_margin : num := of_int 40.
Definition y_margin : num := of_int 40.
Definition line_height : num := of_int 14.

(** [height - y_margin] *)
Definition top : num := sub height y_margin.

(** The local [y] and the calls made so far. *)
Definition pen : Type := (num * list canvas_op)%type.

(** [c.drawString(x_margin, y, text); y -= line_height] *)
Definition draw (text : string) (p : pen) : pen :=
  (sub p.1 line_height, p.2 ++ [DrawString x_margin p.1 text]).

(** [if y < y_margin: c.showPage(); y = height - y_margin] *)
Definition page_break (p : pen) : pen :=
  if ltb p.1 y_margin then (top, p.2 ++ [ShowPage]) else p.

(** The loop of lines 241-250 over the words of a long line. *)
Fixpoint wrap_words (words : list string) (current_line : string) (p : pen)
    : string * pen :=
  match words with
  | [] => (current_line, p)
  | word :: rest =>
      if (String.length current_line + String.length word + 1 <? 100)%nat
      then wrap_words rest
             (if String.eqb current_line "" then word
              else current_line +:+ " " +:+ word) p
      else wrap_words rest word (page_break (draw current_line p))
  end.

(** The body of the loop over the lines of the file (lines 236-259). *)
Definition draw_line (line : string) (p : pen) : pen :=
  let line := rstrip line in
  page_break
    (if (100 <? String.length line)%nat then
       let '(current_line, p) := wrap_words (split line) "" p in
       if String.eqb current_line "" then p else draw current_line p
     else draw line p).

Definition draw_lines (lines : list string) (p : pen) : pen :=
  fold_left (λ p line, draw_line line p) lines p.

(** The canvas calls before [c.save()] return; [save_error] is what
    [c.save()], which writes the file, raises, if anything. *)
Definition txt_to_pdf (reportlab : bool) (lines : list string) (failure : option exn)
    (save_error : option exn) (out : string) : res unit * list canvas_op :=
  if reportlab then
    let p := draw_lines lines (top, [Canvas_new out]) in
    (match save_error, failure with
     | Some e, _ => Raise e
     | None, Some e => Raise (Exn RuntimeError ("Text conversion failed: " +:+ exn_msg e))
     | None, None => Ok ()
     end,
     p.2 ++ [Save])
  else (Raise (Exn RuntimeError "reportlab not installed. Run: pip install reportlab"), []).

(** The strings drawn, in order. *)
Definition drawn (ops : list canvas_op) : list string :=
  flat_map (λ op, match op with DrawString _ _ text => [text] | _ => [] end) ops.

(** A call in the middle of a document: a string or a page break. *)
Definition is_body_op (op : canvas_op) : Prop :=
  match op with DrawString _ _ _ | ShowPage => True | _ => False end.

(** A string drawn at the left margin and not below the bottom margin. *)
Definition in_page (op : canvas_op) : Prop :=
  match op with
  | DrawString x y _ => x = x_margin ∧ ltb y y_margin = false
  | _ => True
  end.

(** What a step of the layout keeps: the calls made so far stay, and the
    calls added are strings and page breaks; the strings added are the ones
    in [texts]. *)
Definition adds (texts : list string) (p p' : pen) : Prop :=
  ∃ added, p'.2 = p.2 ++ added ∧ Forall is_body_op added ∧ drawn added = texts.

(** The position is not below the bottom margin, and no string so far was
    drawn below it. *)
Definition pen_ok (p : pen) : Prop := ltb p.1 y_margin = false ∧ Forall in_page p.2.

End Layout.

Arguments Canvas_new {num} out.
Arguments DrawString {num} x y text.
Arguments ShowPage {num}.
Arguments Save {num}.

(** A single word: not empty, no whitespace. *)
Definition is_word (t : string) : Prop := t ≠ "" ∧ has_space t = false.

(** A drawn string that fits the line, or cannot be broken. *)
Definition fits (t : string) : Prop := String.length t ≤ 100 ∨ is_word t.

End Txt.

(** The page of reportlab's [A4], with Python's floats: IEEE 754 binary64. *)
Module PageA4.

Import PrimFloat.

(** [A4[1]], 297 mm in points: 841.8897637795277. *)
Definition height : float := 0x1.a4f1e3c78f1e5p+9%float.

(** An integer literal of [txt_to_pdf] (40 or 14) in float arithmetic. *)
Definition of_int (z : Z) : float := of_uint63 (Uint63.of_Z z).

(** The position after [k] strings on a page. *)
Fixpoint y_at (k : nat) : float :=
  match k with
  | O => sub height (of_int 40)
  | S k' => sub (y_at k') (of_int 14)
  end.

End PageA4.

(** [txt_to_pdf] with reportlab installed, on that page. *)
Definition txt_to_pdf_A4 (lines : list string) (failure save_error : option exn)
    (out : string) : res unit * list (Txt.canvas_op PrimFloat.float) :=
  Txt.txt_to_pdf PrimFloat.float PageA4.of_int PrimFloat.sub PrimFloat.ltb PageA4.height
    true lines failure save_error out.

(** ** get_input_file (lines 77-87) *)

(** What a prompt loop writes to the console. *)
Inductive console : Type :=
  | Prompt (s : string)      (* the prompt of [input(s)] *)
  | Printed (s : string).    (* [print(s)] *)

(** The double quote character. *)
Definition is_quote (c : ascii) : bool := Ascii.eqb c (ascii_of_nat 34).

(** [input(...).strip()], then [strip] again with the double quote as
    the character to strip. *)
Definition clean_path (line : string) : string :=
  Txt.lstrip_by is_quote (Txt.rstrip_by is_quote (Txt.strip line)).

(** [stdin] holds the lines still to be read; [input] past the last one
    raises [EOFError].  The result comes with the lines left unread and
    what was written. *)
Fixpoint get_input_file (prompt : string) (files : gset string) (stdin : list string)
    : res string * list string * list console :=
  match stdin with
  | [] => (Raise (Exn LibraryError "EOF when reading a line"), [], [Prompt (prompt +:+ ": ")])
  | line :: rest =>
      let filepath := clean_path line in
      if String.eqb filepath "" then
        let '(r, rest', out) := get_input_file prompt files rest in
        (r, rest', Prompt (prompt +:+ ": ") :: Printed "❌ Please enter a file path." :: out)
      else if negb (bool_decide (filepath ∈ files)) then
        let '(r, rest', out) := get_input_file prompt files rest in
        (r, rest',
         Prompt (prompt +:+ ": ") :: Printed ("❌ File not found: " +:+ filepath) :: out)
      else (Ok filepath, rest, [Prompt (prompt +:+ ": ")])
  end.

(** ** pdf_to_images (lines 320-354) and the lambdas of lines 530-532 *)

Module Img.

(** [old in s] *)
Fixpoint occurs (old s : string) : bool :=
  String.prefix old s
  || match s with
     | EmptyString => false
     | String _ s' => occurs old s'
     end.

(** [s.replace(old, new)] for a non-empty [old]: the occurrences are taken
    from the left and do not overlap.  [skip] counts the characters of an
    occurrence still to be passed over. *)
Fixpoint replace_go (old new : string) (skip : nat) (s : string) : string :=
  match s with
  | EmptyString => EmptyString
  | String c s' =>
      match skip with
      | S k => replace_go old new k s'
      | O =>
          if String.prefix old s
          then new +:+ replace_go old new (String.length old - 1) s'
          else String c (replace_go old new 0 s')
      end
  end.

Definition replace (old new s : string) : string := replace_go old new 0 s.

(** [s.format(page=i)] on the strings whose replacement fields are
    [{page}] and [{page:03d}], with the doubled braces as escapes.  On any
    other use of a brace the result is [None]: Python raises there, or
    formats a field this development does not describe. *)
Fixpoint format_go (i : nat) (skip : nat) (s : string) : option string :=
  match s with
  | EmptyString => Some EmptyString
  | String c s' =>
      match skip with
      | S k => format_go i k s'
      | O =>
          if String.prefix "{{" s then String "{" <$> format_go i 1 s'
          else if String.prefix "}}" s then String "}" <$> format_go i 1 s'
          else if String.prefix "{page:03d}" s then
            String.append (pad3 i) <$> format_go i 9 s'
          else if String.prefix "{page}" s then
            String.append (Py.str_of_nat i) <$> format_go i 5 s'
          else if Ascii.eqb c "{" || Ascii.eqb c "}" then None
          else String c <$> format_go i 0 s'
      end
  end.

Definition format_page (s : string) (i : nat) : option string := format_go i 0 s.

(** What [convert_from_path] does. *)
Inductive converted : Type :=
  | PDFInfoNotInstalledError
  | ConvertError (e : exn)
  | Pages (n : nat).

(** [Path(out_pattern).suffix[1:].lower() or "png"] *)
Definition fmt_of (out_pattern : string) : string :=
  let fmt := file_ext out_pattern in
  if String.eqb fmt "" then "png" else fmt.

(** Line 350. *)
Definition base_of (out_pattern : string) : string :=
  let fmt := fmt_of out_pattern in
  replace ("." +:+ fmt) "" (replace ("{page}." +:+ fmt) "" out_pattern).

(** [out_path] for page [i], counted from 1. *)
Definition out_path (out_pattern : string) (i : nat) : option string :=
  if occurs "{page}" out_pattern
  then Some (base_of out_pattern +:+ "_" +:+ pad3 i +:+ "." +:+ fmt_of out_pattern)
  else format_page out_pattern i.

(** [fmt.upper() if fmt != "jpg" else "JPEG"] *)
Definition save_format (fmt : string) : string :=
  if negb (String.eqb fmt "jpg") then Py.upper fmt else "JPEG".

(** The calls [page.save(out_path, format)] of the loop, for the pages
    numbered [pages]. *)
Fixpoint saves (out_pattern : string) (pages : list nat) : option (list (string * string)) :=
  match pages with
  | [] => Some []
  | i :: rest =>
      match out_path out_pattern i, saves out_pattern rest with
      | Some p, Some l => Some ((p, save_format (fmt_of out_pattern)) :: l)
      | _, _ => None
      end
  end.

(** The result and the [page.save] calls; the calls return. *)
Definition pdf_to_images (has_pdf2image is_windows : bool) (conv : converted)
    (out_pattern : string) : option (res unit * list (string * string)) :=
  if has_pdf2image then
    match conv with
    | PDFInfoNotInstalledError =>
        Some (Raise (Exn RuntimeError
                (if is_windows then "Poppler not found. Install: choco install poppler"
                 else "poppler not installed. Install: sudo apt install poppler-utils")), [])
    | ConvertError e =>
        Some (Raise (Exn RuntimeError ("PDF conversion failed: " +:+ exn_msg e)), [])
    | Pages n => (λ l, (Ok (), l)) <$> saves out_pattern (seq 1 n)
    end
  else Some (Raise (Exn RuntimeError "pdf2image not installed. Run: pip install pdf2image"), []).

(** The handler [CONVERTERS] holds for [sfx]:
    [lambda i, o: pdf_to_images(i, o.replace(sfx, "_{page:03d}" + sfx))]. *)
Definition lambda (sfx : string) (has_pdf2image is_windows : bool) (conv : converted)
    (o : string) : option (res unit * list (string * string)) :=
  pdf_to_images has_pdf2image is_windows conv (replace sfx ("_{page:03d}" +:+ sfx) o).

(** No brace in the string. *)
Fixpoint no_brace (s : string) : bool :=
  match s with
  | EmptyString => true
  | String c s' => negb (Ascii.eqb c "{" || Ascii.eqb c "}") && no_brace s'
  end.

End Img.

(** ** The output formats the menus offer *)

(** [formats] of [menu_image_conversions] (line 680). *)
Definition image_menu_formats : list (string * string) :=
  [("PNG", "png"); ("JPG", "jpg"); ("BMP", "bmp"); ("WEBP", "webp"); ("PDF", "pdf")].

(** Lines 707-709, for [idx = int(fmt_choice) - 1]. *)
Definition image_menu_ext (idx : Z) : option string :=
  if (0 <=? idx)%Z && (idx <? Z.of_nat (length image_menu_formats))%Z
  then snd <$> image_menu_formats !! Z.to_nat idx
  else None.

(** [all_formats] of [menu_custom_conversion] (line 952). *)
Definition all_formats : list string :=
  ["PDF"; "DOCX"; "PNG"; "JPG"; "BMP"; "WEBP"; "MP3"; "WAV"].

(** [int(s)] for a string of decimal digits. *)
Definition nat_of_digits (s : string) : option nat :=
  Nat.of_uint <$> NilEmpty.uint_of_string s.

(** [s.isdigit()] *)
Definition is_digit (c : ascii) : bool :=
  (48 <=? nat_of_ascii c)%nat && (nat_of_ascii c <=? 57)%nat.

Fixpoint all_digits (s : string) : bool :=
  match s with
  | EmptyString => true
  | String c s' => is_digit c && all_digits s'
  end.

Definition isdigit (s : string) : bool := negb (String.eqb s "") && all_digits s.

(** Lines 957-966 of [menu_custom_conversion]: the extension chosen by
    what the user typed, [None] when [out_ext] is [None] or empty. *)
Definition custom_out_ext (typed : string) : option string :=
  let choice := Py.upper (Txt.strip typed) in
  let out_ext :=
    if isdigit choice then
      match nat_of_digits choice with
      | Some n =>
          let idx := (Z.of_nat n - 1)%Z in
          if (0 <=? idx)%Z && (idx <? Z.of_nat (length all_formats))%Z
          then Py.lower <$> all_formats !! Z.to_nat idx
          else None
      | None => None
      end
    else Some (Py.lstrip_dots (Py.lower choice)) in
  match out_ext with
  | Some e => if String.eqb e "" then None else Some e
  | None => None
  end.

(** * Definitions used to state the further properties *)

(** The event is not the error line of [convert_file]. *)
Definition not_error_print (ev : event) : Prop :=
  match ev with EvPrintError _ => False | _ => True end.

(** The event is not a call of the handler stored under ("pdf", "jpeg"). *)
Definition not_jpeg_lambda (ev : event) : Prop :=
  match ev with
  | EvHandler (pdf_to_images_lambda ".jpeg") _ _ => False
  | _ => True
  end.

(** The formats a conversion can start from and end in, and the media pairs. *)
Definition document_sources : list string :=
  ["pdf"; "docx"; "doc"; "txt"; "md"; "png"; "jpg"; "bmp"; "webp"].
Definition document_targets : list string := ["pdf"; "docx"; "png"; "jpg"].
Definition media_pairs : list conv_key := [("mp4", "mp3"); ("wav", "mp3"); ("mp4", "wav")].

(** The pairs of normalized formats [convert_file] has a route for. *)
Definition supported (src dst : string) : Prop :=
  (src ∈ document_sources ∧ dst ∈ document_targets) ∨ (src, dst) ∈ media_pairs.


(** The error of a PDF operation whose input path does not exist: the
    imports are tried first. *)
Definition missing_input_error (X : externals) (inp : string) : exn :=
  if has_PdfReader X then Exn FileNotFoundError ("File not found: " +:+ inp)
  else Exn RuntimeError pypdf_missing.

(** The same for [watermark_pdf], which imports reportlab too. *)
Definition missing_input_error_watermark (X : externals) (inp : string) : exn :=
  if has_PdfReader X then
    if has_reportlab X then Exn FileNotFoundError ("File not found: " +:+ inp)
    else Exn RuntimeError "reportlab not installed. Run: pip install reportlab"
  else Exn RuntimeError pypdf_missing.

(** An event that is not a write to the file system. *)
Definition no_write (ev : event) : Prop :=
  match ev with
  | EvLib (Writer_write _) | EvLib (Merger_write _) | EvLib (Makedirs _)
  | EvRemove _ | EvHandler _ _ _ => False
  | _ => True
  end.

(** [m] changes neither the file system nor the table, and makes no write. *)
Definition reads_only {A} (m : M A) : Prop :=
  ∀ w, fs (m w).2 = fs w ∧ extends no_write w (m w).2.

(** How a run that is to end with [writer.write] to [o] went, from [w]:
    it raised before the write with the file system untouched, or the
    write was its last action and its result is the result of the write. *)
Definition write_last (X : externals) (o : string) (w : world)
    (run : res unit * world) : Prop :=
  (∃ e evs, run.1 = Raise e ∧ fs run.2 = fs w
            ∧ trace run.2 = trace w ++ evs ∧ Forall no_write evs)
  ∨ (∃ evs, run = lib_io X (Writer_write o) (World (fs w) (converters w) (trace w ++ evs))
            ∧ Forall no_write evs).

(** The path [split_pdf] writes page [i] (counted from 0) to. *)
Definition page_path (outdir : string) (i : nat) : string :=
  path_join outdir ("page_" +:+ pad3 (i + 1) +:+ ".pdf").

(** The library calls [split_pdf] makes for page [i]. *)
Definition split_page_calls (outdir : string) (i : nat) : list event :=
  [EvLib PdfWriter_new; EvLib (Writer_add_page i); EvLib (Writer_write (page_path outdir i))].

(** The arguments [cli_mode] acts on: [--batch] and [--cli] are never
    read, and a [--rotate 0] or an empty [--watermark] is falsy. *)
Definition effective_args (args : cli_args) : cli_args :=
  CliArgs (a_input args) (a_output args) (a_merge args) (a_split args) (a_compress args)
          (if truthy_int (a_rotate args) then a_rotate args else None)
          (if truthy_str (a_watermark args) then a_watermark args else None)
          false (a_doctor args) false.

(** [convctl --rotate 0 input output] *)
Definition rotate_zero_args (input output : string) : cli_args :=
  CliArgs (Some input) (Some output) false false false (Some 0%Z) None false false false.

(** Counting the strings on the pages: after [k] strings on the current
    page, a string is the next one if the page holds fewer than
    [per_page], and a page break must come after exactly [per_page]. *)
Definition fill_step {num} (per_page : nat) (st : option nat) (op : Txt.canvas_op num)
    : option nat :=
  match st, op with
  | Some k, Txt.DrawString _ _ _ => if (k <? per_page)%nat then Some (S k) else None
  | Some k, Txt.ShowPage => if (k =? per_page)%nat then Some 0%nat else None
  | _, _ => st
  end.

(** [Some k]: every page break comes after exactly [per_page] strings, and
    the last page holds [k]. *)
Definition page_fill {num} (per_page : nat) (ops : list (Txt.canvas_op num)) : option nat :=
  fold_left (fill_step per_page) ops (Some 0%nat).

(** The position is that of [k] strings on the page, fewer than 55. *)
Definition on_page (p : Txt.pen PrimFloat.float) : Prop :=
  ∃ k, k < 55 ∧ p.1 = PageA4.y_at k ∧ page_fill 55 p.2 = Some k.

(** A line the loop accepts. *)
Definition acceptable (files : gset string) (line : string) : Prop :=
  clean_path line ≠ "" ∧ clean_path line ∈ files.

(** Is the console item a prompt? *)
Definition is_prompt (c : console) : bool :=
  match c with Prompt _ => true | Printed _ => false end.

(** The path a handler for [sfx] saves page [i] to, for the output path
    [stem ++ sfx]. *)
Definition numbered (stem sfx : string) (i : nat) : string :=
  stem +:+ "_" +:+ pad3 i +:+ sfx.

(** [Path(p).stem] *)
Definition path_stem (p : string) : string :=
  Py.stake (String.length (Py.name p) - String.length (Py.name_suffix (Py.name p)))
    (Py.name p).

(** ** Further sample behaviours of the external tools *)

(** External tools that always succeed, on a machine where [os.remove]
    refuses every file. *)
Definition undeletable : externals :=
  Externals (λ _ _ out files, (None, files ∪ {[out]})) true true true
            (λ _ _, None) (λ c files, (None, writes_file c files)) (λ _ _, inr 2)
            (λ p _, Some ("[Errno 13] Permission denied: '" +:+ p +:+ "'")).

(** External tools that are installed and work, on a machine that is not
    Windows: a handler raises when its input file is missing and creates its
    output file otherwise; a PDF has two pages, and a PDF-to-image handler
    saves the files that [Img.lambda] names for them. *)
Definition working : externals :=
  Externals
    (λ h inp out files,
       if bool_decide (inp ∈ files) then
         match h with
         | pdf_to_images_lambda sfx =>
             match Img.lambda sfx true false (Img.Pages 2) out with
             | Some (r, saved) =>
                 (match r with Ok _ => None | Raise e => Some e end,
                  files ∪ list_to_set saved.*1)
             | None => (Some (Exn ValueError "Invalid format string"), files)
             end
         | _ => (None, files ∪ {[out]})
         end
       else (Some (Exn FileNotFoundError
                     ("[Errno 2] No such file or directory: '" +:+ inp +:+ "'")), files))
    true true true
    (λ _ _, None) (λ c files, (None, writes_file c files)) (λ _ _, inr 2)
    (λ _ _, None).

(** * Properties *)

(** ** The conversion table *)

Lemma CONVERTERS_keys_NoDup : NoDup (CONVERTERS_items.*1).
Proof. apply (bool_decide_unpack _). vm_compute. exact I. Qed.

Lemma CONVERTERS_lookup_Some k h :
  CONVERTERS !! k = Some h ↔ (k, h) ∈ CONVERTERS_items.
Proof.
  unfold CONVERTERS. symmetry. apply elem_of_list_to_map, CONVERTERS_keys_NoDup.
Qed.

Lemma has_key_true table k : has_key table k = true ↔ is_Some (table !! k).
Proof.
  unfold has_key. destruct (table !! k); split; intros H; done.
Qed.

Lemma has_key_false table k : has_key table k = false ↔ table !! k = None.
Proof. unfold has_key. by destruct (table !! k). Qed.

(** Splits a membership in a literal list into one goal per element. *)
Ltac list_cases H :=
  repeat (apply elem_of_cons in H as [H | H]); [.. | by apply elem_of_nil in H].

(** What can come before "jpg" and after "jpg" in a key. *)
Lemma key_to_jpg src :
  has_key CONVERTERS (src, "jpg") = true → src = "pdf" ∨ src = "png".
Proof.
  intros [h H]%has_key_true. apply CONVERTERS_lookup_Some in H.
  list_cases H; simplify_eq; auto.
Qed.

Lemma key_from_jpg dst :
  has_key CONVERTERS ("jpg", dst) = true → dst = "pdf" ∨ dst = "png".
Proof.
  intros [h H]%has_key_true. apply CONVERTERS_lookup_Some in H.
  list_cases H; simplify_eq; auto.
Qed.

(** The formats a key can start with are not empty. *)
Lemma key_src_nonempty src dst : has_key CONVERTERS (src, dst) = true → src ≠ "".
Proof.
  intros [h H]%has_key_true. apply CONVERTERS_lookup_Some in H.
  list_cases H; simplify_eq; done.
Qed.

(** ** find_chain *)

Lemma jpeg_to_jpg_other s : s ≠ "jpeg" → jpeg_to_jpg s = s.
Proof.
  intros H. unfold jpeg_to_jpg. by destruct (String.eqb_spec s "jpeg").
Qed.

Lemma find_chain_first src dst :
  find_chain CONVERTERS src dst =
    match first_intermediate CONVERTERS src dst with
    | Some mid => Some [(jpeg_to_jpg src, mid); (mid, jpeg_to_jpg dst)]
    | None => None
    end.
Proof.
  unfold find_chain, first_intermediate, intermediates.
  destruct (String.eqb_spec src "jpeg") as [-> | Hs];
    destruct (String.eqb_spec dst "jpeg") as [-> | Hd].
  - vm_compute. reflexivity.
  - cbn [find_chain_from List.find].
    replace (has_key CONVERTERS ("jpeg", "pdf")) with true by (vm_compute; reflexivity).
    replace (has_key CONVERTERS ("jpeg", "png")) with true by (vm_compute; reflexivity).
    replace (has_key CONVERTERS ("jpeg", "jpg")) with false by (vm_compute; reflexivity).
    destruct (String.eqb_spec dst "jpeg") as [? | _]; [done |].
    destruct (has_key CONVERTERS ("pdf", dst)) eqn:Hpdf; [reflexivity |].
    destruct (has_key CONVERTERS ("png", dst)) eqn:Hpng; [reflexivity |].
    destruct (has_key CONVERTERS ("jpg", dst)) eqn:Hjpg; [| reflexivity].
    apply key_from_jpg in Hjpg as [-> | ->]; vm_compute in Hpdf, Hpng; congruence.
  - cbn [find_chain_from List.find].
    replace (has_key CONVERTERS ("pdf", "jpeg")) with true by (vm_compute; reflexivity).
    replace (has_key CONVERTERS ("png", "jpeg")) with true by (vm_compute; reflexivity).
    replace (has_key CONVERTERS ("jpg", "jpeg")) with false by (vm_compute; reflexivity).
    destruct (String.eqb_spec src "jpeg") as [? | _]; [done |].
    rewrite (jpeg_to_jpg_other src) by done.
    destruct (has_key CONVERTERS (src, "pdf")) eqn:Hpdf; [reflexivity |].
    destruct (has_key CONVERTERS (src, "png")) eqn:Hpng; [reflexivity |].
    destruct (has_key CONVERTERS (src, "jpg")) eqn:Hjpg; [| reflexivity].
    apply key_to_jpg in Hjpg as [-> | ->]; vm_compute in Hpdf, Hpng; congruence.
  - cbn [find_chain_from List.find].
    destruct (String.eqb_spec src "jpeg") as [? | _]; [done |].
    destruct (String.eqb_spec dst "jpeg") as [? | _]; [done |].
    rewrite !andb_false_l, !andb_false_r, !orb_false_r.
    rewrite (jpeg_to_jpg_other src), (jpeg_to_jpg_other dst) by done.
    destruct (has_key CONVERTERS (src, "pdf") && _); [reflexivity |].
    destruct (has_key CONVERTERS (src, "png") && _); [reflexivity |].
    destruct (has_key CONVERTERS (src, "jpg") && _); reflexivity.
Qed.

Lemma find_first_split {A} (f : A → bool) (before : list A) (x : A) (after : list A) :
  f x = true → (∀ y, y ∈ before → f y = false) →
  List.find f (before ++ x :: after) = Some x.
Proof.
  intros Hx. induction before as [| b before IH]; intros Hb; simpl.
  - by rewrite Hx.
  - rewrite (Hb b) by apply list_elem_of_here.
    apply IH. intros y Hy. apply Hb. by apply list_elem_of_further.
Qed.

Lemma find_none_all {A} (f : A → bool) (l : list A) :
  (∀ y, y ∈ l → f y = false) → List.find f l = None.
Proof.
  induction l as [| a l IH]; intros H; simpl; [done |].
  rewrite (H a) by apply list_elem_of_here.
  apply IH. intros y Hy. apply H. by apply list_elem_of_further.
Qed.

Lemma not_both_keys table src mid dst :
  ¬ both_keys table src mid dst →
  has_key table (src, mid) && has_key table (mid, dst) = false.
Proof.
  unfold both_keys. intros H.
  destruct (has_key table (src, mid)), (has_key table (mid, dst)); try done.
  by destruct H.
Qed.

(** C1. [find_chain] on the table of the program, for every source and
    destination format (so in particular for those whose normalized pair has
    no direct handler): it returns the two-hop chain through the first
    intermediate of ["pdf"; "png"; "jpg"] for which both (src, intermediate)
    and (intermediate, dst) are keys of [CONVERTERS]; it returns no chain when
    there is no such intermediate; and a chain it returns has two steps,
    never more. *)
Theorem find_chain_first_intermediate (src dst : string) :
  (∀ before mid after,
     intermediates = before ++ mid :: after →
     both_keys CONVERTERS src mid dst →
     (∀ m, m ∈ before → ¬ both_keys CONVERTERS src m dst) →
     find_chain CONVERTERS src dst
       = Some [(jpeg_to_jpg src, mid); (mid, jpeg_to_jpg dst)])
  ∧ ((∀ m, m ∈ intermediates → ¬ both_keys CONVERTERS src m dst) →
     find_chain CONVERTERS src dst = None)
  ∧ (∀ chain, find_chain CONVERTERS src dst = Some chain → length chain = 2).
Proof.
  rewrite find_chain_first. unfold first_intermediate. split; [| split].
  - intros before mid after -> [H1 H2] Hbefore.
    rewrite find_first_split; [done | by rewrite H1, H2 |].
    intros y Hy. by apply not_both_keys, Hbefore.
  - intros Hnone. rewrite find_none_all; [done |].
    intros y Hy. by apply not_both_keys, Hnone.
  - intros chain. destruct (List.find _ _); intros H; by simplify_eq.
Qed.

Lemma find_chain_first_intermediate_witness :
  find_chain CONVERTERS "docx" "png" = Some [("docx", "pdf"); ("pdf", "png")]
  ∧ find_chain CONVERTERS "bmp" "jpg" = Some [("bmp", "pdf"); ("pdf", "jpg")]
  ∧ find_chain CONVERTERS "pdf" "pdf" = Some [("pdf", "png"); ("png", "pdf")]
  ∧ find_chain CONVERTERS "heic" "png" = None.
Proof.
  split; [| split; [| split]].
  - apply (proj1 (find_chain_first_intermediate "docx" "png") [] "pdf" ["png"; "jpg"]).
    + reflexivity.
    + split; vm_compute; reflexivity.
    + intros m Hm. by apply elem_of_nil in Hm.
  - apply (proj1 (find_chain_first_intermediate "bmp" "jpg") [] "pdf" ["png"; "jpg"]).
    + reflexivity.
    + split; vm_compute; reflexivity.
    + intros m Hm. by apply elem_of_nil in Hm.
  - apply (proj1 (find_chain_first_intermediate "pdf" "pdf") ["pdf"] "png" ["jpg"]).
    + reflexivity.
    + split; vm_compute; reflexivity.
    + intros m Hm [H1 H2]. list_cases Hm. subst m. vm_compute in H1. discriminate.
  - apply (proj1 (proj2 (find_chain_first_intermediate "heic" "png"))).
    intros m Hm [H1 H2]. list_cases Hm; subst m; vm_compute in H1; discriminate.
Defined.

(** ** Strings and extensions *)

Example suffix_ex1 : Py.suffix "report.docx" = ".docx". Proof. reflexivity. Qed.
Example suffix_ex2 : Py.suffix "a/b.c/archive.tar.GZ" = ".GZ". Proof. reflexivity. Qed.
Example suffix_ex3 : Py.suffix ".bashrc" = "". Proof. reflexivity. Qed.
Example suffix_ex4 : Py.suffix "dir/file." = "". Proof. reflexivity. Qed.
Example suffix_ex5 : Py.suffix "a..b" = ".b". Proof. reflexivity. Qed.
Example with_suffix_ex1 : Py.with_suffix "docs/report.docx" ".tmp_0.pdf" = Some "docs/report.tmp_0.pdf".
Proof. reflexivity. Qed.
Example with_suffix_ex2 : Py.with_suffix "./a//b.png" ".tmp_0.pdf" = Some "a/b.tmp_0.pdf".
Proof. reflexivity. Qed.
Example with_suffix_ex3 : Py.with_suffix "/x/y" ".pdf" = Some "/x/y.pdf".
Proof. reflexivity. Qed.
Example suffix_ex6 : Py.suffix "a.pdf/" = ".pdf" ∧ Py.suffix "x/.hidden.txt" = ".txt".
Proof. split; reflexivity. Qed.
Example with_suffix_ex4 : Py.with_suffix "//x/y.pdf" ".tmp_0.png" = Some "//x/y.tmp_0.png".
Proof. reflexivity. Qed.
Example with_suffix_ex5 : Py.with_suffix "/" ".pdf" = None ∧ Py.with_suffix "a.b" "pdf" = None.
Proof. split; reflexivity. Qed.
Example norm_ext_ex :
  norm_ext ".JPEG" = "jpg" ∧ norm_ext "Pdf" = "pdf" ∧ norm_ext "..docx" = "docx"
  ∧ file_ext "photo.JPEG" = "jpeg" ∧ raw_ext "a/b.tar.GZ" = "GZ" ∧ file_ext "README" = "".
Proof. repeat split. Qed.
Example lower_ex : Py.lower "JPeG" = "jpeg" ∧ Py.upper "JPeg1" = "JPEG1" ∧ Py.str_of_nat 0 = "0" ∧ Py.str_of_nat 12 = "12".
Proof. repeat split; reflexivity. Qed.

Lemma ascii_lower_idem c : Py.ascii_lower (Py.ascii_lower c) = Py.ascii_lower c.
Proof. destruct c as [[] [] [] [] [] [] [] []]; reflexivity. Qed.

Lemma ascii_lower_upper c : Py.ascii_lower (Py.ascii_upper c) = Py.ascii_lower c.
Proof. destruct c as [[] [] [] [] [] [] [] []]; reflexivity. Qed.

Lemma ascii_lower_dot c : Ascii.eqb (Py.ascii_lower c) "." = Ascii.eqb c ".".
Proof. destruct c as [[] [] [] [] [] [] [] []]; reflexivity. Qed.

Lemma lower_idem s : Py.lower (Py.lower s) = Py.lower s.
Proof.
  unfold Py.lower. induction s as [| c s IH]; simpl; [done |].
  by rewrite ascii_lower_idem, IH.
Qed.

Lemma lower_upper s : Py.lower (Py.upper s) = Py.lower s.
Proof.
  unfold Py.lower, Py.upper. induction s as [| c s IH]; simpl; [done |].
  by rewrite ascii_lower_upper, IH.
Qed.

Lemma lower_app s t : Py.lower (s +:+ t) = Py.lower s +:+ Py.lower t.
Proof.
  unfold Py.lower. induction s as [| c s IH]; simpl; [done |]. by rewrite IH.
Qed.

Lemma rfind_dot_lower s : Py.rfind_dot (Py.lower s) = Py.rfind_dot s.
Proof.
  unfold Py.lower. induction s as [| c s IH]; simpl; [done |].
  by rewrite IH, ascii_lower_dot.
Qed.

Lemma lstrip_dots_dotless s : dotless s → Py.lstrip_dots s = s.
Proof.
  unfold dotless. destruct s as [| c s]; simpl; [done |].
  destruct (Py.rfind_dot s); [done |]. by destruct (Ascii.eqb c ".").
Qed.

Lemma rfind_dot_Some s i :
  Py.rfind_dot s = Some i → ∃ e, Py.sdrop i s = String "." e ∧ dotless e.
Proof.
  revert i. induction s as [| c s IH]; intros i; simpl; [done |].
  destruct (Py.rfind_dot s) as [j |] eqn:Hj.
  - intros [= <-]. simpl. by apply IH.
  - destruct (Ascii.eqb_spec c ".") as [-> | _]; [| done].
    intros [= <-]. simpl. by exists s.
Qed.

Lemma name_suffix_dotless nm : dotless (Py.sdrop 1 (Py.name_suffix nm)).
Proof.
  unfold Py.name_suffix. destruct (Py.rfind_dot nm) as [i |] eqn:Hi; [| done].
  destruct (_ && _); [| done].
  destruct (rfind_dot_Some _ _ Hi) as (e & -> & He). done.
Qed.

Lemma raw_ext_dotless p : dotless (raw_ext p).
Proof. apply name_suffix_dotless. Qed.

Lemma file_ext_dotless p : dotless (file_ext p).
Proof. unfold file_ext, dotless. rewrite rfind_dot_lower. apply raw_ext_dotless. Qed.

Lemma norm_ext_raw_ext p : norm_ext (raw_ext p) = jpeg_to_jpg (file_ext p).
Proof.
  unfold norm_ext. fold (file_ext p).
  by rewrite lstrip_dots_dotless by apply file_ext_dotless.
Qed.

Lemma norm_ext_file_ext p : norm_ext (file_ext p) = jpeg_to_jpg (file_ext p).
Proof.
  unfold norm_ext, file_ext. rewrite lower_idem. apply norm_ext_raw_ext.
Qed.

Lemma jpeg_to_jpg_idem s : jpeg_to_jpg (jpeg_to_jpg s) = jpeg_to_jpg s.
Proof.
  unfold jpeg_to_jpg. destruct (String.eqb s "jpeg") eqn:H; [reflexivity |].
  by rewrite H.
Qed.

Lemma lower_lstrip_dots t : Py.lower (Py.lstrip_dots t) = Py.lstrip_dots (Py.lower t).
Proof.
  unfold Py.lower. induction t as [| c t IH]; simpl; [done |].
  rewrite ascii_lower_dot. by destruct (Ascii.eqb c ".").
Qed.

Lemma lstrip_dots_idem t : Py.lstrip_dots (Py.lstrip_dots t) = Py.lstrip_dots t.
Proof.
  induction t as [| c t IH]; simpl; [done |].
  destruct (Ascii.eqb c ".") eqn:Hc; [done |]. simpl. by rewrite Hc.
Qed.

Lemma norm_ext_idem s : norm_ext (norm_ext s) = norm_ext s.
Proof.
  unfold norm_ext.
  assert (Ht : Py.lstrip_dots (Py.lower (Py.lstrip_dots (Py.lower s)))
               = Py.lstrip_dots (Py.lower s))
    by (by rewrite lower_lstrip_dots, lower_idem, lstrip_dots_idem).
  revert Ht. generalize (Py.lstrip_dots (Py.lower s)). intros t Ht.
  destruct (decide (t = "jpeg")) as [-> | Hne]; [reflexivity |].
  rewrite (jpeg_to_jpg_other t) by done. rewrite Ht. by apply jpeg_to_jpg_other.
Qed.

Lemma norm_ext_jpeg_to_jpg_file_ext p :
  norm_ext (jpeg_to_jpg (file_ext p)) = jpeg_to_jpg (file_ext p).
Proof. rewrite <- norm_ext_file_ext. apply norm_ext_idem. Qed.

Lemma norm_ext_upper s : norm_ext (Py.upper s) = norm_ext s.
Proof. unfold norm_ext. by rewrite lower_upper. Qed.

Lemma norm_ext_lower s : norm_ext (Py.lower s) = norm_ext s.
Proof. unfold norm_ext. by rewrite lower_idem. Qed.

Lemma norm_ext_dot s : norm_ext ("." +:+ s) = norm_ext s.
Proof. reflexivity. Qed.

(** ** Running the router *)

Section Router.

Variable X : externals.

Lemma dispatch_unfold w src dst inp out :
  dispatch X src dst inp out w =
    match converters w !! (norm_ext src, norm_ext dst) with
    | Some h => call_handler X h inp out w
    | None => (Raise (Exn ValueError ("No handler for " +:+ norm_ext src
                                       +:+ " -> " +:+ norm_ext dst)), w)
    end.
Proof. unfold dispatch, bind, get_converters. by destruct (_ !! _). Qed.

Lemma call_handler_unfold w h inp out :
  call_handler X h inp out w =
    (match (handler_sem X h inp out (fs w)).1 with None => Ok () | Some e => Raise e end,
     World (handler_sem X h inp out (fs w)).2 (converters w)
           (trace w ++ [EvHandler h inp out])).
Proof. unfold call_handler. by destruct (handler_sem _ _ _ _ _). Qed.

Lemma convert_file_unfold w inp out :
  convert_file X inp out w =
    match
      (if has_key (converters w) (jpeg_to_jpg (file_ext inp), jpeg_to_jpg (file_ext out))
       then dispatch X (file_ext inp) (file_ext out) inp out w
       else match find_chain (converters w) (jpeg_to_jpg (file_ext inp))
                             (jpeg_to_jpg (file_ext out)) with
            | Some (step :: steps) => run_chain X inp out (step :: steps) w
            | _ => (Raise (Exn ValueError ("Unsupported conversion: " +:+ file_ext inp
                                            +:+ " -> " +:+ file_ext out)), w)
            end)
    with
    | (Ok _, w') => (Ok true, w')
    | (Raise e, w') => (Ok false, log (EvPrintError e) w')
    end.
Proof.
  unfold convert_file, try_except, bind, get_converters, raise, ret, emit.
  destruct (has_key _ _).
  - by destruct (dispatch _ _ _ _ _ _) as [[] ?].
  - destruct (find_chain _ _ _) as [[| step steps] |]; try done.
    by destruct (run_chain _ _ _ _ _) as [[] ?].
Qed.

Lemma safe_remove_spec p w :
  safe_remove X p w =
    (Ok (), World (after_remove X (fs w) p) (converters w) (trace w ++ removal (fs w) p)).
Proof.
  unfold safe_remove, try_except, bind, os_path_exists, os_remove, removal, after_remove, ret.
  destruct w as [files table tr]; simpl.
  destruct (bool_decide_reflect (p ∈ files)) as [Hin | Hout]; simpl.
  - rewrite bool_decide_true by done. by destruct (remove_sem X p files).
  - by rewrite app_nil_r.
Qed.

End Router.

Section DirectAndUnsupported.

Variable X : externals.

Lemma convert_file_direct_run w inp out h :
  converters w !! (jpeg_to_jpg (file_ext inp), jpeg_to_jpg (file_ext out)) = Some h →
  convert_file X inp out w =
    (Ok (succeeded (handler_sem X h inp out (fs w)).1),
     World (handler_sem X h inp out (fs w)).2 (converters w)
           (trace w ++ EvHandler h inp out :: error_line (handler_sem X h inp out (fs w)).1)).
Proof.
  intros Hkey. rewrite convert_file_unfold.
  unfold has_key. rewrite Hkey.
  rewrite dispatch_unfold, !norm_ext_file_ext, Hkey, call_handler_unfold.
  destruct (handler_sem X h inp out (fs w)) as [[e |] files]; simpl; [| done].
  unfold log; simpl. by rewrite <- app_assoc.
Qed.

(** C3. When the normalized (source, destination) key of the two paths is
    in [CONVERTERS], [convert_file] runs the handler registered for that
    key once, on the original input and output paths, and does nothing
    else to the file system: no temporary path is made up and nothing is
    removed.  It returns [True] when the handler returns and [False],
    after printing the error, when it raises. *)
Theorem convert_file_direct w inp out h :
  converters w = CONVERTERS →
  CONVERTERS !! (jpeg_to_jpg (file_ext inp), jpeg_to_jpg (file_ext out)) = Some h →
  convert_file X inp out w =
    (Ok (succeeded (handler_sem X h inp out (fs w)).1),
     World (handler_sem X h inp out (fs w)).2 CONVERTERS
           (trace w ++ EvHandler h inp out :: error_line (handler_sem X h inp out (fs w)).1)).
Proof.
  intros Htable Hkey.
  rewrite (convert_file_direct_run w inp out h) by (by rewrite Htable).
  by rewrite Htable.
Qed.

Lemma convert_file_unsupported_run w inp out :
  converters w !! (jpeg_to_jpg (file_ext inp), jpeg_to_jpg (file_ext out)) = None →
  find_chain (converters w) (jpeg_to_jpg (file_ext inp)) (jpeg_to_jpg (file_ext out)) = None →
  convert_file X inp out w =
    (Ok false,
     World (fs w) (converters w)
       (trace w ++ [EvPrintError (Exn ValueError
          ("Unsupported conversion: " +:+ file_ext inp +:+ " -> " +:+ file_ext out))])).
Proof.
  intros Hkey Hchain. rewrite convert_file_unfold.
  unfold has_key. by rewrite Hkey, Hchain.
Qed.

(** C4. When the normalized key of the two paths has no direct handler and
    [find_chain] finds no chain, [convert_file] returns [False]; the error
    it prints is the unsupported-conversion error, whose message names the
    source and the destination format; no handler is called and the file
    system is left as it was. *)
Theorem convert_file_unsupported w inp out :
  converters w = CONVERTERS →
  CONVERTERS !! (jpeg_to_jpg (file_ext inp), jpeg_to_jpg (file_ext out)) = None →
  find_chain CONVERTERS (jpeg_to_jpg (file_ext inp)) (jpeg_to_jpg (file_ext out)) = None →
  convert_file X inp out w =
    (Ok false,
     World (fs w) CONVERTERS
       (trace w ++ [EvPrintError (Exn ValueError
          ("Unsupported conversion: " +:+ file_ext inp +:+ " -> " +:+ file_ext out))])).
Proof.
  intros Htable Hkey Hchain.
  rewrite convert_file_unsupported_run by (by rewrite Htable).
  by rewrite Htable.
Qed.

End DirectAndUnsupported.

Lemma convert_file_direct_witness :
  convert_file obliging "report.docx" "report.pdf" (initial_world {["report.docx"]})
    = (Ok true, World ({["report.docx"]} ∪ {["report.pdf"]}) CONVERTERS
                      [EvHandler convert_docx_to_pdf "report.docx" "report.pdf"])
  ∧ convert_file failing "slide.pdf" "slide.docx" (initial_world {["slide.pdf"]})
    = (Ok false, World ({["slide.pdf"]} ∪ {["slide.docx"]}) CONVERTERS
                       [EvHandler convert_pdf_to_docx "slide.pdf" "slide.docx";
                        EvPrintError (Exn RuntimeError "tool failed")]).
Proof.
  split.
  - rewrite (convert_file_direct obliging (initial_world {["report.docx"]})
               "report.docx" "report.pdf" convert_docx_to_pdf) by reflexivity.
    reflexivity.
  - rewrite (convert_file_direct failing (initial_world {["slide.pdf"]})
               "slide.pdf" "slide.docx" convert_pdf_to_docx) by reflexivity.
    reflexivity.
Defined.

Lemma convert_file_unsupported_witness :
  convert_file obliging "photo.heic" "photo.png" (initial_world {["photo.heic"]})
    = (Ok false, World {["photo.heic"]} CONVERTERS
         [EvPrintError (Exn ValueError "Unsupported conversion: heic -> png")]).
Proof.
  rewrite (convert_file_unsupported obliging (initial_world {["photo.heic"]})
             "photo.heic" "photo.png") by reflexivity.
  reflexivity.
Defined.

(** ** Two-hop conversions *)

Lemma intermediate_normal mid : mid ∈ intermediates → norm_ext mid = mid.
Proof. intros H. unfold intermediates in H. list_cases H; subst mid; reflexivity. Qed.

Lemma name_of_ext_nonempty p : file_ext p ≠ "" → Py.name p ≠ "".
Proof.
  intros Hext Hname. apply Hext. unfold file_ext, raw_ext, Py.suffix.
  by rewrite Hname.
Qed.

Lemma with_suffix_Some p sfx :
  Py.has_slash sfx = false → String.prefix "." sfx = true → sfx ≠ "." →
  Py.name p ≠ "" → is_Some (Py.with_suffix p sfx).
Proof.
  intros Hslash Hdot Hne Hname. unfold Py.with_suffix.
  rewrite Hslash, Hdot.
  destruct (String.eqb_spec sfx "."); [done |].
  destruct (String.eqb_spec (Py.name p) ""); [done |].
  rewrite andb_false_r. simpl. eauto.
Qed.

Lemma temp_path_exists inp mid :
  mid ∈ intermediates → Py.name inp ≠ "" →
  is_Some (Py.with_suffix inp (".tmp_" +:+ Py.str_of_nat 0 +:+ "." +:+ mid)).
Proof.
  intros H Hname. unfold intermediates in H.
  list_cases H; subst mid; by apply with_suffix_Some.
Qed.

Lemma find_chain_Some_inv src dst chain :
  find_chain CONVERTERS src dst = Some chain →
  ∃ mid, mid ∈ intermediates
         ∧ has_key CONVERTERS (src, mid) = true ∧ has_key CONVERTERS (mid, dst) = true
         ∧ chain = [(jpeg_to_jpg src, mid); (mid, jpeg_to_jpg dst)].
Proof.
  rewrite find_chain_first. unfold first_intermediate.
  destruct (List.find _ _) as [mid |] eqn:Hfind; [| done].
  intros [= <-]. apply find_some in Hfind as [Hin [H1 H2]%andb_prop].
  exists mid. by rewrite <- list_elem_of_In in Hin.
Qed.

Section TwoHop.

Variable X : externals.

Lemma chain_loop_two w inp out s mid d h1 h2 temp :
  converters w !! (s, mid) = Some h1 → converters w !! (mid, d) = Some h2 →
  norm_ext s = s → norm_ext mid = mid → norm_ext d = d →
  Py.with_suffix inp (".tmp_" +:+ Py.str_of_nat 0 +:+ "." +:+ mid) = Some temp →
  chain_loop X inp out 2 0 [(s, mid); (mid, d)] inp [] w =
    match (handler_sem X h1 inp temp (fs w)).1 with
    | Some e1 => ((Raise e1, [temp]), (call_handler X h1 inp temp w).2)
    | None =>
        ((match (handler_sem X h2 temp out (handler_sem X h1 inp temp (fs w)).2).1 with
          | Some e2 => Raise e2
          | None => Ok ()
          end, [temp]),
         (call_handler X h2 temp out (call_handler X h1 inp temp w).2).2)
    end.
Proof.
  intros H1 H2 Hs Hmid Hd Htemp.
  cbn [chain_loop Nat.eqb Nat.sub]. rewrite Htemp.
  rewrite dispatch_unfold, Hs, Hmid, H1, call_handler_unfold. cbn [fst snd app].
  destruct (handler_sem X h1 inp temp (fs w)) as [[e1 |] files1]; cbn [fst snd]; [done |].
  rewrite dispatch_unfold, Hmid, Hd. cbn [converters]. rewrite H2.
  rewrite !call_handler_unfold. cbn [fs fst snd].
  by destruct (handler_sem X h2 temp out files1) as [[e2 |] files2].
Qed.

End TwoHop.

Section TwoHopRun.

Variable X : externals.

Lemma after_remove_gone files p : remove_sem X p files = None → p ∉ after_remove X files p.
Proof.
  intros Hrm. unfold after_remove.
  destruct (bool_decide_reflect (p ∈ files)) as [Hin | Hout]; [| done].
  rewrite Hrm. intros [_ H]%elem_of_difference. apply H. by apply elem_of_singleton.
Qed.

Lemma two_hop_outcome_files h1 h2 inp temp out w :
  fs ((two_hop_outcome X h1 h2 inp temp out w).2)
  = after_remove X (two_hop_files X h1 h2 inp temp out (fs w)) temp.
Proof.
  unfold two_hop_outcome, two_hop_files.
  destruct (handler_sem X h1 inp temp (fs w)) as [[e1 |] files1]; [done |].
  by destruct (handler_sem X h2 temp out files1) as [[e2 |] files2].
Qed.

Lemma two_hop_outcome_returns h1 h2 inp temp out w :
  ∃ ok, (two_hop_outcome X h1 h2 inp temp out w).1 = Ok ok.
Proof.
  unfold two_hop_outcome.
  destruct (handler_sem X h1 inp temp (fs w)) as [[e1 |] files1]; [by eexists |].
  destruct (handler_sem X h2 temp out files1) as [[e2 |] files2]; by eexists.
Qed.

Lemma run_chain_two w inp out s mid d h1 h2 temp :
  converters w !! (s, mid) = Some h1 → converters w !! (mid, d) = Some h2 →
  norm_ext s = s → norm_ext mid = mid → norm_ext d = d →
  Py.with_suffix inp (".tmp_" +:+ Py.str_of_nat 0 +:+ "." +:+ mid) = Some temp →
  match run_chain X inp out [(s, mid); (mid, d)] w with
  | (Ok _, w') => (Ok true, w')
  | (Raise e, w') => (Ok false, log (EvPrintError e) w')
  end = two_hop_outcome X h1 h2 inp temp out w.
Proof.
  intros H1 H2 Hs Hmid Hd Htemp. unfold run_chain, two_hop_outcome.
  cbn [length]. rewrite (chain_loop_two X w inp out s mid d h1 h2 temp) by done.
  rewrite !call_handler_unfold. cbn [fs fst snd].
  destruct (handler_sem X h1 inp temp (fs w)) as [[e1 |] files1]; cbn [fst snd].
  - cbn [for_each]. unfold bind, raise, ret. rewrite safe_remove_spec.
    unfold log; cbn [fs converters trace]. by rewrite <- !app_assoc.
  - destruct (handler_sem X h2 temp out files1) as [[e2 |] files2]; cbn [fst snd].
    + cbn [for_each]. unfold bind, raise, ret. rewrite safe_remove_spec.
      unfold log; cbn [fs converters trace]. by rewrite <- !app_assoc.
    + cbn [for_each]. unfold bind, raise, ret. rewrite safe_remove_spec.
      unfold log; cbn [fs converters trace]. by rewrite app_nil_r, <- !app_assoc.
Qed.

(** C2, as the code has it.  A conversion with no direct handler for
    which [find_chain] finds a chain: the chain has two steps through one
    intermediate format; [convert_file] makes up exactly one temporary
    path, which is the input path with its suffix replaced by ".tmp_0." and
    the intermediate format (so a function of the input path and the step
    index 0); it is the only path in [temp_files], the output path given to
    the first handler and the input path given to the second; on each of
    the three exits (the first step raises, the second step raises, both
    return) [convert_file] calls [safe_remove] on that path before it
    returns, so that the file system it leaves is the one the handlers left
    without that path, or exactly the one the handlers left when the path
    exists and [os.remove] raises the OSError that [safe_remove] swallows;
    hence the path does not exist afterwards unless [os.remove] refused it;
    and [convert_file] returns a boolean rather than raising. *)
Theorem convert_file_two_hop_temp w inp out chain :
  converters w = CONVERTERS →
  CONVERTERS !! (jpeg_to_jpg (file_ext inp), jpeg_to_jpg (file_ext out)) = None →
  find_chain CONVERTERS (jpeg_to_jpg (file_ext inp)) (jpeg_to_jpg (file_ext out))
    = Some chain →
  ∃ mid h1 h2 temp,
    chain = [(jpeg_to_jpg (file_ext inp), mid); (mid, jpeg_to_jpg (file_ext out))]
    ∧ CONVERTERS !! (jpeg_to_jpg (file_ext inp), mid) = Some h1
    ∧ CONVERTERS !! (mid, jpeg_to_jpg (file_ext out)) = Some h2
    ∧ Py.with_suffix inp (".tmp_" +:+ Py.str_of_nat 0 +:+ "." +:+ mid) = Some temp
    ∧ (chain_loop X inp out (length chain) 0 chain inp [] w).1.2 = [temp]
    ∧ convert_file X inp out w = two_hop_outcome X h1 h2 inp temp out w
    ∧ fs ((convert_file X inp out w).2)
      = after_remove X (two_hop_files X h1 h2 inp temp out (fs w)) temp
    ∧ (remove_sem X temp (two_hop_files X h1 h2 inp temp out (fs w)) = None →
       temp ∉ fs ((convert_file X inp out w).2))
    ∧ (∃ ok, (convert_file X inp out w).1 = Ok ok).
Proof.
  intros Htable Hkey Hchain.
  destruct (find_chain_Some_inv _ _ _ Hchain) as (mid & Hmid & Hk1 & Hk2 & ->).
  rewrite !jpeg_to_jpg_idem in *.
  assert (Hname : Py.name inp ≠ "").
  { apply name_of_ext_nonempty. intros Hext.
    apply key_src_nonempty in Hk1. by rewrite Hext in Hk1. }
  apply has_key_true in Hk1 as [h1 H1]. apply has_key_true in Hk2 as [h2 H2].
  destruct (temp_path_exists inp mid Hmid Hname) as [temp Htemp].
  pose proof (intermediate_normal mid Hmid) as Hnmid.
  pose proof (norm_ext_jpeg_to_jpg_file_ext inp) as Hns.
  pose proof (norm_ext_jpeg_to_jpg_file_ext out) as Hnd.
  assert (Hrun : convert_file X inp out w = two_hop_outcome X h1 h2 inp temp out w).
  { rewrite convert_file_unfold, Htable. unfold has_key. rewrite Hkey, Hchain.
    apply run_chain_two; by rewrite ?Htable. }
  exists mid, h1, h2, temp.
  split; [done |]. split; [done |]. split; [done |]. split; [done |]. split.
  { cbn [length].
    rewrite (chain_loop_two X w inp out _ mid _ h1 h2 temp) by (by rewrite ?Htable).
    by destruct (handler_sem X h1 inp temp (fs w)).1. }
  split; [exact Hrun |]. rewrite Hrun, two_hop_outcome_files.
  split; [done |]. split; [apply after_remove_gone | apply two_hop_outcome_returns].
Qed.

End TwoHopRun.

Lemma convert_file_two_hop_temp_witness :
  Py.with_suffix "a/report.docx" ".tmp_0.pdf" = Some "a/report.tmp_0.pdf"
  ∧ (chain_loop failing "a/report.docx" "a/report.jpeg" 2 0
       [("docx", "pdf"); ("pdf", "jpg")] "a/report.docx" []
       (initial_world {["a/report.docx"]})).1.2 = ["a/report.tmp_0.pdf"]
  ∧ convert_file failing "a/report.docx" "a/report.jpeg" (initial_world {["a/report.docx"]})
    = two_hop_outcome failing convert_docx_to_pdf (pdf_to_images_lambda ".jpg")
        "a/report.docx" "a/report.tmp_0.pdf" "a/report.jpeg"
        (initial_world {["a/report.docx"]})
  ∧ fs ((convert_file failing "a/report.docx" "a/report.jpeg"
           (initial_world {["a/report.docx"]})).2)
    = after_remove failing
        (two_hop_files failing convert_docx_to_pdf (pdf_to_images_lambda ".jpg")
           "a/report.docx" "a/report.tmp_0.pdf" "a/report.jpeg" {["a/report.docx"]})
        "a/report.tmp_0.pdf"
  ∧ ("a/report.tmp_0.pdf" ∉ fs ((convert_file failing "a/report.docx" "a/report.jpeg"
                                   (initial_world {["a/report.docx"]})).2))
  ∧ (∃ ok, (convert_file failing "a/report.docx" "a/report.jpeg"
              (initial_world {["a/report.docx"]})).1 = Ok ok).
Proof.
  destruct (convert_file_two_hop_temp failing (initial_world {["a/report.docx"]})
              "a/report.docx" "a/report.jpeg" [("docx", "pdf"); ("pdf", "jpg")]
              eq_refl eq_refl eq_refl)
    as (mid & h1 & h2 & temp & Hchain & H1 & H2 & Htemp & Hfiles & Hrun & Hfs & Hgone
        & Hret).
  injection Hchain as <-.
  assert (h1 = convert_docx_to_pdf) as -> by (vm_compute in H1; congruence).
  assert (h2 = pdf_to_images_lambda ".jpg") as -> by (vm_compute in H2; congruence).
  assert (temp = "a/report.tmp_0.pdf") as -> by (vm_compute in Htemp; congruence).
  split; [exact Htemp |]. split; [exact Hfiles |]. split; [exact Hrun |].
  split; [exact Hfs |]. split; [exact (Hgone eq_refl) | exact Hret].
Defined.

(** That the temporary file of a two-hop conversion is deleted before
    [convert_file] returns fails in two ways.  Where [os.remove] refuses
    the temporary file, [safe_remove] swallows the OSError and the file is
    still there when [convert_file] returns [True].  And from PDF to PDF, with
    every tool working on a PDF of two pages, the first handler is given the
    temporary path "a.tmp_0.png" and saves "a.tmp_0_001.png" and
    "a.tmp_0_002.png" instead; the second handler finds no "a.tmp_0.png" and
    raises; nothing is removed, and the two page files are left behind when
    [convert_file] returns [False]. *)
Lemma convert_file_two_hop_temp_left :
  (CONVERTERS !! ("docx", "jpg") = None
   ∧ find_chain CONVERTERS "docx" "jpg" = Some [("docx", "pdf"); ("pdf", "jpg")]
   ∧ convert_file undeletable "a/report.docx" "a/report.jpeg"
       (initial_world {["a/report.docx"]})
     = (Ok true,
        World ({["a/report.docx"]} ∪ {["a/report.tmp_0.pdf"]} ∪ {["a/report.jpeg"]})
          CONVERTERS
          [EvHandler convert_docx_to_pdf "a/report.docx" "a/report.tmp_0.pdf";
           EvHandler (pdf_to_images_lambda ".jpg") "a/report.tmp_0.pdf" "a/report.jpeg";
           EvRemove "a/report.tmp_0.pdf"])
   ∧ "a/report.tmp_0.pdf"
       ∈ fs ((convert_file undeletable "a/report.docx" "a/report.jpeg"
                (initial_world {["a/report.docx"]})).2))
  ∧ (CONVERTERS !! ("pdf", "pdf") = None
     ∧ find_chain CONVERTERS "pdf" "pdf" = Some [("pdf", "png"); ("png", "pdf")]
     ∧ convert_file working "a.pdf" "b.pdf" (initial_world {["a.pdf"]})
       = (Ok false,
          World ({["a.pdf"]} ∪ {["a.tmp_0_001.png"]} ∪ {["a.tmp_0_002.png"]}) CONVERTERS
            [EvHandler (pdf_to_images_lambda ".png") "a.pdf" "a.tmp_0.png";
             EvHandler image_to_pdf "a.tmp_0.png" "b.pdf";
             EvPrintError
               (Exn FileNotFoundError "[Errno 2] No such file or directory: 'a.tmp_0.png'")])
     ∧ ¬ (fs ((convert_file working "a.pdf" "b.pdf" (initial_world {["a.pdf"]})).2)
            ⊆ {["a.pdf"]} ∪ {["b.pdf"]})).
Proof.
  assert (Hrun1 :
    convert_file undeletable "a/report.docx" "a/report.jpeg"
      (initial_world {["a/report.docx"]})
    = (Ok true,
       World ({["a/report.docx"]} ∪ {["a/report.tmp_0.pdf"]} ∪ {["a/report.jpeg"]})
         CONVERTERS
         [EvHandler convert_docx_to_pdf "a/report.docx" "a/report.tmp_0.pdf";
          EvHandler (pdf_to_images_lambda ".jpg") "a/report.tmp_0.pdf" "a/report.jpeg";
          EvRemove "a/report.tmp_0.pdf"])) by (vm_compute; reflexivity).
  assert (Hrun2 :
    convert_file working "a.pdf" "b.pdf" (initial_world {["a.pdf"]})
    = (Ok false,
       World ({["a.pdf"]} ∪ {["a.tmp_0_001.png"]} ∪ {["a.tmp_0_002.png"]}) CONVERTERS
         [EvHandler (pdf_to_images_lambda ".png") "a.pdf" "a.tmp_0.png";
          EvHandler image_to_pdf "a.tmp_0.png" "b.pdf";
          EvPrintError
            (Exn FileNotFoundError "[Errno 2] No such file or directory: 'a.tmp_0.png'")]))
    by (vm_compute; reflexivity).
  split.
  - split; [reflexivity |]. split; [reflexivity |]. split; [exact Hrun1 |].
    rewrite Hrun1. cbn [snd fs].
    apply elem_of_union. left. apply elem_of_union. right. by apply elem_of_singleton.
  - split; [reflexivity |]. split; [reflexivity |]. split; [exact Hrun2 |].
    rewrite Hrun2. cbn [snd fs]. intros Hsub.
    assert (Hin : "a.tmp_0_001.png" ∈ ({["a.pdf"]} ∪ {["b.pdf"]} : gset string)).
    { apply Hsub. apply elem_of_union. left. apply elem_of_union. right.
      by apply elem_of_singleton. }
    apply elem_of_union in Hin as [Hin | Hin]; apply elem_of_singleton in Hin; discriminate.
Qed.

Example two_hop_first_step_fails :
  convert_file failing "a/report.docx" "a/report.jpeg" (initial_world {["a/report.docx"]})
  = (Ok false,
     World {["a/report.docx"]} CONVERTERS
       [EvHandler convert_docx_to_pdf "a/report.docx" "a/report.tmp_0.pdf";
        EvRemove "a/report.tmp_0.pdf";
        EvPrintError (Exn RuntimeError "tool failed")]).
Proof. vm_compute. reflexivity. Qed.

Example two_hop_second_step_fails :
  convert_file images_fail "a/report.docx" "a/report.png" (initial_world {["a/report.docx"]})
  = (Ok false,
     World {["a/report.docx"]} CONVERTERS
       [EvHandler convert_docx_to_pdf "a/report.docx" "a/report.tmp_0.pdf";
        EvHandler (pdf_to_images_lambda ".png") "a/report.tmp_0.pdf" "a/report.png";
        EvRemove "a/report.tmp_0.pdf";
        EvPrintError (Exn RuntimeError "poppler not installed")]).
Proof. vm_compute. reflexivity. Qed.

Example two_hop_succeeds :
  convert_file obliging "a/report.docx" "a/report.jpeg" (initial_world {["a/report.docx"]})
  = (Ok true,
     World ({["a/report.docx"]} ∪ {["a/report.jpeg"]}) CONVERTERS
       [EvHandler convert_docx_to_pdf "a/report.docx" "a/report.tmp_0.pdf";
        EvHandler (pdf_to_images_lambda ".jpg") "a/report.tmp_0.pdf" "a/report.jpeg";
        EvRemove "a/report.tmp_0.pdf"]).
Proof. vm_compute. reflexivity. Qed.

(** A conversion from docx to png with every tool working: the page files
    are the output, the temporary PDF is removed. *)
Example two_hop_working :
  convert_file working "a/report.docx" "a/report.png" (initial_world {["a/report.docx"]})
  = (Ok true,
     World ({["a/report.docx"]} ∪ {["a/report_001.png"]} ∪ {["a/report_002.png"]})
       CONVERTERS
       [EvHandler convert_docx_to_pdf "a/report.docx" "a/report.tmp_0.pdf";
        EvHandler (pdf_to_images_lambda ".png") "a/report.tmp_0.pdf" "a/report.png";
        EvRemove "a/report.tmp_0.pdf"]).
Proof. vm_compute. reflexivity. Qed.

(** ** Extension normalization *)

Lemma ext_variant_norm s t : ext_variant s t → norm_ext s = norm_ext t.
Proof.
  induction 1 as [s | s | s | | s | s t _ IH | s t u _ IH1 _ IH2].
  - by rewrite norm_ext_upper.
  - by rewrite norm_ext_lower.
  - by rewrite norm_ext_dot.
  - reflexivity.
  - reflexivity.
  - by rewrite IH.
  - by rewrite IH1.
Qed.

Section Normalization.

Variable X : externals.

Lemma dispatch_norm w src dst inp out :
  dispatch X src dst inp out w = dispatch X (norm_ext src) (norm_ext dst) inp out w.
Proof. by rewrite !dispatch_unfold, !norm_ext_idem. Qed.

Lemma convert_file_via w inp out :
  convert_file X inp out w
    = convert_via X (lookup_route (converters w) (raw_ext inp) (raw_ext out)) inp out w.
Proof.
  rewrite convert_file_unfold. unfold convert_via, lookup_route, has_key.
  rewrite !norm_ext_raw_ext.
  unfold try_except, bind, raise, ret, emit.
  destruct (converters w !! _) as [h |] eqn:Hkey.
  - rewrite dispatch_unfold, !norm_ext_file_ext, Hkey.
    by destruct (call_handler X h inp out w) as [[] ?].
  - destruct (find_chain _ _ _) as [[| step steps] |]; try done.
    by destruct (run_chain X inp out (step :: steps) w) as [[] ?].
Qed.

(** C5. Format lookup does not depend on how an extension is spelled.
    For two spellings of the source extension and two of the destination
    extension (upper or lower case, with or without leading dots, "jpeg"
    or "jpg"), [dispatch] does the same in every world, and what it looks
    up is the normalized key.  The key [convert_file] computes at lines
    578-582 is the normalized key of the extensions of its two paths, and
    [convert_file] follows the route [lookup_route] computes from it, so two
    pairs of paths whose extensions are spellings of the same formats get
    the same direct handler, the same chain, or are both unsupported. *)
Theorem format_lookup_normalized w src src' dst dst' inp inp' out out' :
  ext_variant src src' → ext_variant dst dst' →
  ext_variant (raw_ext inp) (raw_ext inp') → ext_variant (raw_ext out) (raw_ext out') →
  dispatch X src dst inp out w = dispatch X src' dst' inp out w
  ∧ dispatch X src dst inp out w = dispatch X (norm_ext src) (norm_ext dst) inp out w
  ∧ (jpeg_to_jpg (file_ext inp), jpeg_to_jpg (file_ext out))
    = (norm_ext (raw_ext inp), norm_ext (raw_ext out))
  ∧ lookup_route (converters w) (raw_ext inp) (raw_ext out)
    = lookup_route (converters w) (raw_ext inp') (raw_ext out')
  ∧ convert_file X inp out w
    = convert_via X (lookup_route (converters w) (raw_ext inp) (raw_ext out)) inp out w
  ∧ convert_file X inp' out' w
    = convert_via X (lookup_route (converters w) (raw_ext inp) (raw_ext out)) inp' out' w.
Proof.
  intros Hs%ext_variant_norm Hd%ext_variant_norm Hi%ext_variant_norm Ho%ext_variant_norm.
  assert (Hroute : lookup_route (converters w) (raw_ext inp) (raw_ext out)
                   = lookup_route (converters w) (raw_ext inp') (raw_ext out'))
    by (unfold lookup_route; by rewrite Hi, Ho).
  repeat split.
  - by rewrite !dispatch_unfold, Hs, Hd.
  - apply dispatch_norm.
  - by rewrite !norm_ext_raw_ext.
  - exact Hroute.
  - apply convert_file_via.
  - rewrite Hroute. apply convert_file_via.
Qed.

End Normalization.

Lemma format_lookup_normalized_witness :
  dispatch obliging ".JPEG" "Pdf" "a.JPEG" "a.Pdf" (initial_world ∅)
    = dispatch obliging "jpg" "pdf" "a.JPEG" "a.Pdf" (initial_world ∅)
  ∧ lookup_route CONVERTERS (raw_ext "a.JPEG") (raw_ext "a.Pdf")
    = lookup_route CONVERTERS (raw_ext "b.jpg") (raw_ext "b.pdf")
  ∧ convert_file obliging "b.jpg" "b.pdf" (initial_world ∅)
    = convert_via obliging (lookup_route CONVERTERS (raw_ext "a.JPEG") (raw_ext "a.Pdf"))
        "b.jpg" "b.pdf" (initial_world ∅).
Proof.
  assert (Hjpeg : ext_variant ".JPEG" "jpg").
  { apply variant_sym, (variant_trans _ "jpeg"); [apply variant_jpeg |].
    apply (variant_trans _ "JPEG"); [apply (variant_upper "jpeg") |].
    apply (variant_dot "JPEG"). }
  assert (Hpdf : ext_variant "Pdf" "pdf") by apply (variant_lower "Pdf").
  assert (Hjpeg' : ext_variant (raw_ext "a.JPEG") (raw_ext "b.jpg")).
  { apply variant_sym, (variant_trans _ "jpeg"); [apply variant_jpeg |].
    apply (variant_upper "jpeg"). }
  assert (Hpdf' : ext_variant (raw_ext "a.Pdf") (raw_ext "b.pdf"))
    by apply (variant_lower "Pdf").
  destruct (format_lookup_normalized obliging (initial_world ∅)
              ".JPEG" "jpg" "Pdf" "pdf" "a.JPEG" "b.jpg" "a.Pdf" "b.pdf"
              Hjpeg Hpdf Hjpeg' Hpdf') as (H1 & _ & _ & H3 & _ & H5).
  split; [exact H1 | split; [exact H3 | exact H5]].
Defined.

(** ** What every operation leaves alone *)

Section Frame.

Variable P : event → Prop.

Lemma extends_refl w : extends P w w.
Proof. split; [done |]. exists []. by rewrite app_nil_r. Qed.

Lemma extends_trans w1 w2 w3 : extends P w1 w2 → extends P w2 w3 → extends P w1 w3.
Proof.
  intros [Hc1 (evs1 & Ht1 & HP1)] [Hc2 (evs2 & Ht2 & HP2)]. split; [congruence |].
  exists (evs1 ++ evs2). split; [by rewrite Ht2, Ht1, app_assoc |].
  by apply Forall_app.
Qed.

Lemma extends_log ev w : P ev → extends P w (log ev w).
Proof. intros H. split; [done |]. exists [ev]. split; [done |]. by apply Forall_singleton. Qed.

Lemma extends_set_fs files w : extends P w (set_fs files w).
Proof. split; [done |]. exists []. by rewrite app_nil_r. Qed.

Lemma respects_ret {A} (a : A) : respects P (ret a).
Proof. intros w. apply extends_refl. Qed.

Lemma respects_raise {A} e : respects P (@raise A e).
Proof. intros w. apply extends_refl. Qed.

Lemma respects_bind {A B} (m : M A) (k : A → M B) :
  respects P m → (∀ a, respects P (k a)) → respects P (bind m k).
Proof.
  intros Hm Hk w. unfold bind. specialize (Hm w).
  destruct (m w) as [[a | e] w']; [| done].
  eapply extends_trans; [exact Hm | apply Hk].
Qed.

Lemma respects_try_except {A} (body : M A) (h : exn → M A) :
  respects P body → (∀ e, respects P (h e)) → respects P (try_except body h).
Proof.
  intros Hb Hh w. unfold try_except. specialize (Hb w).
  destruct (body w) as [[a | e] w']; [done |].
  eapply extends_trans; [exact Hb | apply Hh].
Qed.

Lemma respects_try_finally {A} (body : M A) (fin : M unit) :
  respects P body → respects P fin → respects P (try_finally body fin).
Proof.
  intros Hb Hf w. unfold try_finally. specialize (Hb w).
  destruct (body w) as [r w']. specialize (Hf w').
  destruct (fin w') as [[[] | e] w'']; by eapply extends_trans.
Qed.

Lemma respects_for_each {A} (xs : list A) (body : A → M unit) :
  (∀ x, respects P (body x)) → respects P (for_each xs body).
Proof.
  intros Hb. induction xs as [| x xs IH]; simpl.
  - apply respects_ret.
  - apply respects_bind; [apply Hb | done].
Qed.

Lemma respects_emit ev : P ev → respects P (emit ev).
Proof. intros H w. by apply extends_log. Qed.

Lemma respects_get_converters : respects P get_converters.
Proof. intros w. apply extends_refl. Qed.

Lemma respects_os_path_exists p : respects P (os_path_exists p).
Proof. destruct p; [intros w; apply extends_refl | apply respects_raise]. Qed.

Variable X : externals.

Lemma respects_os_remove p : P (EvRemove p) → respects P (os_remove X p).
Proof.
  intros H w. unfold os_remove. destruct (bool_decide _); simpl; [| apply extends_refl].
  destruct (remove_sem X p (fs w)); simpl; [by apply extends_log |].
  eapply extends_trans; [apply extends_set_fs | by apply extends_log].
Qed.

Lemma respects_safe_remove p : P (EvRemove p) → respects P (safe_remove X p).
Proof.
  intros H. apply respects_try_except.
  - apply respects_bind; [apply respects_os_path_exists |].
    intros []; [by apply respects_os_remove | apply respects_ret].
  - intros e. destruct (is_OSError e); [apply respects_ret | apply respects_raise].
Qed.

Lemma respects_call_handler h inp out :
  P (EvHandler h inp out) → respects P (call_handler X h inp out).
Proof.
  intros H w. unfold call_handler. destruct (handler_sem _ _ _ _ _) as [r files]. simpl.
  eapply extends_trans; [apply extends_set_fs | by apply extends_log].
Qed.

Lemma respects_lib_mem c : P (EvLib c) → respects P (lib_mem X c).
Proof. intros H w. by apply extends_log. Qed.

Lemma respects_lib_io c : P (EvLib c) → respects P (lib_io X c).
Proof.
  intros H w. unfold lib_io. destruct (lib_io_sem _ _ _) as [r files]. simpl.
  eapply extends_trans; [apply extends_set_fs | by apply extends_log].
Qed.

Lemma respects_read_pdf inp : respects P (read_pdf X inp).
Proof. intros w. unfold read_pdf. destruct (pdf_pages _ _ _); apply extends_refl. Qed.

Lemma respects_import_or_raise ok msg : respects P (import_or_raise ok msg).
Proof. destruct ok; [apply respects_ret | apply respects_raise]. Qed.

Lemma respects_require_exists inp : respects P (require_exists inp).
Proof.
  apply respects_bind; [apply respects_os_path_exists |].
  intros b. destruct inp; [| apply respects_raise].
  destruct b; [apply respects_ret | apply respects_raise].
Qed.

Lemma respects_open_write out :
  (∀ o, P (EvLib (Writer_write o))) → respects P (open_write X out).
Proof. intros H. destruct out; [by apply respects_lib_io | apply respects_raise]. Qed.

End Frame.

Create HintDb frame.

(** One step of a proof that an operation respects [P]: a combinator or a
    primitive, or a case analysis on what the operation branches on. *)
Ltac frame_step :=
  first
    [ apply respects_safe_remove | apply respects_os_remove
    | apply respects_os_path_exists | apply respects_get_converters
    | apply respects_call_handler | apply respects_lib_mem | apply respects_lib_io
    | apply respects_read_pdf | apply respects_import_or_raise
    | apply respects_require_exists | apply respects_open_write
    | apply respects_emit | apply respects_ret | apply respects_raise
    | apply respects_for_each | apply respects_try_except
    | apply respects_try_finally | apply respects_bind
    | match goal with
      | |- respects _ (if ?b then _ else _) => destruct b
      | |- respects _ (match ?x with _ => _ end) => destruct x
      | |- ∀ _, _ => intros ?
      | |- any_event _ => exact I
      | |- rotates_by _ _ => by simpl
      end ].

Ltac frame := repeat first [ solve [auto with frame] | frame_step ].

Section FrameOperations.

Variable X : externals.

Lemma respects_dispatch src dst inp out :
  respects any_event (dispatch X src dst inp out).
Proof. unfold dispatch. frame. Qed.

Lemma respects_chain_loop inp out len steps :
  ∀ i current_input temp_files,
    respects_loop any_event (chain_loop X inp out len i steps current_input temp_files).
Proof.
  induction steps as [| [from_fmt to_fmt] rest IH]; intros i current_input temp_files w.
  - apply extends_refl.
  - cbn [chain_loop].
    assert (Hstep : ∀ current_output temps,
              extends any_event w
                (match dispatch X from_fmt to_fmt current_input current_output w with
                 | (Ok _, w') =>
                     chain_loop X inp out len (S i) rest current_output temps w'
                 | (Raise e, w') => ((Raise e, temps), w')
                 end).2).
    { intros current_output temps.
      pose proof (respects_dispatch from_fmt to_fmt current_input current_output w) as Hd.
      destruct (dispatch X from_fmt to_fmt current_input current_output w) as [[[] | e] w'];
        [| exact Hd].
      eapply extends_trans; [exact Hd | apply IH]. }
    destruct (Nat.eqb i (len - 1)); [apply Hstep |].
    destruct (Py.with_suffix _ _); [apply Hstep | apply extends_refl].
Qed.

Lemma respects_run_chain inp out chain : respects any_event (run_chain X inp out chain).
Proof.
  intros w. unfold run_chain.
  pose proof (respects_chain_loop inp out (length chain) chain 0 inp [] w) as Hloop.
  destruct (chain_loop _ _ _ _ _ _ _ _ _) as [[r temp_files] w1]. cbn [snd] in Hloop.
  assert (Hclean : ∀ A (k : M A), respects any_event k →
            respects any_event (for_each temp_files (safe_remove X) ;; k)) by (intros; frame).
  destruct r as [[] | e].
  - pose proof (respects_for_each any_event temp_files (safe_remove X)
                  (λ p, respects_safe_remove any_event X p I) w1) as Hrm.
    destruct (for_each temp_files (safe_remove X) w1) as [[[] | e] w2]; cbn [snd] in Hrm.
    + by eapply extends_trans.
    + eapply extends_trans; [exact Hloop |]. eapply extends_trans; [exact Hrm |].
      apply (Hclean unit (raise e)). frame.
  - eapply extends_trans; [exact Hloop |]. apply (Hclean unit (raise e)). frame.
Qed.

Hint Resolve respects_dispatch respects_run_chain : frame.

Lemma respects_convert_file inp out : respects any_event (convert_file X inp out).
Proof. unfold convert_file. frame. Qed.

Lemma respects_merge_pdfs inputs out : respects any_event (merge_pdfs X inputs out).
Proof. unfold merge_pdfs. frame. Qed.

Lemma respects_split_pdf inp outdir : respects any_event (split_pdf X inp outdir).
Proof. unfold split_pdf, print. frame. Qed.

Lemma respects_compress_pdf inp out : respects any_event (compress_pdf X inp out).
Proof. unfold compress_pdf. frame. Qed.

Lemma respects_rotate_pdf_any inp out deg : respects any_event (rotate_pdf X inp out deg).
Proof. unfold rotate_pdf. frame. Qed.

Lemma respects_watermark_pdf inp out text :
  respects any_event (watermark_pdf X inp out text).
Proof. unfold watermark_pdf. frame. Qed.

Lemma respects_doctor : respects any_event (doctor X).
Proof. unfold doctor. frame. Qed.

Hint Resolve respects_convert_file respects_merge_pdfs respects_split_pdf
  respects_compress_pdf respects_rotate_pdf_any respects_watermark_pdf
  respects_doctor : frame.

Lemma respects_cli_mode args argv : respects any_event (cli_mode X args argv).
Proof. unfold cli_mode, argv_last, print. frame. Qed.

Lemma run_operation_extends op w : extends any_event w (run_operation X op w).
Proof.
  destruct op; simpl.
  - by apply respects_safe_remove.
  - apply respects_dispatch.
  - apply respects_convert_file.
  - apply respects_merge_pdfs.
  - apply respects_split_pdf.
  - apply respects_compress_pdf.
  - apply respects_rotate_pdf_any.
  - apply respects_watermark_pdf.
  - apply respects_doctor.
  - apply respects_cli_mode.
Qed.

Lemma run_operations_extends ops w : extends any_event w (run_operations X ops w).
Proof.
  revert w. induction ops as [| op ops IH]; intros w; simpl.
  - apply extends_refl.
  - eapply extends_trans; [apply run_operation_extends | apply IH].
Qed.

(** C8. The table is the literal [CONVERTERS] when the module starts, and
    no operation of the program changes it: after any sequence of
    operations from the initial world, whatever the external tools do and
    whether the operations return or raise, the table is still
    [CONVERTERS], entry for entry; each single operation leaves the table
    of the world it runs in as it found it.  [find_chain] only reads the
    table it is given. *)
Theorem converters_never_mutated (files : gset string) (ops : list operation) :
  converters (initial_world files) = CONVERTERS
  ∧ converters (run_operations X ops (initial_world files)) = CONVERTERS
  ∧ (∀ key, converters (run_operations X ops (initial_world files)) !! key
            = CONVERTERS !! key)
  ∧ (∀ op w, converters (run_operation X op w) = converters w).
Proof.
  assert (H : converters (run_operations X ops (initial_world files)) = CONVERTERS)
    by apply run_operations_extends.
  split; [done |]. split; [done |]. split.
  - intros key. by rewrite H.
  - intros op w. apply run_operation_extends.
Qed.

End FrameOperations.

(** ** rotate_pdf *)

Lemma normalize_degrees_eq deg :
  normalize_degrees deg = ((deg `mod` 360) `div` 90 * 90)%Z
  ∧ (0 ≤ (deg `mod` 360) `div` 90 ≤ 3)%Z.
Proof.
  unfold normalize_degrees.
  assert (Hm : (0 ≤ deg `mod` 360 < 360)%Z) by (apply Z.mod_pos_bound; lia).
  assert (Hq : (0 ≤ (deg `mod` 360) `div` 90 ≤ 3)%Z).
  { split; [apply Z.div_pos; lia |].
    apply Z.lt_succ_r, Z.div_lt_upper_bound; lia. }
  split; [| exact Hq].
  destruct (Z.ltb_spec ((deg `mod` 360) `div` 90 * 90) 0); [lia | reflexivity].
Qed.

Section Rotate.

Variable X : externals.

Lemma respects_rotate_pdf inp out deg :
  respects (rotates_by (normalize_degrees deg)) (rotate_pdf X inp out deg).
Proof. unfold rotate_pdf. frame. Qed.

Lemma rotate_loop_ok d pages w w' :
  for_each pages (λ i, lib_mem X (Page_rotate i d) ;; lib_mem X (Writer_add_page i)) w
  = (Ok (), w') →
  fs w' = fs w
  ∧ trace w' = trace w
      ++ flat_map (λ i, [EvLib (Page_rotate i d); EvLib (Writer_add_page i)]) pages.
Proof.
  revert w. induction pages as [| i pages IH]; intros w.
  - intros [= <-]. cbn. by rewrite app_nil_r.
  - cbn [for_each flat_map]. unfold bind at 1. unfold bind at 1. unfold lib_mem at 1.
    destruct (lib_mem_sem X (Page_rotate i d) (fs w)); [done |].
    unfold lib_mem at 1. cbn [log fs].
    destruct (lib_mem_sem X (Writer_add_page i) (fs w)); [done |].
    intros Hrest. destruct (IH _ Hrest) as [Hfs Htr]. rewrite Hfs, Htr.
    cbn [log trace fs converters]. by rewrite <- !app_assoc.
Qed.

(** C9. For every integer [deg], [rotate_pdf] replaces it by
    ((deg mod 360) div 90) * 90, with the modulo that is never negative;
    the result is 0, 90, 180 or 270, also for negative and out-of-range
    inputs; every [page.rotate] a run makes, on whatever page and whether
    the run returns or raises, is by that angle; and a run that returns has
    read the input file, of [n] pages say, and has rotated each of the
    pages 0 to [n - 1] by that angle, once and in order, adding each to the
    writer before it wrote the output. *)
Theorem rotate_pdf_quarter_turns (inp out : option string) (deg : Z) (w : world) :
  normalize_degrees deg = ((deg `mod` 360) `div` 90 * 90)%Z
  ∧ (0 ≤ deg `mod` 360 < 360)%Z
  ∧ normalize_degrees deg ∈ [0; 90; 180; 270]%Z
  ∧ (∃ evs, trace (rotate_pdf X inp out deg w).2 = trace w ++ evs
            ∧ ∀ page r, EvLib (Page_rotate page r) ∈ evs → r = normalize_degrees deg)
  ∧ ((rotate_pdf X inp out deg w).1 = Ok () →
     ∃ s o n,
       inp = Some s ∧ out = Some o ∧ pdf_pages X s (fs w) = inr n
       ∧ trace (rotate_pdf X inp out deg w).2
         = trace w ++ rotate_calls (normalize_degrees deg) n o
       ∧ ∀ page, (page < n)%nat →
           EvLib (Page_rotate page (normalize_degrees deg))
             ∈ rotate_calls (normalize_degrees deg) n o).
Proof.
  destruct (normalize_degrees_eq deg) as [Heq Hq].
  split; [exact Heq |]. split; [apply Z.mod_pos_bound; lia |]. split; [| split].
  - rewrite Heq.
    assert (Hcases : ((deg `mod` 360) `div` 90 = 0 ∨ (deg `mod` 360) `div` 90 = 1
                      ∨ (deg `mod` 360) `div` 90 = 2 ∨ (deg `mod` 360) `div` 90 = 3)%Z)
      by lia.
    destruct Hcases as [-> | [-> | [-> | ->]]]; simpl;
      repeat first [apply list_elem_of_here | apply list_elem_of_further].
  - destruct (respects_rotate_pdf inp out deg w) as [_ (evs & Htrace & Hall)].
    exists evs. split; [exact Htrace |].
    intros page r Hin. rewrite Forall_forall in Hall. exact (Hall _ Hin).
  - destruct (rotate_pdf X inp out deg w) as [r w'] eqn:Hrun. cbn [fst snd]. intros ->.
    unfold rotate_pdf in Hrun.
    unfold bind at 1 in Hrun.
    destruct (import_or_raise _ _ w) as [[[] | e] w0] eqn:Himp; [| done].
    assert (w0 = w) as ->.
    { unfold import_or_raise in Himp. destruct (has_PdfReader X); by injection Himp. }
    unfold bind at 1 in Hrun.
    destruct (require_exists inp w) as [[s | e] w0] eqn:Hreq; [| done].
    assert (inp = Some s ∧ w0 = w) as [-> ->].
    { unfold require_exists, bind in Hreq. destruct inp as [p |]; [| done].
      cbn [os_path_exists] in Hreq. destruct (bool_decide _); [| done].
      by injection Hreq as -> ->. }
    unfold bind at 1 in Hrun. unfold read_pdf at 1 in Hrun.
    destruct (pdf_pages X s (fs w)) as [e | n] eqn:Hpages; [done |].
    unfold bind at 1 in Hrun. unfold lib_mem at 1 in Hrun.
    destruct (lib_mem_sem X PdfWriter_new (fs w)); [done |].
    unfold bind at 1 in Hrun.
    destruct (for_each (seq 0 n) _ _) as [[[] | e] w1] eqn:Hloop; [| done].
    apply rotate_loop_ok in Hloop as [Hfs Hloop].
    destruct out as [o |]; [| done].
    unfold open_write, lib_io in Hrun.
    destruct (lib_io_sem X (Writer_write o) (fs w1)) as [[e |] files]; [done |].
    injection Hrun as <-.
    exists s, o, n. split; [done |]. split; [done |]. split; [done |]. split.
    + cbn [log set_fs trace]. rewrite Hloop. cbn [log trace].
      unfold rotate_calls. by rewrite <- !app_assoc.
    + intros page Hpage. unfold rotate_calls.
      apply elem_of_app. right. apply elem_of_app. left.
      apply list_elem_of_In, in_flat_map. exists page. split.
      * apply in_seq. lia.
      * by left.
Qed.

End Rotate.

Lemma rotate_pdf_quarter_turns_witness :
  normalize_degrees (-90) = 270%Z
  ∧ normalize_degrees (-90) ∈ [0; 90; 180; 270]%Z
  ∧ (∃ evs,
       trace (rotate_pdf obliging (Some "a.pdf") (Some "b.pdf") (-90)
                (initial_world {["a.pdf"]})).2 = [] ++ evs
       ∧ ∀ page r, EvLib (Page_rotate page r) ∈ evs → r = normalize_degrees (-90))
  ∧ trace (rotate_pdf obliging (Some "a.pdf") (Some "b.pdf") (-90)
             (initial_world {["a.pdf"]})).2
    = [EvLib PdfWriter_new;
       EvLib (Page_rotate 0 270); EvLib (Writer_add_page 0);
       EvLib (Page_rotate 1 270); EvLib (Writer_add_page 1);
       EvLib (Writer_write "b.pdf")].
Proof.
  destruct (rotate_pdf_quarter_turns obliging (Some "a.pdf") (Some "b.pdf") (-90)
              (initial_world {["a.pdf"]})) as (Heq & _ & Hin & Hevs & Hrun).
  split; [by rewrite Heq |]. split; [exact Hin |]. split; [exact Hevs |].
  destruct (Hrun eq_refl) as (s & o & n & Hs & Ho & Hn & Htrace & _).
  injection Ho as <-. injection Hn as <-. exact Htrace.
Defined.

Example rotate_pdf_examples :
  normalize_degrees 90 = 90%Z ∧ normalize_degrees (-90) = 270%Z
  ∧ normalize_degrees 450 = 90%Z ∧ normalize_degrees 45 = 0%Z
  ∧ normalize_degrees (-1) = 270%Z ∧ normalize_degrees 720 = 0%Z.
Proof. repeat split. Qed.

Example rotate_pdf_run :
  rotate_pdf obliging (Some "a.pdf") (Some "b.pdf") (-90) (initial_world {["a.pdf"]})
  = (Ok (), World ({["a.pdf"]} ∪ {["b.pdf"]}) CONVERTERS
              [EvLib PdfWriter_new;
               EvLib (Page_rotate 0 270); EvLib (Writer_add_page 0);
               EvLib (Page_rotate 1 270); EvLib (Writer_add_page 1);
               EvLib (Writer_write "b.pdf")]).
Proof. vm_compute. reflexivity. Qed.

(** ** merge_pdfs *)

Section Merge.

Variable X : externals.

Lemma merge_too_few inputs out w :
  length inputs < 2 →
  merge_pdfs X inputs out w =
    (Raise (if has_PdfMerger X then Exn ValueError "Need at least 2 files to merge"
            else Exn RuntimeError pypdf_missing), w).
Proof.
  intros Hlen. unfold merge_pdfs, bind, import_or_raise, raise, ret.
  destruct (has_PdfMerger X); [| done].
  by destruct (Nat.ltb_spec (length inputs) 2); [| lia].
Qed.

(** The loop of lines 373-376 stops with an error when a listed path does
    not exist, and touches neither the file system nor the output. *)
Lemma merge_loop_missing inputs w :
  (∃ f, f ∈ inputs ∧ f ∉ fs w) →
  ∃ e w',
    for_each inputs (λ f,
      b <- os_path_exists (Some f) ;;
      if negb b then raise (Exn FileNotFoundError ("File not found: " +:+ f))
      else lib_mem X (Merger_append f)) w = (Raise e, w')
    ∧ fs w' = fs w ∧ extends not_merger_write w w'.
Proof.
  revert w. induction inputs as [| x inputs IH]; intros w (f & Hin & Hmissing).
  - by apply elem_of_nil in Hin.
  - cbn [for_each]. unfold bind at 1. unfold bind at 1. cbn [os_path_exists].
    destruct (bool_decide_reflect (x ∈ fs w)) as [Hx | Hx]; cbn [negb].
    + unfold lib_mem at 1.
      destruct (lib_mem_sem X (Merger_append x) (fs w)) as [e |].
      * eexists _, _. split; [reflexivity |]. split; [done |]. by apply extends_log.
      * apply elem_of_cons in Hin as [-> | Hin]; [done |].
        destruct (IH (log (EvLib (Merger_append x)) w)) as (e & w' & Hrun & Hfs & Hext);
          [by exists f |].
        exists e, w'. split; [exact Hrun |]. split; [exact Hfs |].
        eapply extends_trans; [| exact Hext]. by apply extends_log.
    + eexists _, _. split; [reflexivity |]. split; [done |]. apply extends_refl.
Qed.

(** The same loop, when everything before the first missing path goes
    well: the error is the file-not-found error of that path. *)
Lemma merge_loop_first_missing before f after w :
  (∀ g, g ∈ before → g ∈ fs w) → f ∉ fs w →
  (∀ g, g ∈ before → lib_mem_sem X (Merger_append g) (fs w) = None) →
  for_each (before ++ f :: after) (λ f,
    b <- os_path_exists (Some f) ;;
    if negb b then raise (Exn FileNotFoundError ("File not found: " +:+ f))
    else lib_mem X (Merger_append f)) w
  = (Raise (Exn FileNotFoundError ("File not found: " +:+ f)),
     World (fs w) (converters w)
           (trace w ++ map (λ g, EvLib (Merger_append g)) before)).
Proof.
  revert w. induction before as [| x before IH]; intros w Hexist Hmissing Happend.
  - cbn [app for_each map]. unfold bind at 1. unfold bind at 1. cbn [os_path_exists].
    rewrite bool_decide_false by done. cbn [negb]. unfold raise.
    rewrite app_nil_r. by destruct w.
  - cbn [app for_each map]. unfold bind at 1. unfold bind at 1. cbn [os_path_exists].
    rewrite bool_decide_true by (apply Hexist, list_elem_of_here). cbn [negb].
    unfold lib_mem at 1. rewrite Happend by apply list_elem_of_here.
    rewrite IH; cbn [fs log converters trace].
    + by rewrite <- app_assoc.
    + intros g Hg. by apply Hexist, list_elem_of_further.
    + done.
    + intros g Hg. by apply Happend, list_elem_of_further.
Qed.

End Merge.

Section MergeRejects.

Variable X : externals.

Lemma merge_missing_raises inputs out w :
  2 ≤ length inputs → (∃ f, f ∈ inputs ∧ f ∉ fs w) →
  ∃ e w', merge_pdfs X inputs out w = (Raise e, w')
          ∧ fs w' = fs w ∧ extends not_merger_write w w'.
Proof.
  intros Hlen Hmissing. unfold merge_pdfs.
  unfold bind at 1. unfold import_or_raise, ret.
  destruct (has_PdfMerger X).
  2: { eexists _, _. split; [reflexivity |]. split; [done |]. apply extends_refl. }
  destruct (Nat.ltb_spec (length inputs) 2); [lia |].
  unfold bind at 1. unfold lib_mem at 1.
  assert (Hnew : extends not_merger_write w (log (EvLib PdfMerger_new) w))
    by (by apply extends_log).
  destruct (lib_mem_sem X PdfMerger_new (fs w)) as [e0 |].
  { eexists _, _. split; [reflexivity |]. split; [done |]. exact Hnew. }
  destruct (merge_loop_missing X inputs (log (EvLib PdfMerger_new) w))
    as (e & w1 & Hloop & Hfs & Hext); [done |].
  unfold try_finally. unfold bind at 1. rewrite Hloop. unfold lib_mem.
  assert (Hclose : extends not_merger_write w (log (EvLib Merger_close) w1)).
  { eapply extends_trans; [exact Hnew |]. eapply extends_trans; [exact Hext |].
    by apply extends_log. }
  destruct (lib_mem_sem X Merger_close (fs w1)) as [e1 |];
    (eexists _, _; split; [reflexivity |]; split; [exact Hfs | exact Hclose]).
Qed.

Lemma merge_first_missing before f after out w :
  2 ≤ length (before ++ f :: after) →
  (∀ g, g ∈ before → g ∈ fs w) → f ∉ fs w →
  has_PdfMerger X = true →
  lib_mem_sem X PdfMerger_new (fs w) = None →
  (∀ g, g ∈ before → lib_mem_sem X (Merger_append g) (fs w) = None) →
  lib_mem_sem X Merger_close (fs w) = None →
  merge_pdfs X (before ++ f :: after) out w
  = (Raise (Exn FileNotFoundError ("File not found: " +:+ f)),
     World (fs w) (converters w)
       (trace w ++ [EvLib PdfMerger_new]
          ++ map (λ g, EvLib (Merger_append g)) before ++ [EvLib Merger_close])).
Proof.
  intros Hlen Hexist Hmissing Himport Hnew Happend Hclose. unfold merge_pdfs.
  unfold bind at 1. unfold import_or_raise, ret. rewrite Himport.
  destruct (Nat.ltb_spec (length (before ++ f :: after)) 2); [lia |].
  unfold bind at 1. unfold lib_mem at 1. rewrite Hnew.
  unfold try_finally. unfold bind at 1.
  rewrite (merge_loop_first_missing X before f after (log (EvLib PdfMerger_new) w))
    by done.
  unfold lib_mem. cbn [fs log converters trace]. rewrite Hclose.
  unfold log. cbn [fs converters trace]. by rewrite <- !app_assoc.
Qed.

(** C10, as the code has it.  [merge_pdfs] raises for every list of fewer
    than 2 paths: the length is checked before any path is looked at, so
    with the PDF library importable the error is the [ValueError] of that
    check (also when the one listed path does not exist) and nothing at all
    has happened.  For a list of at least 2 paths of which one does not
    exist it raises too, with the file system untouched and [merger.write]
    never called; the error is the file-not-found error that names the
    first missing path when the library imports, the merger is constructed
    and closed without error and the appends of the paths before it
    succeed. *)
Theorem merge_pdfs_rejects (inputs : list string) (out : string) (w : world) :
  (length inputs < 2 →
     merge_pdfs X inputs out w =
       (Raise (if has_PdfMerger X then Exn ValueError "Need at least 2 files to merge"
               else Exn RuntimeError pypdf_missing), w))
  ∧ (∀ before f after,
       2 ≤ length inputs → inputs = before ++ f :: after →
       (∀ g, g ∈ before → g ∈ fs w) → f ∉ fs w →
       ∃ e w',
         merge_pdfs X inputs out w = (Raise e, w')
         ∧ fs w' = fs w
         ∧ (∃ evs, trace w' = trace w ++ evs ∧ Forall not_merger_write evs)
         ∧ (has_PdfMerger X = true →
            lib_mem_sem X PdfMerger_new (fs w) = None →
            (∀ g, g ∈ before → lib_mem_sem X (Merger_append g) (fs w) = None) →
            lib_mem_sem X Merger_close (fs w) = None →
            e = Exn FileNotFoundError ("File not found: " +:+ f))).
Proof.
  split; [apply merge_too_few |].
  intros before f after Hlen -> Hexist Hmissing.
  destruct (merge_missing_raises (before ++ f :: after) out w Hlen)
    as (e & w' & Hrun & Hfs & _ & Hevs).
  { exists f. split; [| done]. apply elem_of_app. right. apply list_elem_of_here. }
  exists e, w'. split; [exact Hrun |]. split; [exact Hfs |]. split; [exact Hevs |].
  intros Himport Hnew Happend Hclose.
  rewrite (merge_first_missing before f after out w) in Hrun by done.
  by injection Hrun as <- _.
Qed.

End MergeRejects.

Lemma merge_pdfs_rejects_witness :
  merge_pdfs obliging ["a.pdf"] "out.pdf" (initial_world {["a.pdf"]})
    = (Raise (Exn ValueError "Need at least 2 files to merge"), initial_world {["a.pdf"]})
  ∧ ∃ e w',
      merge_pdfs obliging ["a.pdf"; "missing.pdf"; "c.pdf"] "out.pdf"
        (initial_world {["a.pdf"]}) = (Raise e, w')
      ∧ fs w' = {["a.pdf"]}
      ∧ e = Exn FileNotFoundError "File not found: missing.pdf".
Proof.
  pose proof (merge_pdfs_rejects obliging ["a.pdf"] "out.pdf"
                (initial_world {["a.pdf"]})) as [Hfew _].
  pose proof (merge_pdfs_rejects obliging ["a.pdf"; "missing.pdf"; "c.pdf"] "out.pdf"
                (initial_world {["a.pdf"]})) as [_ Hmissing].
  split.
  - apply Hfew. simpl. lia.
  - destruct (Hmissing ["a.pdf"] "missing.pdf" ["c.pdf"]) as (e & w' & Hrun & Hfs & _ & He).
    + simpl. lia.
    + reflexivity.
    + intros g Hg. list_cases Hg. subst g. apply (bool_decide_unpack _). by vm_compute.
    + apply (bool_decide_unpack _). by vm_compute.
    + exists e, w'. split; [exact Hrun |]. split; [exact Hfs |].
      apply He; reflexivity.
Defined.

(** That [merge_pdfs] raises the file-not-found error whenever a listed
    path does not exist fails on a list of one missing path: the length
    check comes first.  Restricted to lists of at least 2 paths it fails
    too, when the PDF library is not installed: the import comes first. *)
Lemma merge_pdfs_single_missing_path :
  ¬ (∀ (X : externals) (inputs : list string) (out : string) (w : world) (f : string),
       f ∈ inputs → f ∉ fs w →
       ∃ msg, (merge_pdfs X inputs out w).1 = Raise (Exn FileNotFoundError msg))
  ∧ ¬ (∀ (X : externals) (inputs : list string) (out : string) (w : world) (f : string),
         2 ≤ length inputs → f ∈ inputs → f ∉ fs w →
         ∃ msg, (merge_pdfs X inputs out w).1 = Raise (Exn FileNotFoundError msg)).
Proof.
  split; intros Hclaim.
  - destruct (Hclaim obliging ["missing.pdf"] "out.pdf" (initial_world ∅) "missing.pdf")
      as [msg Hmsg].
    + apply list_elem_of_here.
    + apply not_elem_of_empty.
    + vm_compute in Hmsg. discriminate.
  - destruct (Hclaim no_pypdf ["missing.pdf"; "b.pdf"] "out.pdf" (initial_world ∅)
                "missing.pdf") as [msg Hmsg].
    + simpl. lia.
    + apply list_elem_of_here.
    + apply not_elem_of_empty.
    + vm_compute in Hmsg. discriminate.
Qed.

Example merge_pdfs_single_missing_run :
  merge_pdfs obliging ["missing.pdf"] "out.pdf" (initial_world ∅)
  = (Raise (Exn ValueError "Need at least 2 files to merge"), initial_world ∅).
Proof. reflexivity. Qed.

Example merge_pdfs_ok_run :
  merge_pdfs obliging ["a.pdf"; "b.pdf"] "out.pdf" (initial_world ({["a.pdf"]} ∪ {["b.pdf"]}))
  = (Ok (), World ({["a.pdf"]} ∪ {["b.pdf"]} ∪ {["out.pdf"]}) CONVERTERS
       [EvLib PdfMerger_new; EvLib (Merger_append "a.pdf"); EvLib (Merger_append "b.pdf");
        EvLib (Merger_write "out.pdf"); EvLib Merger_close]).
Proof. vm_compute. reflexivity. Qed.

(** ** cli_mode *)

Section Cli.

Variable X : externals.

(** [convert_file] catches every exception: it returns a boolean. *)
Lemma convert_file_returns inp out w :
  ∃ ok, (convert_file X inp out w).1 = Ok ok.
Proof.
  rewrite convert_file_unfold.
  match goal with |- context [match ?r with _ => _ end] => destruct r as [[[] | e] w'] end;
    by eexists.
Qed.

(** C6, where the code departs from it.  In direct-argument mode
    [cli_mode] calls the flag-selected operations with no [try] around
    them.  On [convctl --merge a.pdf out.pdf] (one input), in every world
    and whatever the external tools do, [merge_pdfs] raises and the
    exception leaves [cli_mode] uncaught; the process ends with status 1.
    The same happens on [convctl --rotate 90 missing.pdf out.pdf] when
    [missing.pdf] does not exist. *)
Theorem cli_mode_flag_error_escapes (w : world) :
  (∃ e, cli_mode X merge_one_args merge_one_argv w = (Raise e, w)
        ∧ (has_PdfMerger X = true → e = Exn ValueError "Need at least 2 files to merge"))
  ∧ process_exit_code (cli_mode X merge_one_args merge_one_argv w).1 = 1%Z
  ∧ ("missing.pdf" ∉ fs w →
     ∃ e, cli_mode X rotate_missing_args rotate_missing_argv w = (Raise e, w)
          ∧ (has_PdfReader X = true
             → e = Exn FileNotFoundError "File not found: missing.pdf")).
Proof.
  assert (Hmerge : cli_mode X merge_one_args merge_one_argv w
                   = (Raise (if has_PdfMerger X
                             then Exn ValueError "Need at least 2 files to merge"
                             else Exn RuntimeError pypdf_missing), w)).
  { unfold cli_mode, merge_one_args, merge_one_argv.
    cbn [a_doctor a_merge length Nat.sub take drop argv_last last].
    unfold bind at 1. cbn [ret]. unfold bind at 1.
    rewrite merge_too_few by (simpl; lia). reflexivity. }
  split; [| split].
  - eexists. split; [exact Hmerge |]. by intros ->.
  - by rewrite Hmerge.
  - intros Hmissing.
    unfold cli_mode, rotate_missing_args, rotate_missing_argv.
    cbn [a_doctor a_merge a_split a_compress a_rotate a_input a_output
         truthy_int Z.eqb negb default].
    unfold bind at 1. unfold rotate_pdf. unfold bind at 1.
    unfold import_or_raise. destruct (has_PdfReader X).
    + cbn [ret]. unfold bind at 1. unfold require_exists. unfold bind at 1.
      cbn [os_path_exists]. rewrite bool_decide_false by done.
      eexists. split; [reflexivity |]. done.
    + eexists. split; [reflexivity |]. done.
Qed.

(** C7. [convctl input output] with both paths given and no operation
    flag: the process ends with status 0 when [convert_file] returns
    [True] and with status 1 when it returns [False]; [convert_file]
    always returns one of the two. *)
Theorem cli_mode_exit_code (args : cli_args) (argv : list string) (w : world)
    (input output : string) :
  a_doctor args = false → a_merge args = false → a_split args = false →
  a_compress args = false → truthy_int (a_rotate args) = false →
  truthy_str (a_watermark args) = false →
  a_input args = Some input → a_output args = Some output →
  input ≠ "" → output ≠ "" →
  ∃ ok, (convert_file X input output w).1 = Ok ok
        ∧ process_exit_code (cli_mode X args argv w).1 = (if ok then 0 else 1)%Z.
Proof.
  intros Hdoctor Hmerge Hsplit Hcompress Hrotate Hwatermark Hin Hout Hi Ho.
  destruct (convert_file_returns input output w) as [ok Hok].
  exists ok. split; [exact Hok |].
  unfold cli_mode.
  rewrite Hdoctor, Hmerge, Hsplit, Hcompress, Hrotate, Hwatermark, Hin, Hout.
  destruct (String.eqb_spec input ""); [done |].
  destruct (String.eqb_spec output ""); [done |].
  cbn [orb]. unfold bind at 1.
  destruct (convert_file X input output w) as [r w']. cbn [fst] in Hok. subst r.
  by destruct ok.
Qed.

End Cli.

Lemma cli_mode_flag_error_escapes_witness :
  cli_mode obliging merge_one_args merge_one_argv (initial_world ∅)
    = (Raise (Exn ValueError "Need at least 2 files to merge"), initial_world ∅)
  ∧ cli_mode obliging rotate_missing_args rotate_missing_argv (initial_world ∅)
    = (Raise (Exn FileNotFoundError "File not found: missing.pdf"), initial_world ∅).
Proof.
  destruct (cli_mode_flag_error_escapes obliging (initial_world ∅))
    as ((e & Hmerge & He) & _ & Hrotate).
  split.
  - rewrite Hmerge. by rewrite He.
  - destruct Hrotate as (e' & Hrot & He'); [apply not_elem_of_empty |].
    rewrite Hrot. by rewrite He'.
Defined.

Lemma cli_mode_exit_code_witness :
  process_exit_code
    (cli_mode obliging (convert_args "report.docx" "report.pdf")
       ["convctl"; "report.docx"; "report.pdf"] (initial_world {["report.docx"]})).1 = 0%Z
  ∧ process_exit_code
      (cli_mode failing (convert_args "report.docx" "report.pdf")
         ["convctl"; "report.docx"; "report.pdf"] (initial_world {["report.docx"]})).1 = 1%Z
  ∧ process_exit_code
      (cli_mode obliging (convert_args "photo.heic" "photo.png")
         ["convctl"; "photo.heic"; "photo.png"] (initial_world {["photo.heic"]})).1 = 1%Z.
Proof.
  split; [| split].
  - destruct (cli_mode_exit_code obliging (convert_args "report.docx" "report.pdf")
                ["convctl"; "report.docx"; "report.pdf"] (initial_world {["report.docx"]})
                "report.docx" "report.pdf" eq_refl eq_refl eq_refl eq_refl eq_refl eq_refl
                eq_refl eq_refl ltac:(done) ltac:(done)) as (ok & Hok & Hcode).
    rewrite Hcode. vm_compute in Hok. by injection Hok as <-.
  - destruct (cli_mode_exit_code failing (convert_args "report.docx" "report.pdf")
                ["convctl"; "report.docx"; "report.pdf"] (initial_world {["report.docx"]})
                "report.docx" "report.pdf" eq_refl eq_refl eq_refl eq_refl eq_refl eq_refl
                eq_refl eq_refl ltac:(done) ltac:(done)) as (ok & Hok & Hcode).
    rewrite Hcode. vm_compute in Hok. by injection Hok as <-.
  - destruct (cli_mode_exit_code obliging (convert_args "photo.heic" "photo.png")
                ["convctl"; "photo.heic"; "photo.png"] (initial_world {["photo.heic"]})
                "photo.heic" "photo.png" eq_refl eq_refl eq_refl eq_refl eq_refl eq_refl
                eq_refl eq_refl ltac:(done) ltac:(done)) as (ok & Hok & Hcode).
    rewrite Hcode. vm_compute in Hok. by injection Hok as <-.
Defined.

(** * Further properties *)

(** ** safe_remove *)

Lemma safe_remove_absent (X : externals) p w : p ∉ fs w → safe_remove X p w = (Ok (), w).
Proof.
  intros Hout. rewrite safe_remove_spec. unfold after_remove, removal.
  rewrite !bool_decide_false by done. rewrite app_nil_r. by destruct w.
Qed.

(** X1. [safe_remove] never raises: it returns in every world; the table
    and every other path are as before; the path itself exists afterwards
    only if it existed and [os.remove] raised the OSError that is swallowed;
    when [os.remove] raised, the file system is exactly as before; and once
    the path is gone, a further [safe_remove] of it changes nothing at
    all. *)
Theorem safe_remove_total (X : externals) (path : string) (w : world) :
  safe_remove X path w = (Ok (), (safe_remove X path w).2)
  ∧ converters ((safe_remove X path w).2) = converters w
  ∧ (∀ q, q ≠ path → q ∈ fs ((safe_remove X path w).2) ↔ q ∈ fs w)
  ∧ (path ∈ fs ((safe_remove X path w).2)
     ↔ path ∈ fs w ∧ remove_sem X path (fs w) ≠ None)
  ∧ (remove_sem X path (fs w) ≠ None → fs ((safe_remove X path w).2) = fs w)
  ∧ (path ∉ fs ((safe_remove X path w).2) →
     safe_remove X path (safe_remove X path w).2 = (Ok (), (safe_remove X path w).2)).
Proof.
  split; [by rewrite safe_remove_spec |]. split; [by rewrite safe_remove_spec |].
  split; [| split; [| split; [| apply safe_remove_absent]]];
    rewrite safe_remove_spec; cbn [snd fs]; unfold after_remove;
    (destruct (bool_decide_reflect (path ∈ fs w)) as [Hin | Hout];
     [destruct (remove_sem X path (fs w)) as [msg |] |]).
  - done.
  - intros q Hq. rewrite elem_of_difference, elem_of_singleton. tauto.
  - done.
  - split; [done | by intros [H _]].
  - rewrite elem_of_difference, elem_of_singleton.
    split; [intros [_ H]; by destruct H | intros [_ H]; by destruct H].
  - split; [intros H; by destruct Hout | intros [H _]; by destruct Hout].
  - done.
  - intros H. by destruct H.
  - done.
Qed.

Lemma safe_remove_total_witness :
  ("a.tmp" ∉ fs ((safe_remove obliging "a.tmp" (initial_world {["a.tmp"]})).2))
  ∧ fs ((safe_remove undeletable "a.tmp" (initial_world {["a.tmp"]})).2) = {["a.tmp"]}.
Proof.
  split.
  - destruct (safe_remove_total obliging "a.tmp" (initial_world {["a.tmp"]}))
      as (_ & _ & _ & Hin & _).
    intros H. apply Hin in H as [_ H]. by apply H.
  - destruct (safe_remove_total undeletable "a.tmp" (initial_world {["a.tmp"]}))
      as (_ & _ & _ & _ & Hkeep & _).
    exact (Hkeep ltac:(done)).
Defined.

(** ** The events of a conversion *)

Section ChainEvents.

Variable X : externals.
Variable P : event → Prop.
Variable T : gmap conv_key handler.
Hypothesis dispatch_ok :
  ∀ src dst inp out w, converters w = T → extends P w (dispatch X src dst inp out w).2.
Hypothesis remove_ok : ∀ p, P (EvRemove p).

Lemma chain_loop_events inp out len steps :
  ∀ i current_input temp_files w,
    converters w = T →
    extends P w (chain_loop X inp out len i steps current_input temp_files w).2.
Proof.
  induction steps as [| [from_fmt to_fmt] rest IH]; intros i current_input temp_files w Hw.
  - apply extends_refl.
  - cbn [chain_loop].
    assert (Hstep : ∀ current_output temps,
              extends P w
                (match dispatch X from_fmt to_fmt current_input current_output w with
                 | (Ok _, w') =>
                     chain_loop X inp out len (S i) rest current_output temps w'
                 | (Raise e, w') => ((Raise e, temps), w')
                 end).2).
    { intros current_output temps.
      pose proof (dispatch_ok from_fmt to_fmt current_input current_output w Hw) as Hd.
      destruct (dispatch X from_fmt to_fmt current_input current_output w) as [[[] | e] w'];
        [| exact Hd].
      eapply extends_trans; [exact Hd |]. apply IH.
      destruct Hd as [Hc _]. cbn [snd] in Hc. congruence. }
    destruct (Nat.eqb i (len - 1)); [apply Hstep |].
    destruct (Py.with_suffix _ _); [apply Hstep | apply extends_refl].
Qed.

Lemma run_chain_events inp out chain w :
  converters w = T → extends P w (run_chain X inp out chain w).2.
Proof.
  intros Hw. unfold run_chain.
  pose proof (chain_loop_events inp out (length chain) chain 0 inp [] w Hw) as Hloop.
  destruct (chain_loop _ _ _ _ _ _ _ _ _) as [[r temp_files] w1]. cbn [snd] in Hloop.
  assert (Hrm : ∀ w', extends P w' (for_each temp_files (safe_remove X) w').2).
  { intros w'. apply respects_for_each. intros p. by apply respects_safe_remove. }
  assert (Hclean : ∀ e w',
            extends P w' ((for_each temp_files (safe_remove X) ;; @raise unit e) w').2).
  { intros e w'.
    apply (respects_bind P (for_each temp_files (safe_remove X)) (λ _, @raise unit e)).
    - intros w''. apply Hrm.
    - intros _. apply respects_raise. }
  destruct r as [[] | e].
  - pose proof (Hrm w1) as H1.
    destruct (for_each temp_files (safe_remove X) w1) as [[[] | e] w2]; cbn [snd] in H1.
    + by eapply extends_trans.
    + eapply extends_trans; [exact Hloop |]. eapply extends_trans; [exact H1 |]. apply Hclean.
  - eapply extends_trans; [exact Hloop |]. apply Hclean.
Qed.

(** The part of [convert_file] inside its [try]. *)
Lemma convert_body_events inp out w :
  converters w = T →
  extends P w
    (if has_key (converters w) (jpeg_to_jpg (file_ext inp), jpeg_to_jpg (file_ext out))
     then dispatch X (file_ext inp) (file_ext out) inp out w
     else match find_chain (converters w) (jpeg_to_jpg (file_ext inp))
                           (jpeg_to_jpg (file_ext out)) with
          | Some (step :: steps) => run_chain X inp out (step :: steps) w
          | _ => (Raise (Exn ValueError ("Unsupported conversion: " +:+ file_ext inp
                                          +:+ " -> " +:+ file_ext out)), w)
          end).2.
Proof.
  intros Hw. destruct (has_key _ _); [by apply dispatch_ok |].
  destruct (find_chain _ _ _) as [[| step steps] |]; try apply extends_refl.
  by apply run_chain_events.
Qed.

End ChainEvents.

Lemma dispatch_events X (P : event → Prop) src dst inp out w :
  (∀ h, converters w !! (norm_ext src, norm_ext dst) = Some h → P (EvHandler h inp out)) →
  extends P w (dispatch X src dst inp out w).2.
Proof.
  intros HP. rewrite dispatch_unfold.
  destruct (converters w !! _) as [h |]; [| apply extends_refl].
  by apply respects_call_handler, HP.
Qed.

(** X2. [convert_file] catches everything and reports by its result:
    it returns [True] having printed no error line, or it returns [False]
    and the error line is the last thing it did; it never prints an error
    line before that. *)
Theorem convert_file_false_iff_error_printed X (inp out : string) (w : world) :
  ∃ evs,
    Forall not_error_print evs
    ∧ ((convert_file X inp out w).1 = Ok true
       ∧ trace ((convert_file X inp out w).2) = trace w ++ evs
       ∨ ∃ e, (convert_file X inp out w).1 = Ok false
              ∧ trace ((convert_file X inp out w).2) = trace w ++ evs ++ [EvPrintError e]).
Proof.
  rewrite convert_file_unfold.
  pose proof (convert_body_events X not_error_print (converters w)
                (λ src dst inp out w' _,
                   dispatch_events X not_error_print src dst inp out w' (λ _ _, I))
                (λ _, I) inp out w eq_refl) as [_ (evs & Htrace & Hevs)].
  match type of Htrace with context [trace (?b).2] => destruct b as [[[] | e] w'] end;
    cbn [fst snd] in *; exists evs; (split; [exact Hevs |]).
  - by left.
  - right. exists e. split; [done |]. unfold log; cbn [trace]. by rewrite Htrace, app_assoc.
Qed.

(** ** The chains and the conversions supported *)

Lemma jpeg_to_jpg_not_jpeg s : jpeg_to_jpg s ≠ "jpeg".
Proof.
  unfold jpeg_to_jpg. destruct (String.eqb_spec s "jpeg"); [done | done].
Qed.

Lemma norm_ext_not_jpeg s : norm_ext s ≠ "jpeg".
Proof. apply jpeg_to_jpg_not_jpeg. Qed.

Lemma has_key_jpeg_to_jpg_src src mid :
  mid ∈ intermediates → has_key CONVERTERS (src, mid) = true →
  has_key CONVERTERS (jpeg_to_jpg src, mid) = true.
Proof.
  intros Hmid H. destruct (decide (src = "jpeg")) as [-> | Hne].
  - unfold intermediates in Hmid. list_cases Hmid; subst mid; vm_compute in H |- *; done.
  - by rewrite jpeg_to_jpg_other.
Qed.

Lemma has_key_jpeg_to_jpg_dst mid dst :
  mid ∈ intermediates → has_key CONVERTERS (mid, dst) = true →
  has_key CONVERTERS (mid, jpeg_to_jpg dst) = true.
Proof.
  intros Hmid H. destruct (decide (dst = "jpeg")) as [-> | Hne].
  - unfold intermediates in Hmid. list_cases Hmid; subst mid; vm_compute in H |- *; done.
  - by rewrite jpeg_to_jpg_other.
Qed.

(** X3. Every chain [find_chain] returns on [CONVERTERS] has two steps
    that meet in one of the intermediates; both steps are keys of
    [CONVERTERS], and neither names "jpeg": [dispatch] finds a handler for
    each step of a chain. *)
Theorem find_chain_steps_registered (src dst : string) (chain : list conv_key) :
  find_chain CONVERTERS src dst = Some chain →
  ∃ mid,
    chain = [(jpeg_to_jpg src, mid); (mid, jpeg_to_jpg dst)]
    ∧ mid ∈ intermediates
    ∧ is_Some (CONVERTERS !! (jpeg_to_jpg src, mid))
    ∧ is_Some (CONVERTERS !! (mid, jpeg_to_jpg dst))
    ∧ ∀ key, key ∈ chain → key.1 ≠ "jpeg" ∧ key.2 ≠ "jpeg" ∧ is_Some (CONVERTERS !! key).
Proof.
  intros (mid & Hmid & H1 & H2 & ->)%find_chain_Some_inv.
  apply (has_key_jpeg_to_jpg_src _ _ Hmid), has_key_true in H1.
  apply (has_key_jpeg_to_jpg_dst _ _ Hmid), has_key_true in H2.
  assert (Hm : mid ≠ "jpeg").
  { unfold intermediates in Hmid. list_cases Hmid; by subst mid. }
  exists mid. repeat (split; [done |]).
  intros key Hkey. list_cases Hkey; subst key; cbn [fst snd];
    auto using jpeg_to_jpg_not_jpeg.
Qed.

Lemma find_chain_steps_registered_witness :
  ∃ mid,
    [("jpg", "pdf"); ("pdf", "docx")] = [(jpeg_to_jpg "jpeg", mid); (mid, jpeg_to_jpg "docx")]
    ∧ mid ∈ intermediates
    ∧ is_Some (CONVERTERS !! (jpeg_to_jpg "jpeg", mid))
    ∧ is_Some (CONVERTERS !! (mid, jpeg_to_jpg "docx"))
    ∧ ∀ key, key ∈ [("jpg", "pdf"); ("pdf", "docx")] →
             key.1 ≠ "jpeg" ∧ key.2 ≠ "jpeg" ∧ is_Some (CONVERTERS !! key).
Proof.
  exact (find_chain_steps_registered "jpeg" "docx" [("jpg", "pdf"); ("pdf", "docx")] eq_refl).
Defined.

Ltac in_list :=
  solve [repeat first [apply list_elem_of_here | apply list_elem_of_further]].

Lemma key_supported src dst :
  has_key CONVERTERS (src, dst) = true → src ≠ "jpeg" → dst ≠ "jpeg" → supported src dst.
Proof.
  intros [h H]%has_key_true Hs Hd. apply CONVERTERS_lookup_Some in H.
  unfold supported, document_sources, document_targets, media_pairs.
  list_cases H; simplify_eq; try done;
    first [ left; split; in_list | right; in_list ].
Qed.

Lemma key_src_document src mid :
  mid ∈ intermediates → has_key CONVERTERS (src, mid) = true → src ≠ "jpeg" →
  src ∈ document_sources.
Proof.
  intros Hmid [h H]%has_key_true Hs. apply CONVERTERS_lookup_Some in H.
  unfold intermediates in Hmid. unfold document_sources.
  list_cases H; simplify_eq; try done;
    try (by list_cases Hmid); in_list.
Qed.

Lemma key_dst_document mid dst :
  mid ∈ intermediates → has_key CONVERTERS (mid, dst) = true → dst ≠ "jpeg" →
  dst ∈ document_targets.
Proof.
  intros Hmid [h H]%has_key_true Hd. apply CONVERTERS_lookup_Some in H.
  unfold intermediates in Hmid. unfold document_targets.
  list_cases H; simplify_eq; try done;
    try (by list_cases Hmid); in_list.
Qed.

(** X4. [convert_file] has a route (a direct handler or a chain) exactly
    for the normalized pairs with one of the nine document and image
    sources and one of the four targets pdf, docx, png, jpg, and for the
    three media pairs.  A chain always goes through pdf or png: the
    intermediate jpg is never the one taken. *)
Theorem supported_conversions (src dst : string) :
  (lookup_route CONVERTERS src dst ≠ Unsupported ↔ supported (norm_ext src) (norm_ext dst))
  ∧ (∀ chain, lookup_route CONVERTERS src dst = TwoHop chain →
       ∃ mid, (mid = "pdf" ∨ mid = "png")
              ∧ chain = [(norm_ext src, mid); (mid, norm_ext dst)]).
Proof.
  pose proof (norm_ext_not_jpeg src) as Hs. pose proof (norm_ext_not_jpeg dst) as Hd.
  unfold lookup_route. revert Hs Hd.
  generalize (norm_ext src) (norm_ext dst). intros s d Hs Hd. split; [split |].
  - intros Hroute.
    destruct (CONVERTERS !! (s, d)) as [h |] eqn:Hkey.
    { apply key_supported; [by apply has_key_true | done | done]. }
    destruct (find_chain CONVERTERS s d) as [chain |] eqn:Hchain; [| done].
    apply find_chain_Some_inv in Hchain as (mid & Hmid & H1 & H2 & _).
    left. split; [by eapply key_src_document | by eapply key_dst_document].
  - unfold supported, document_sources, document_targets, media_pairs.
    intros [[H1 H2] | H].
    + list_cases H1; list_cases H2; subst s d; by vm_compute.
    + list_cases H; simplify_eq; by vm_compute.
  - intros chain.
    destruct (CONVERTERS !! (s, d)) as [h |] eqn:Hkey; [done |].
    destruct (find_chain CONVERTERS s d) as [[| step steps] |] eqn:Hchain; try done.
    intros [= <-].
    pose proof Hchain as (mid & Hmid & H1 & H2 & Heq)%find_chain_Some_inv.
    rewrite !jpeg_to_jpg_other in Heq by done.
    exists mid. split; [| done].
    unfold intermediates in Hmid. list_cases Hmid; subst mid; auto.
    apply key_to_jpg in H1 as [-> | ->]; apply key_from_jpg in H2 as [-> | ->];
      vm_compute in Hkey, Hchain; congruence.
Qed.

Lemma registered_not_jpeg_lambda src dst h inp out :
  CONVERTERS !! (norm_ext src, norm_ext dst) = Some h → not_jpeg_lambda (EvHandler h inp out).
Proof.
  intros H. pose proof (norm_ext_not_jpeg dst) as Hd.
  apply CONVERTERS_lookup_Some in H.
  list_cases H; simplify_eq; exact I.
Qed.

Lemma dispatch_not_jpeg_lambda X src dst inp out w :
  converters w = CONVERTERS →
  extends not_jpeg_lambda w (dispatch X src dst inp out w).2.
Proof.
  intros Hw. apply dispatch_events. rewrite Hw. intros h.
  apply registered_not_jpeg_lambda.
Qed.

(** X5. The handler stored under ("pdf", "jpeg") is dead: from a world
    whose table is [CONVERTERS], neither [dispatch] nor [convert_file] ever
    calls it, because "jpeg" is normalized to "jpg" before the lookup.  A
    PDF converted to a path ending in .jpeg is handled by the lambda that
    rewrites ".jpg". *)
Theorem jpeg_lambda_never_called X (inp out : string) (w : world) :
  converters w = CONVERTERS →
  (∀ src dst, extends not_jpeg_lambda w (dispatch X src dst inp out w).2)
  ∧ extends not_jpeg_lambda w (convert_file X inp out w).2
  ∧ (file_ext inp = "pdf" → file_ext out = "jpeg" →
     ∃ evs, trace (convert_file X inp out w).2
            = trace w ++ EvHandler (pdf_to_images_lambda ".jpg") inp out :: evs).
Proof.
  intros Hw. split; [| split].
  - intros src dst. by apply dispatch_not_jpeg_lambda.
  - rewrite convert_file_unfold.
    pose proof (convert_body_events X not_jpeg_lambda CONVERTERS
                  (dispatch_not_jpeg_lambda X) (λ _, I) inp out w Hw) as Hbody.
    match type of Hbody with context [extends _ _ (?b).2] => destruct b as [[[] | e] w'] end;
      cbn [snd] in *; [exact Hbody |].
    eapply extends_trans; [exact Hbody |]. by apply extends_log.
  - intros Hsrc Hdst.
    rewrite (convert_file_direct_run X w inp out (pdf_to_images_lambda ".jpg"))
      by (by rewrite Hw, Hsrc, Hdst).
    cbn [snd trace]. eauto.
Qed.

Lemma jpeg_lambda_never_called_witness :
  extends not_jpeg_lambda (initial_world {["scan.pdf"]})
    (convert_file obliging "scan.pdf" "scan.jpeg" (initial_world {["scan.pdf"]})).2
  ∧ ∃ evs, trace (convert_file obliging "scan.pdf" "scan.jpeg"
                    (initial_world {["scan.pdf"]})).2
           = [] ++ EvHandler (pdf_to_images_lambda ".jpg") "scan.pdf" "scan.jpeg" :: evs.
Proof.
  destruct (jpeg_lambda_never_called obliging "scan.pdf" "scan.jpeg"
              (initial_world {["scan.pdf"]}) eq_refl) as (_ & Hext & Hjpg).
  split; [exact Hext | exact (Hjpg eq_refl eq_refl)].
Defined.

(** ** The order of the calls of merge_pdfs *)

Section MergeOrder.

Variable X : externals.


End MergeOrder.



(** ** The PDF operations on one file *)

Lemma require_exists_missing inp w :
  inp ∉ fs w →
  require_exists (Some inp) w
  = (Raise (Exn FileNotFoundError ("File not found: " +:+ inp)), w).
Proof.
  intros Hmissing. unfold require_exists, bind. cbn [os_path_exists].
  by rewrite bool_decide_false.
Qed.

(** X7. [split_pdf], [compress_pdf], [rotate_pdf] and [watermark_pdf]
    check the input before anything else but their imports: when the input
    path does not exist each raises, with the world exactly as it was (no
    output directory, no output file, no library call).  With the libraries
    installed the error is the file-not-found error naming the path. *)
Theorem pdf_operations_missing_input X (inp : string) (w : world) :
  inp ∉ fs w →
  (∀ outdir, split_pdf X (Some inp) outdir w = (Raise (missing_input_error X inp), w))
  ∧ (∀ out, compress_pdf X (Some inp) out w = (Raise (missing_input_error X inp), w))
  ∧ (∀ out deg, rotate_pdf X (Some inp) out deg w = (Raise (missing_input_error X inp), w))
  ∧ (∀ out text, watermark_pdf X (Some inp) out text w
                 = (Raise (missing_input_error_watermark X inp), w)).
Proof.
  intros Hmissing. pose proof (require_exists_missing inp w Hmissing) as Hreq.
  unfold split_pdf, compress_pdf, rotate_pdf, watermark_pdf,
    missing_input_error, missing_input_error_watermark, import_or_raise.
  repeat split; intros; unfold bind at 1;
    destruct (has_PdfReader X); cbn [ret raise]; try reflexivity.
  1-3: unfold bind at 1; by rewrite Hreq.
  unfold bind at 1. destruct (has_reportlab X); cbn [ret raise]; [| reflexivity].
  unfold bind at 1. by rewrite Hreq.
Qed.

Lemma pdf_operations_missing_input_witness :
  split_pdf obliging (Some "gone.pdf") "pages" (initial_world ∅)
    = (Raise (Exn FileNotFoundError "File not found: gone.pdf"), initial_world ∅)
  ∧ watermark_pdf obliging (Some "gone.pdf") (Some "out.pdf") "DRAFT" (initial_world ∅)
    = (Raise (Exn FileNotFoundError "File not found: gone.pdf"), initial_world ∅).
Proof.
  destruct (pdf_operations_missing_input obliging "gone.pdf" (initial_world ∅)
              (not_elem_of_empty _)) as (Hsplit & _ & _ & Hmark).
  split; [exact (Hsplit "pages") | exact (Hmark (Some "out.pdf") "DRAFT")].
Defined.

Section ReadsOnly.

Variable X : externals.

Lemma reads_only_ret {A} (a : A) : reads_only (ret a).
Proof. intros w. split; [done | apply extends_refl]. Qed.

Lemma reads_only_raise {A} e : reads_only (@raise A e).
Proof. intros w. split; [done | apply extends_refl]. Qed.

Lemma reads_only_bind {A B} (m : M A) (k : A → M B) :
  reads_only m → (∀ a, reads_only (k a)) → reads_only (bind m k).
Proof.
  intros Hm Hk w. unfold bind. destruct (Hm w) as [Hfs Hext].
  destruct (m w) as [[a | e] w']; [| done].
  destruct (Hk a w') as [Hfs' Hext']. cbn [snd] in *.
  split; [congruence | by eapply extends_trans].
Qed.

Lemma reads_only_for_each {A} (xs : list A) (body : A → M unit) :
  (∀ x, reads_only (body x)) → reads_only (for_each xs body).
Proof.
  intros Hb. induction xs as [| x xs IH]; simpl.
  - apply reads_only_ret.
  - apply reads_only_bind; [apply Hb | done].
Qed.

Lemma reads_only_lib_mem c : no_write (EvLib c) → reads_only (lib_mem X c).
Proof. intros H w. split; [done | by apply extends_log]. Qed.

Lemma reads_only_read_pdf inp : reads_only (read_pdf X inp).
Proof.
  intros w. unfold read_pdf. destruct (pdf_pages _ _ _); (split; [done | apply extends_refl]).
Qed.

Lemma reads_only_import_or_raise ok msg : reads_only (import_or_raise ok msg).
Proof. destruct ok; [apply reads_only_ret | apply reads_only_raise]. Qed.

Lemma reads_only_require_exists inp : reads_only (require_exists inp).
Proof.
  intros w. split; [| apply respects_require_exists].
  unfold require_exists, bind. destruct inp as [s |]; [| done]. cbn [os_path_exists].
  by destruct (bool_decide _).
Qed.

Lemma write_last_bind {A} o (m : M A) (k : A → M unit) :
  reads_only m → (∀ a w, write_last X o w (k a w)) → ∀ w, write_last X o w (bind m k w).
Proof.
  intros Hm Hk w. unfold bind. destruct (Hm w) as [Hfs [Hc (evs & Htrace & Hevs)]].
  destruct (m w) as [[a | e] w1]; cbn [snd] in *.
  - destruct (Hk a w1) as [(e & evs' & Hr & Hfs' & Htrace' & Hevs') | (evs' & Hrun & Hevs')].
    + left. exists e, (evs ++ evs'). split; [done |]. split; [congruence |].
      split; [by rewrite Htrace', Htrace, app_assoc | by apply Forall_app].
    + right. exists (evs ++ evs'). split; [| by apply Forall_app].
      by rewrite Hrun, Hfs, Hc, Htrace, app_assoc.
  - left. exists e, evs. done.
Qed.

Lemma write_last_open_write o w : write_last X o w (open_write X (Some o) w).
Proof.
  right. exists []. split; [| done]. rewrite app_nil_r. by destruct w.
Qed.

End ReadsOnly.

Ltac reads_only_step :=
  first
    [ apply reads_only_lib_mem | apply reads_only_read_pdf
    | apply reads_only_import_or_raise | apply reads_only_require_exists
    | apply reads_only_ret | apply reads_only_raise
    | apply reads_only_for_each | apply reads_only_bind
    | match goal with
      | |- ∀ _, _ => intros ?
      | |- no_write _ => exact I
      end ].

Ltac write_last_tac :=
  repeat first
    [ apply write_last_open_write
    | apply write_last_bind; [solve [repeat reads_only_step] | intros ? ?] ].

(** X8. [compress_pdf], [rotate_pdf] and [watermark_pdf] write nothing
    but the output, once and last: a run either raises before the write,
    with the file system untouched and no writing call made, or its last
    action is the one [writer.write] to the output path, whose result is
    the result of the operation. *)
Theorem pdf_operations_write_last X (inp : option string) (o : string) (w : world) :
  write_last X o w (compress_pdf X inp (Some o) w)
  ∧ (∀ deg, write_last X o w (rotate_pdf X inp (Some o) deg w))
  ∧ (∀ text, write_last X o w (watermark_pdf X inp (Some o) text w)).
Proof.
  split; [| split]; intros; revert w.
  - unfold compress_pdf. write_last_tac.
  - unfold rotate_pdf. write_last_tac.
  - unfold watermark_pdf. write_last_tac.
Qed.

(** ** The page files of split_pdf *)

Lemma nat_of_digits_str_of_nat n : nat_of_digits (Py.str_of_nat n) = Some n.
Proof.
  unfold nat_of_digits, Py.str_of_nat, NilZero.string_of_uint.
  rewrite <- (Unsigned.of_to n) at 2.
  destruct (Nat.to_uint n) eqn:Hd; [reflexivity | ..]; rewrite <- Hd;
    by rewrite NilEmpty.usu.
Qed.

Lemma nat_of_digits_zero s : nat_of_digits (String "0" s) = nat_of_digits s.
Proof.
  unfold nat_of_digits. cbn [NilEmpty.uint_of_string].
  destruct (NilEmpty.uint_of_string s); reflexivity.
Qed.

Lemma nat_of_digits_pad3 n : nat_of_digits (pad3 n) = Some n.
Proof.
  unfold pad3. generalize (3 - String.length (Py.str_of_nat n)). intros k.
  induction k as [| k IH].
  - apply nat_of_digits_str_of_nat.
  - change (nat_of_digits
              (String "0" (string_of_list_ascii (replicate k "0"%char) +:+ Py.str_of_nat n))
            = Some n).
    by rewrite nat_of_digits_zero.
Qed.

Lemma pad3_inj i j : pad3 i = pad3 j → i = j.
Proof.
  intros H. apply (f_equal nat_of_digits) in H.
  rewrite !nat_of_digits_pad3 in H. by injection H.
Qed.

Lemma string_length_app s t : String.length (s +:+ t) = String.length s + String.length t.
Proof. induction s as [| c s IH]; simpl; [done | by rewrite IH]. Qed.

Lemma string_app_inj_r s1 s2 t : s1 +:+ t = s2 +:+ t → s1 = s2.
Proof.
  revert s2. induction s1 as [| c s1 IH]; intros [| c' s2] H.
  - done.
  - apply (f_equal String.length) in H. rewrite !string_length_app in H.
    cbn [String.length] in H. lia.
  - apply (f_equal String.length) in H. rewrite !string_length_app in H.
    cbn [String.length] in H. lia.
  - change (String c (s1 +:+ t) = String c' (s2 +:+ t)) in H.
    injection H as -> H. f_equal. by apply IH.
Qed.



Section SplitPages.

Variable X : externals.


End SplitPages.


Example split_pdf_run_ex :
  split_pdf obliging (Some "a.pdf") "out" (initial_world {["a.pdf"]})
  = (Ok (), World ({["a.pdf"]} ∪ {["out"]} ∪ {["out/page_001.pdf"]} ∪ {["out/page_002.pdf"]})
              CONVERTERS
              ([EvLib (Makedirs "out")] ++ flat_map (split_page_calls "out") (seq 0 2)
               ++ [EvPrint "✅ Split into 2 pages in out"])).
Proof. vm_compute. reflexivity. Qed.

(** ** The angle of rotate_pdf *)




(** ** The flags of cli_mode *)

(** X11. [cli_mode] never reads [--batch] and [--cli], and a
    [--rotate 0] or an empty [--watermark] counts as no flag at all:
    [convctl --rotate 0 input output] is the conversion
    [convctl input output]. *)
Theorem cli_mode_falsy_flags X (args : cli_args) (argv : list string) :
  cli_mode X args argv = cli_mode X (effective_args args) argv
  ∧ ∀ input output,
      cli_mode X (rotate_zero_args input output) argv
      = cli_mode X (convert_args input output) argv.
Proof.
  split; [| reflexivity].
  unfold cli_mode, effective_args.
  cbn [a_input a_output a_merge a_split a_compress a_rotate a_watermark a_doctor].
  destruct (a_doctor args); [done |]. destruct (a_merge args); [done |].
  destruct (a_split args); [done |]. destruct (a_compress args); [done |].
  destruct (truthy_int (a_rotate args)) eqn:Hrot; [by rewrite Hrot |].
  cbn [truthy_int].
  destruct (truthy_str (a_watermark args)) eqn:Hmark; [by rewrite Hmark |].
  done.
Qed.

(** ** get_output_path *)

Lemma string_app_cons c s t : String c s +:+ t = String c (s +:+ t).
Proof. reflexivity. Qed.

Lemma string_app_assoc (a b c : string) : (a +:+ b) +:+ c = a +:+ (b +:+ c).
Proof. induction a as [| x a IH]; [done |]. by rewrite !string_app_cons, IH. Qed.

Lemma has_slash_app a b : Py.has_slash (a +:+ b) = Py.has_slash a || Py.has_slash b.
Proof.
  induction a as [| x a IH]; [done |]. rewrite string_app_cons. cbn [Py.has_slash].
  by rewrite IH, orb_assoc.
Qed.

Lemma split_slash_nonempty s : Py.split_slash s ≠ [].
Proof.
  destruct s as [| c s]; cbn [Py.split_slash]; [done |].
  destruct (Ascii.eqb c "/"); [done |]. by destruct (Py.split_slash s).
Qed.

Lemma split_slash_no_slash t : Py.has_slash t = false → Py.split_slash t = [t].
Proof.
  induction t as [| c t IH]; [done |]. cbn [Py.has_slash Py.split_slash].
  destruct (Ascii.eqb c "/"); [done |]. cbn [orb]. intros H. by rewrite (IH H).
Qed.

Lemma split_slash_no_slash_elem s :
  Forall (λ w, Py.has_slash w = false) (Py.split_slash s).
Proof.
  induction s as [| c s IH]; cbn [Py.split_slash].
  - by apply Forall_singleton.
  - destruct (Ascii.eqb c "/") eqn:Hc; [by apply Forall_cons |].
    destruct (Py.split_slash s) as [| w ws]; [by apply Forall_singleton; cbn; rewrite Hc |].
    apply Forall_cons in IH as [Hw Hws]. apply Forall_cons. split; [| done].
    cbn [Py.has_slash]. by rewrite Hc, Hw.
Qed.

Lemma split_slash_snoc s t :
  Py.has_slash t = false → Py.split_slash (s +:+ "/" +:+ t) = Py.split_slash s ++ [t].
Proof.
  intros Ht. induction s as [| c s IH].
  - change ("" +:+ "/" +:+ t) with (String "/" t). cbn [Py.split_slash Ascii.eqb].
    cbn. by rewrite split_slash_no_slash.
  - change (String c s +:+ "/" +:+ t) with (String c (s +:+ "/" +:+ t)).
    cbn [Py.split_slash]. rewrite IH.
    destruct (Ascii.eqb c "/"); [done |].
    pose proof (split_slash_nonempty s) as Hne.
    by destruct (Py.split_slash s).
Qed.

Lemma name_of_split p l t :
  Py.split_slash p = l ++ [t] → t ≠ "" → t ≠ "." → Py.name p = t.
Proof.
  intros Hsplit H1 H2. unfold Py.name, Py.path_parts. rewrite Hsplit.
  rewrite filter_app, filter_cons_True by done. rewrite filter_nil.
  apply last_last.
Qed.

Lemma name_no_slash p : Py.has_slash (Py.name p) = false.
Proof.
  unfold Py.name, Py.path_parts.
  assert (H : Forall (λ w, Py.has_slash w = false)
                (filter (λ w : string, w ≠ "" ∧ w ≠ ".") (Py.split_slash p)))
    by (apply Forall_forall; intros x [_ Hx]%list_elem_of_filter; revert x Hx;
        apply Forall_forall, split_slash_no_slash_elem).
  revert H. generalize (filter (λ w : string, w ≠ "" ∧ w ≠ ".") (Py.split_slash p)).
  intros l H. induction H as [| x l Hx Hl IH]; [done |].
  destruct l; [done | exact IH].
Qed.

Lemma join_slash_snoc l t :
  l ≠ [] → Py.join_slash (l ++ [t]) = Py.join_slash l +:+ "/" +:+ t.
Proof.
  induction l as [| a l IH]; [done |]. intros _.
  destruct l as [| b l]; [done |].
  change (Py.join_slash ((a :: b :: l) ++ [t]))
    with (a +:+ "/" +:+ Py.join_slash ((b :: l) ++ [t])).
  rewrite IH by done.
  change (Py.join_slash (a :: b :: l)) with (a +:+ "/" +:+ Py.join_slash (b :: l)).
  by rewrite !string_app_assoc.
Qed.

Lemma path_root_cases p : Py.path_root p = "" ∨ Py.path_root p = "/" ∨ Py.path_root p = "//".
Proof.
  unfold Py.path_root.
  repeat (match goal with
          | |- context [match ?x with _ => _ end] => destruct x
          end; auto).
Qed.

Lemma split_of_joined root l t :
  root = "" ∨ root = "/" ∨ root = "//" → Py.has_slash t = false →
  ∃ l', Py.split_slash (root +:+ Py.join_slash (l ++ [t])) = l' ++ [t].
Proof.
  intros Hroot Ht. destruct l as [| a l].
  - cbn [app Py.join_slash]. destruct Hroot as [-> | [-> | ->]].
    + exists []. by apply split_slash_no_slash.
    + exists (Py.split_slash ""). by apply (split_slash_snoc "" t).
    + exists (Py.split_slash "/"). by apply (split_slash_snoc "/" t).
  - rewrite join_slash_snoc by done. rewrite <- string_app_assoc.
    eexists. by apply split_slash_snoc.
Qed.

Lemma string_length_sdrop i s : String.length (Py.sdrop i s) = String.length s - i.
Proof.
  revert s. induction i as [| i IH]; intros [| c s]; cbn [Py.sdrop String.length];
    [done | lia | done | apply IH].
Qed.

Lemma stake_length k s : k ≤ String.length s → String.length (Py.stake k s) = k.
Proof.
  revert s. induction k as [| k IH]; intros [| c s]; cbn [Py.stake String.length];
    [done | done | lia |].
  intros H. rewrite IH; lia.
Qed.

Lemma has_slash_stake k s : Py.has_slash s = false → Py.has_slash (Py.stake k s) = false.
Proof.
  revert s. induction k as [| k IH]; intros [| c s]; cbn [Py.stake Py.has_slash];
    [done | done | done |].
  intros [H1 H2]%orb_false_elim. by rewrite H1, IH.
Qed.

Lemma rfind_dot_Some_lt s i : Py.rfind_dot s = Some i → i < String.length s.
Proof.
  revert i. induction s as [| c s IH]; intros i; cbn; [done |].
  destruct (Py.rfind_dot s) as [j |].
  - intros [= <-]. specialize (IH j eq_refl). lia.
  - destruct (Ascii.eqb c "."); [| done]. intros [= <-]. lia.
Qed.

(** The stem [with_suffix] keeps is not empty. *)
Lemma stem_length nm :
  nm ≠ "" → 0 < String.length nm - String.length (Py.name_suffix nm).
Proof.
  intros Hnm. assert (0 < String.length nm) by (destruct nm; [done | cbn; lia]).
  unfold Py.name_suffix. destruct (Py.rfind_dot nm) as [i |] eqn:Hi; [| cbn; lia].
  destruct (Nat.ltb_spec 0 i); cbn [andb]; [| cbn; lia].
  destruct (_ <? _); [| cbn; lia].
  rewrite string_length_sdrop. apply rfind_dot_Some_lt in Hi. lia.
Qed.

Lemma rfind_dot_stem stem e :
  dotless e → Py.rfind_dot (stem +:+ "." +:+ e) = Some (String.length stem).
Proof.
  intros He. induction stem as [| c stem IH].
  - change ("" +:+ "." +:+ e) with (String "." e). cbn [Py.rfind_dot].
    unfold dotless in He. by rewrite He.
  - change (String c stem +:+ "." +:+ e) with (String c (stem +:+ "." +:+ e)).
    cbn [Py.rfind_dot]. by rewrite IH.
Qed.

Lemma sdrop_app stem x : Py.sdrop (String.length stem) (stem +:+ x) = x.
Proof. induction stem as [| c stem IH]; [by destruct x | exact IH]. Qed.

Lemma name_suffix_stem stem e :
  stem ≠ "" → e ≠ "" → dotless e → Py.name_suffix (stem +:+ "." +:+ e) = "." +:+ e.
Proof.
  intros Hstem He Hdot. unfold Py.name_suffix. rewrite rfind_dot_stem by done.
  rewrite !string_length_app.
  assert (0 < String.length stem) by (destruct stem; [done | cbn; lia]).
  assert (0 < String.length e) by (destruct e; [done | cbn; lia]).
  destruct (Nat.ltb_spec 0 (String.length stem)); [| lia].
  destruct (Nat.ltb_spec (String.length stem)
              (String.length stem + (String.length "." + String.length e) - 1));
    [| cbn [String.length] in *; lia].
  cbn [andb]. apply sdrop_app.
Qed.

Lemma dotless_no_prefix e : dotless e → String.prefix "." e = false.
Proof.
  unfold dotless. destruct e as [| c e]; [done |]. cbn [Py.rfind_dot String.prefix].
  destruct (Py.rfind_dot e); [done |].
  destruct (Ascii.eqb_spec c ".") as [-> | Hc]; [done |]. intros _.
  destruct (ascii_dec "." c) as [Heq | Hne]; [by subst c | done].
Qed.

Lemma prefix_dot e : String.prefix "." ("." +:+ e) = true.
Proof. by destruct e. Qed.

(** The path [with_suffix] makes carries the new suffix. *)
Lemma with_suffix_suffix p e out :
  e ≠ "" → dotless e → Py.has_slash e = false →
  Py.with_suffix p ("." +:+ e) = Some out → Py.suffix out = "." +:+ e.
Proof.
  intros He Hdot Hslash. unfold Py.with_suffix.
  assert (Hsfx : Py.has_slash ("." +:+ e) = false) by exact Hslash.
  rewrite Hsfx. destruct (_ || _); [done |].
  destruct (String.eqb_spec (Py.name p) "") as [| Hname]; [done |].
  intros [= <-].
  pose proof (stem_length _ Hname) as Hpos.
  pose proof (stake_length (String.length (Py.name p)
                             - String.length (Py.name_suffix (Py.name p)))
                (Py.name p) ltac:(lia)) as Hlen.
  pose proof (has_slash_stake (String.length (Py.name p)
                                - String.length (Py.name_suffix (Py.name p)))
                (Py.name p) (name_no_slash p)) as Hstake.
  revert Hlen Hstake.
  generalize (Py.stake (String.length (Py.name p)
                        - String.length (Py.name_suffix (Py.name p))) (Py.name p)).
  intros stem Hlen Hstake.
  assert (Hstem : stem ≠ "").
  { intros ->. cbn [String.length] in Hlen. lia. }
  assert (Hnew : Py.has_slash (stem +:+ "." +:+ e) = false).
  { rewrite has_slash_app, has_slash_app. by rewrite Hstake, Hslash. }
  destruct (split_of_joined (Py.path_root p)
              (take (length (Py.path_parts p) - 1) (Py.path_parts p))
              (stem +:+ "." +:+ e) (path_root_cases p) Hnew) as [l' Hsplit].
  unfold Py.suffix. rewrite (name_of_split _ l' _ Hsplit).
  - by apply name_suffix_stem.
  - destruct stem; [done | discriminate].
  - intros Heq. apply (f_equal String.length) in Heq.
    rewrite string_length_app, string_length_app in Heq.
    destruct stem; [done |]. destruct e; [done |]. cbn [String.length] in Heq. lia.
Qed.

(** X12. For an input path with a file name and an extension [e] that
    is not empty and has no dot and no slash, [get_output_path] returns a
    path, the same with and without a leading dot on [e]; the suffix of
    that path is ["." ++ e], so [convert_file] reads [e] in lower case as
    the destination format. *)
Theorem get_output_path_extension (p e : string) :
  Py.name p ≠ "" → e ≠ "" → dotless e → Py.has_slash e = false →
  ∃ out,
    get_output_path p e = Some out
    ∧ get_output_path p ("." +:+ e) = Some out
    ∧ Py.suffix out = "." +:+ e
    ∧ file_ext out = Py.lower e
    ∧ norm_ext (file_ext out) = norm_ext e.
Proof.
  intros Hname He Hdot Hslash.
  assert (Hsome : is_Some (Py.with_suffix p ("." +:+ e))).
  { apply with_suffix_Some; [exact Hslash | apply prefix_dot | | exact Hname].
    intros Heq. apply (String.app_inj "." e "") in Heq. done. }
  destruct Hsome as [out Hout]. exists out.
  pose proof (with_suffix_suffix p e out He Hdot Hslash Hout) as Hsfx.
  unfold get_output_path. rewrite dotless_no_prefix by done.
  rewrite prefix_dot.
  split; [done |]. split; [done |]. split; [done |].
  assert (Hext : file_ext out = Py.lower e).
  { unfold file_ext, raw_ext. by rewrite Hsfx. }
  split; [done |]. rewrite Hext. apply norm_ext_lower.
Qed.

Lemma get_output_path_extension_witness :
  ∃ out,
    get_output_path "docs/report.v2.docx" "PDF" = Some out
    ∧ get_output_path "docs/report.v2.docx" ".PDF" = Some out
    ∧ Py.suffix out = ".PDF"
    ∧ file_ext out = "pdf"
    ∧ norm_ext (file_ext out) = norm_ext "PDF".
Proof.
  exact (get_output_path_extension "docs/report.v2.docx" "PDF"
           ltac:(done) ltac:(done) eq_refl eq_refl).
Defined.

Example get_output_path_ex :
  get_output_path "docs/report.v2.docx" "pdf" = Some "docs/report.v2.pdf"
  ∧ get_output_path "photo.JPG" ".png" = Some "photo.png"
  ∧ get_output_path "/" "pdf" = None
  ∧ get_output_path "notes" "" = None
  ∧ get_output_path "notes" "tar.gz" = Some "notes.tar.gz".
Proof. repeat split. Qed.

(** X13. What the menus do, [out = get_output_path(inp, ext)] then
    [convert_file(inp, out)], converts by the extension of the input file
    and the chosen [ext]: the conversion follows the route [lookup_route]
    gives for that pair, whatever the menu entry is called. *)
Theorem menu_conversion_route X (inp ext : string) (w : world) :
  Py.name inp ≠ "" → ext ≠ "" → dotless ext → Py.has_slash ext = false →
  ∃ out,
    get_output_path inp ext = Some out
    ∧ raw_ext out = ext
    ∧ convert_file X inp out w
      = convert_via X (lookup_route (converters w) (raw_ext inp) ext) inp out w.
Proof.
  intros Hname Hext Hdot Hslash.
  assert (Hsome : is_Some (Py.with_suffix inp ("." +:+ ext))).
  { apply with_suffix_Some; [exact Hslash | apply prefix_dot | | exact Hname].
    intros Heq. apply (String.app_inj "." ext "") in Heq. done. }
  destruct Hsome as [out Hout]. exists out.
  pose proof (with_suffix_suffix inp ext out Hext Hdot Hslash Hout) as Hsfx.
  assert (Hraw : raw_ext out = ext) by (unfold raw_ext; by rewrite Hsfx).
  split; [| split; [exact Hraw |]].
  - unfold get_output_path. by rewrite dotless_no_prefix.
  - rewrite <- Hraw at 1. apply convert_file_via.
Qed.

Lemma menu_conversion_route_witness :
  ∃ out,
    get_output_path "report.pdf" "pdf" = Some out
    ∧ raw_ext out = "pdf"
    ∧ convert_file obliging "report.pdf" out (initial_world {["report.pdf"]})
      = convert_via obliging (lookup_route CONVERTERS (raw_ext "report.pdf") "pdf")
          "report.pdf" out (initial_world {["report.pdf"]}).
Proof.
  exact (menu_conversion_route obliging "report.pdf" "pdf" (initial_world {["report.pdf"]})
           ltac:(done) ltac:(done) eq_refl eq_refl).
Defined.

Example menu_same_format :
  get_output_path "report.pdf" "pdf" = Some "report.pdf"
  ∧ lookup_route CONVERTERS (raw_ext "report.pdf") "pdf" = TwoHop [("pdf", "png"); ("png", "pdf")].
Proof. split; reflexivity. Qed.

(** ** txt_to_pdf *)

Lemma pieces_nonempty s : Txt.pieces s ≠ [].
Proof.
  destruct s as [| c s]; cbn [Txt.pieces]; [done |].
  destruct (Txt.is_space c); [done |]. by destruct (Txt.pieces s).
Qed.

Lemma pieces_no_space t : Txt.has_space t = false → Txt.pieces t = [t].
Proof.
  induction t as [| c t IH]; [done |]. cbn [Txt.has_space Txt.pieces].
  destruct (Txt.is_space c); [done |]. cbn [orb]. intros H. by rewrite (IH H).
Qed.

Lemma pieces_snoc s t :
  Txt.has_space t = false → Txt.pieces (s +:+ " " +:+ t) = Txt.pieces s ++ [t].
Proof.
  intros Ht. induction s as [| c s IH].
  - change ("" +:+ " " +:+ t) with (String " " t). cbn [Txt.pieces].
    change (Txt.is_space " ") with true. cbn. by rewrite pieces_no_space.
  - rewrite string_app_cons. cbn [Txt.pieces]. rewrite IH.
    destruct (Txt.is_space c); [done |].
    pose proof (pieces_nonempty s) as Hne. by destruct (Txt.pieces s).
Qed.

Lemma pieces_elem_no_space s : Forall (λ w, Txt.has_space w = false) (Txt.pieces s).
Proof.
  induction s as [| c s IH]; cbn [Txt.pieces].
  - by apply Forall_singleton.
  - destruct (Txt.is_space c) eqn:Hc; [by apply Forall_cons |].
    destruct (Txt.pieces s) as [| w ws]; [by apply Forall_singleton; cbn; rewrite Hc |].
    apply Forall_cons in IH as [Hw Hws]. apply Forall_cons. split; [| done].
    cbn [Txt.has_space]. by rewrite Hc, Hw.
Qed.

Lemma split_words s : Forall Txt.is_word (Txt.split s).
Proof.
  apply Forall_forall. intros w [Hne Hw]%list_elem_of_filter. split; [done |].
  clear Hne. revert w Hw. apply Forall_forall, pieces_elem_no_space.
Qed.

Lemma split_word t : Txt.is_word t → Txt.split t = [t].
Proof.
  intros [Hne Hsp]. unfold Txt.split. rewrite pieces_no_space by done.
  by rewrite filter_cons_True.
Qed.

Lemma split_snoc s t : Txt.is_word t → Txt.split (s +:+ " " +:+ t) = Txt.split s ++ [t].
Proof.
  intros [Hne Hsp]. unfold Txt.split. rewrite pieces_snoc by done.
  by rewrite filter_app, filter_cons_True.
Qed.

(** Stripping trailing whitespace keeps the words. *)
Lemma pieces_rstrip s :
  ∃ w ws ws',
    Txt.pieces s = w :: ws ∧ Txt.pieces (Txt.rstrip s) = w :: ws'
    ∧ filter (λ w : string, w ≠ "") ws = filter (λ w : string, w ≠ "") ws'.
Proof.
  unfold Txt.rstrip. induction s as [| c s (w & ws & ws' & Hs & Hr & Hf)].
  - by exists "", [], [].
  - cbn [Txt.pieces Txt.rstrip_by]. rewrite Hs.
    destruct (Txt.rstrip_by Txt.is_space s) as [| c' r] eqn:Hstrip.
    + cbn [Txt.pieces] in Hr. injection Hr as <- <-.
      destruct (Txt.is_space c) eqn:Hc.
      * exists "", ("" :: ws), []. cbn [Txt.pieces]. split; [done |]. split; [done |].
        by rewrite filter_cons_False by (intros H; by apply H).
      * exists (String c ""), ws, []. cbn [Txt.pieces]. by rewrite Hc.
    + change (Txt.pieces (String c (String c' r)))
        with (if Txt.is_space c then "" :: Txt.pieces (String c' r)
              else match Txt.pieces (String c' r) with
                   | w :: ws => String c w :: ws
                   | [] => [String c ""]
                   end).
      rewrite Hr. destruct (Txt.is_space c).
      * exists "", (w :: ws), (w :: ws'). split; [done |]. split; [done |].
        destruct (decide (w ≠ "")).
        -- by rewrite !filter_cons_True, Hf by done.
        -- by rewrite !filter_cons_False by done.
      * by exists (String c w), ws, ws'.
Qed.

Lemma split_rstrip s : Txt.split (Txt.rstrip s) = Txt.split s.
Proof.
  destruct (pieces_rstrip s) as (w & ws & ws' & Hs & Hr & Hf).
  unfold Txt.split. rewrite Hs, Hr.
  destruct (decide (w ≠ "")).
  - by rewrite !filter_cons_True, Hf by done.
  - by rewrite !filter_cons_False by done.
Qed.

Section TxtLayout.

Variable num : Type.
Variable of_int : Z → num.
Variable sub : num → num → num.
Variable ltb : num → num → bool.
Variable height : num.

Abbreviation pen := (Txt.pen num).
Abbreviation draw := (Txt.draw num of_int sub).
Abbreviation page_break := (Txt.page_break num of_int sub ltb height).
Abbreviation wrap_words := (Txt.wrap_words num of_int sub ltb height).
Abbreviation draw_line := (Txt.draw_line num of_int sub ltb height).
Abbreviation draw_lines := (Txt.draw_lines num of_int sub ltb height).
Abbreviation drawn := (Txt.drawn num).
Abbreviation adds := (Txt.adds num).
Abbreviation pen_ok := (Txt.pen_ok num of_int ltb).
Abbreviation in_page := (Txt.in_page num of_int ltb).

Lemma drawn_app (a b : list (Txt.canvas_op num)) : drawn (a ++ b) = drawn a ++ drawn b.
Proof. apply flat_map_app. Qed.

Lemma adds_refl p : adds [] p p.
Proof. exists []. by rewrite app_nil_r. Qed.

Lemma adds_trans t1 t2 p1 p2 p3 : adds t1 p1 p2 → adds t2 p2 p3 → adds (t1 ++ t2) p1 p3.
Proof.
  intros (a1 & H1 & Hb1 & Hd1) (a2 & H2 & Hb2 & Hd2). exists (a1 ++ a2).
  split; [by rewrite H2, H1, app_assoc |]. split; [by apply Forall_app |].
  by rewrite drawn_app, Hd1, Hd2.
Qed.

Lemma adds_draw t p : adds [t] p (draw t p).
Proof. exists [Txt.DrawString (Txt.x_margin num of_int) p.1 t]. by repeat constructor. Qed.

Lemma adds_page_break p : adds [] p (page_break p).
Proof.
  unfold Txt.page_break. destruct (ltb _ _); [| apply adds_refl].
  exists [@Txt.ShowPage num]. by repeat constructor.
Qed.

Lemma adds_draw_break t p : adds [t] p (page_break (draw t p)).
Proof.
  change [t] with ([t] ++ []). eapply adds_trans; [apply adds_draw | apply adds_page_break].
Qed.

(** The loop over the words draws its words in order: the strings it
    draws and the line it leaves hold the words of the line it started
    with, then [words]; every string fits or is one word. *)
Lemma wrap_words_adds words :
  Forall Txt.is_word words →
  ∀ cur p, Txt.fits cur →
    ∃ texts,
      adds texts p (wrap_words words cur p).2
      ∧ flat_map Txt.split texts ++ Txt.split (wrap_words words cur p).1
        = Txt.split cur ++ words
      ∧ Forall Txt.fits texts
      ∧ Txt.fits (wrap_words words cur p).1.
Proof.
  induction 1 as [| word rest Hword Hrest IH]; intros cur p Hcur; cbn [Txt.wrap_words].
  - exists []. split; [apply adds_refl |]. by rewrite app_nil_r.
  - destruct (Nat.ltb_spec (String.length cur + String.length word + 1) 100) as [Hlt | Hge].
    + destruct (String.eqb_spec cur "") as [-> | Hne].
      * destruct (IH word p) as (texts & Hadds & Hw & Hfits & Hleft); [by right |].
        exists texts. split; [done |]. split; [| done].
        rewrite Hw. by rewrite (split_word word).
      * destruct (IH (cur +:+ " " +:+ word) p) as (texts & Hadds & Hw & Hfits & Hleft).
        { left. rewrite string_length_app, string_length_app. cbn [String.length]. lia. }
        exists texts. split; [done |]. split; [| done].
        rewrite Hw, split_snoc by done. by rewrite <- app_assoc.
    + destruct (IH word (page_break (draw cur p))) as (texts & Hadds & Hw & Hfits & Hleft);
        [by right |].
      exists (cur :: texts). split; [| split; [| split]].
      * change (cur :: texts) with ([cur] ++ texts).
        eapply adds_trans; [apply adds_draw_break | exact Hadds].
      * cbn [flat_map]. rewrite <- app_assoc, Hw. by rewrite (split_word word).
      * by apply Forall_cons.
      * done.
Qed.

Lemma draw_line_adds line p :
  ∃ texts,
    adds texts p (draw_line line p)
    ∧ flat_map Txt.split texts = Txt.split line
    ∧ Forall Txt.fits texts.
Proof.
  unfold Txt.draw_line.
  destruct (Nat.ltb_spec 100 (String.length (Txt.rstrip line))) as [Hlong | Hshort].
  - destruct (wrap_words_adds (Txt.split (Txt.rstrip line)) (split_words _) "" p)
      as (texts & Hadds & Hw & Hfits & Hleft); [left; cbn; lia |].
    destruct (wrap_words _ _ _) as [cur p']. cbn [fst snd] in *.
    change (Txt.split "") with (@nil string) in Hw. cbn [app] in Hw.
    rewrite split_rstrip in Hw.
    destruct (String.eqb_spec cur "") as [-> | Hne].
    + exists texts. split; [| split; [| done]].
      * rewrite <- (app_nil_r texts). eapply adds_trans; [exact Hadds | apply adds_page_break].
      * change (Txt.split "") with (@nil string) in Hw. by rewrite app_nil_r in Hw.
    + exists (texts ++ [cur]). split; [| split].
      * eapply adds_trans; [exact Hadds | apply adds_draw_break].
      * rewrite flat_map_app. cbn [flat_map]. by rewrite app_nil_r.
      * apply Forall_app. split; [done |]. by apply Forall_singleton.
  - exists [Txt.rstrip line]. split; [apply adds_draw_break |]. split.
    + cbn [flat_map]. rewrite app_nil_r. apply split_rstrip.
    + apply Forall_singleton. by left.
Qed.

Lemma draw_lines_adds lines :
  ∀ p, ∃ texts,
    adds texts p (draw_lines lines p)
    ∧ flat_map Txt.split texts = flat_map Txt.split lines
    ∧ Forall Txt.fits texts.
Proof.
  induction lines as [| line lines IH]; intros p.
  - exists []. split; [apply adds_refl | done].
  - destruct (draw_line_adds line p) as (t1 & Hadds1 & Hw1 & Hfits1).
    destruct (IH (draw_line line p)) as (t2 & Hadds2 & Hw2 & Hfits2).
    exists (t1 ++ t2). split; [| split].
    + eapply adds_trans; [exact Hadds1 | exact Hadds2].
    + rewrite flat_map_app. cbn [flat_map]. by rewrite Hw1, Hw2.
    + by apply Forall_app.
Qed.

Section Margin.

Hypothesis top_ok : ltb (Txt.top num of_int sub height) (Txt.y_margin num of_int) = false.

Lemma pen_ok_page_break p : Forall in_page p.2 → pen_ok (page_break p).
Proof.
  intros Hops. unfold Txt.page_break. destruct (ltb p.1 _) eqn:Hy.
  - split; [exact top_ok |]. cbn [snd]. apply Forall_app. split; [done |].
    by apply Forall_singleton.
  - by split.
Qed.

Lemma pen_ok_draw_break t p : pen_ok p → pen_ok (page_break (draw t p)).
Proof.
  intros [Hy Hops]. apply pen_ok_page_break. cbn [Txt.draw snd]. apply Forall_app.
  split; [done |]. by apply Forall_singleton.
Qed.

Lemma pen_ok_wrap_words words : ∀ cur p, pen_ok p → pen_ok (wrap_words words cur p).2.
Proof.
  induction words as [| word rest IH]; intros cur p Hp; cbn [Txt.wrap_words]; [done |].
  destruct (_ <? _)%nat; apply IH; [done | by apply pen_ok_draw_break].
Qed.

Lemma pen_ok_draw_line line p : pen_ok p → pen_ok (draw_line line p).
Proof.
  intros Hp. unfold Txt.draw_line.
  destruct (100 <? _)%nat.
  - pose proof (pen_ok_wrap_words (Txt.split (Txt.rstrip line)) "" p Hp) as Hw.
    destruct (wrap_words _ _ _) as [cur p']. cbn [snd] in Hw.
    destruct (String.eqb cur ""); [apply pen_ok_page_break, Hw | by apply pen_ok_draw_break].
  - by apply pen_ok_draw_break.
Qed.

Lemma pen_ok_draw_lines lines : ∀ p, pen_ok p → pen_ok (draw_lines lines p).
Proof.
  induction lines as [| line lines IH]; intros p Hp; [done |].
  apply IH. by apply pen_ok_draw_line.
Qed.

End Margin.

End TxtLayout.

(** X14. [txt_to_pdf] loses no text: the words of the strings it draws,
    in order, are the words of the lines of the file, in order. *)
Theorem txt_to_pdf_keeps_words (num : Type) (of_int : Z → num) (sub : num → num → num)
    (ltb : num → num → bool) (height : num) (lines : list string)
    (failure save_error : option exn) (out : string) :
  flat_map Txt.split
    (Txt.drawn num
       (Txt.txt_to_pdf num of_int sub ltb height true lines failure save_error out).2)
  = flat_map Txt.split lines.
Proof.
  unfold Txt.txt_to_pdf. cbn [snd].
  destruct (draw_lines_adds num of_int sub ltb height lines
              (Txt.top num of_int sub height, [Txt.Canvas_new out]))
    as (texts & (added & Hops & _ & Hdrawn) & Hwords & _).
  rewrite Hops. cbn [snd]. rewrite !drawn_app, Hdrawn. cbn. by rewrite app_nil_r.
Qed.

(** X15. Every string [txt_to_pdf] draws has at most 100 characters, or
    is a single word that cannot be broken. *)
Theorem txt_to_pdf_line_width (num : Type) (of_int : Z → num) (sub : num → num → num)
    (ltb : num → num → bool) (height : num) (lines : list string)
    (failure save_error : option exn) (out : string) :
  Forall (λ text, String.length text ≤ 100 ∨ text ≠ "" ∧ Txt.has_space text = false)
    (Txt.drawn num
       (Txt.txt_to_pdf num of_int sub ltb height true lines failure save_error out).2).
Proof.
  unfold Txt.txt_to_pdf. cbn [snd].
  destruct (draw_lines_adds num of_int sub ltb height lines
              (Txt.top num of_int sub height, [Txt.Canvas_new out]))
    as (texts & (added & Hops & _ & Hdrawn) & _ & Hfits).
  rewrite Hops. cbn [snd]. rewrite !drawn_app, Hdrawn. cbn. by rewrite app_nil_r.
Qed.


(** X17. When the top of the page is not below the bottom margin, every
    string [txt_to_pdf] draws is at the left margin and not below the
    bottom margin, whatever the arithmetic of the vertical position is. *)
Theorem txt_to_pdf_within_margins (num : Type) (of_int : Z → num) (sub : num → num → num)
    (ltb : num → num → bool) (height : num) (lines : list string)
    (failure save_error : option exn) (out : string) :
  ltb (Txt.top num of_int sub height) (Txt.y_margin num of_int) = false →
  Forall (Txt.in_page num of_int ltb)
    (Txt.txt_to_pdf num of_int sub ltb height true lines failure save_error out).2.
Proof.
  intros Htop. unfold Txt.txt_to_pdf. cbn [snd].
  apply Forall_app. split; [| by apply Forall_singleton].
  apply (pen_ok_draw_lines num of_int sub ltb height Htop). split; [exact Htop |].
  by apply Forall_singleton.
Qed.

Lemma txt_to_pdf_within_margins_witness :
  Forall (Txt.in_page PrimFloat.float PageA4.of_int PrimFloat.ltb)
    (txt_to_pdf_A4 ["one"; "two"] None None "out.pdf").2.
Proof.
  exact (txt_to_pdf_within_margins PrimFloat.float PageA4.of_int PrimFloat.sub PrimFloat.ltb
           PageA4.height ["one"; "two"] None None "out.pdf" eq_refl).
Defined.

Example txt_to_pdf_short_lines :
  txt_to_pdf_A4 ["Hello  world  " +:+ String "010" ""; ""] None None "out.pdf"
  = (Ok (), [Txt.Canvas_new "out.pdf";
             Txt.DrawString (PageA4.of_int 40) (PageA4.y_at 0) "Hello  world";
             Txt.DrawString (PageA4.of_int 40) (PageA4.y_at 1) "";
             Txt.Save]).
Proof. vm_compute. reflexivity. Qed.

(** ** txt_to_pdf on an A4 page *)

Section A4Pages.

Abbreviation draw_A4 := (Txt.draw PrimFloat.float PageA4.of_int PrimFloat.sub).
Abbreviation page_break_A4 :=
  (Txt.page_break PrimFloat.float PageA4.of_int PrimFloat.sub PrimFloat.ltb PageA4.height).

Lemma y_at_low k :
  k ≤ 55 → PrimFloat.ltb (PageA4.y_at k) (PageA4.of_int 40) = (k =? 55)%nat.
Proof.
  intros Hk.
  assert (Hall : forallb (λ j, Bool.eqb (PrimFloat.ltb (PageA4.y_at j) (PageA4.of_int 40))
                                 (j =? 55)%nat) (seq 0 56) = true)
    by (vm_compute; reflexivity).
  rewrite forallb_forall in Hall. apply Bool.eqb_prop, Hall, in_seq. lia.
Qed.

Lemma on_page_draw_break t (p : Txt.pen PrimFloat.float) :
  on_page p → on_page (page_break_A4 (draw_A4 t p)).
Proof.
  intros (k & Hk & Hy & Hfill). unfold Txt.page_break, Txt.draw. cbn [fst snd].
  change (Txt.y_margin PrimFloat.float PageA4.of_int) with (PageA4.of_int 40).
  change (Txt.line_height PrimFloat.float PageA4.of_int) with (PageA4.of_int 14).
  rewrite Hy. change (PrimFloat.sub (PageA4.y_at k) (PageA4.of_int 14)) with (PageA4.y_at (S k)).
  rewrite y_at_low by lia.
  assert (Hdraw : ∀ x y, page_fill 55 (p.2 ++ [Txt.DrawString x y t])
                         = Some (S k)).
  { intros x y. unfold page_fill in *. rewrite fold_left_app, Hfill. cbn [fold_left fill_step].
    by destruct (Nat.ltb_spec k 55); [| lia]. }
  destruct (Nat.eqb_spec (S k) 55) as [Hfull | Hroom].
  - exists 0. split; [lia |]. split; [done |]. cbn [snd].
    unfold page_fill in *. rewrite fold_left_app, Hdraw. cbn [fold_left fill_step].
    by rewrite Hfull.
  - exists (S k). split; [lia |]. split; [done |]. apply Hdraw.
Qed.

Lemma on_page_page_break p : on_page p → page_break_A4 p = p.
Proof.
  intros (k & Hk & Hy & Hfill). unfold Txt.page_break.
  change (Txt.y_margin PrimFloat.float PageA4.of_int) with (PageA4.of_int 40).
  rewrite Hy, y_at_low by lia. by destruct (Nat.eqb_spec k 55); [lia |].
Qed.

Lemma on_page_wrap_words words :
  ∀ cur p, on_page p →
    on_page (Txt.wrap_words PrimFloat.float PageA4.of_int PrimFloat.sub PrimFloat.ltb PageA4.height
               words cur p).2.
Proof.
  induction words as [| word rest IH]; intros cur p Hp; cbn [Txt.wrap_words]; [done |].
  destruct (_ <? _)%nat; apply IH; [done | by apply on_page_draw_break].
Qed.

Lemma on_page_draw_line line p :
  on_page p →
  on_page (Txt.draw_line PrimFloat.float PageA4.of_int PrimFloat.sub PrimFloat.ltb PageA4.height
             line p).
Proof.
  intros Hp. unfold Txt.draw_line.
  destruct (100 <? _)%nat.
  - pose proof (on_page_wrap_words (Txt.split (Txt.rstrip line)) "" p Hp) as Hw.
    destruct (Txt.wrap_words _ _ _ _ _ _ _ _) as [cur p']. cbn [snd] in Hw.
    destruct (String.eqb cur ""); [by rewrite on_page_page_break | by apply on_page_draw_break].
  - by apply on_page_draw_break.
Qed.

Lemma on_page_draw_lines lines :
  ∀ p, on_page p →
    on_page (Txt.draw_lines PrimFloat.float PageA4.of_int PrimFloat.sub PrimFloat.ltb PageA4.height
               lines p).
Proof.
  induction lines as [| line lines IH]; intros p Hp; [done |].
  apply IH. by apply on_page_draw_line.
Qed.

End A4Pages.

(** X18. On reportlab's A4 page, in Python's float arithmetic,
    [txt_to_pdf] puts exactly 55 strings on every page but the last: a
    page break comes after every 55th string and nowhere else, and the
    last page holds fewer than 55. *)
Theorem txt_to_pdf_A4_55_per_page (lines : list string) (failure save_error : option exn)
    (out : string) :
  ∃ k, k < 55 ∧ page_fill 55 (txt_to_pdf_A4 lines failure save_error out).2 = Some k.
Proof.
  unfold txt_to_pdf_A4, Txt.txt_to_pdf. cbn [snd].
  destruct (on_page_draw_lines lines
              (Txt.top PrimFloat.float PageA4.of_int PrimFloat.sub PageA4.height,
               [Txt.Canvas_new out])) as (k & Hk & _ & Hfill).
  { exists 0. split; [lia |]. by split. }
  exists k. split; [exact Hk |].
  unfold page_fill in *. by rewrite fold_left_app, Hfill.
Qed.

Example txt_to_pdf_A4_pages :
  page_fill 55 (txt_to_pdf_A4 (replicate 54 "x") None None "o.pdf").2 = Some 54
  ∧ page_fill 55 (txt_to_pdf_A4 (replicate 55 "x") None None "o.pdf").2 = Some 0
  ∧ page_fill 55 (txt_to_pdf_A4 (replicate 120 "x") None None "o.pdf").2 = Some 10
  ∧ page_fill 54 (txt_to_pdf_A4 (replicate 120 "x") None None "o.pdf").2 = None.
Proof. vm_compute. repeat split. Qed.

(** ** get_input_file *)

(** X19. [get_input_file] returns the first line of the input whose
    cleaned form (surrounding whitespace, then surrounding double quotes
    removed) is not empty and names an existing path; it returns that
    cleaned form, leaves the later lines unread and has prompted once for
    every line it read.  When no line is acceptable it reads them all and
    ends with the end-of-input error. *)
Theorem get_input_file_first_existing (prompt : string) (files : gset string)
    (stdin : list string) :
  (∃ skipped line rest,
     stdin = skipped ++ line :: rest
     ∧ Forall (λ l, ¬ acceptable files l) skipped
     ∧ acceptable files line
     ∧ (get_input_file prompt files stdin).1 = (Ok (clean_path line), rest)
     ∧ length (filter is_prompt (get_input_file prompt files stdin).2) = S (length skipped))
  ∨ (Forall (λ l, ¬ acceptable files l) stdin
     ∧ (get_input_file prompt files stdin).1
       = (Raise (Exn LibraryError "EOF when reading a line"), [])
     ∧ length (filter is_prompt (get_input_file prompt files stdin).2) = S (length stdin)).
Proof.
  induction stdin as [| line stdin IH].
  - right. by split.
  - cbn [get_input_file].
    assert (Hskip : ¬ acceptable files line →
      ∀ msg,
        (∃ skipped line0 rest,
           line :: stdin = skipped ++ line0 :: rest
           ∧ Forall (λ l, ¬ acceptable files l) skipped
           ∧ acceptable files line0
           ∧ (let '(r, rest', out) := get_input_file prompt files stdin in
              (r, rest', Prompt (prompt +:+ ": ") :: Printed msg :: out)).1
             = (Ok (clean_path line0), rest)
           ∧ length (filter is_prompt
                       (let '(r, rest', out) := get_input_file prompt files stdin in
                        (r, rest', Prompt (prompt +:+ ": ") :: Printed msg :: out)).2)
             = S (length skipped))
        ∨ (Forall (λ l, ¬ acceptable files l) (line :: stdin)
           ∧ (let '(r, rest', out) := get_input_file prompt files stdin in
              (r, rest', Prompt (prompt +:+ ": ") :: Printed msg :: out)).1
             = (Raise (Exn LibraryError "EOF when reading a line"), [])
           ∧ length (filter is_prompt
                       (let '(r, rest', out) := get_input_file prompt files stdin in
                        (r, rest', Prompt (prompt +:+ ": ") :: Printed msg :: out)).2)
             = S (length (line :: stdin)))).
    { intros Hrej msg.
      destruct (get_input_file prompt files stdin) as [[r rest'] out].
      cbn [fst snd] in *.
      destruct IH as [(skipped & line0 & rest & -> & Hskipped & Hacc & Hrun & Hlen)
                     | (Hall & Hrun & Hlen)].
      - left. exists (line :: skipped), line0, rest.
        split; [done |]. split; [by apply Forall_cons |]. split; [done |].
        split; [done |]. rewrite filter_cons_True by done.
        rewrite filter_cons_False by (intros []). cbn [length]. by rewrite Hlen.
      - right. split; [by apply Forall_cons |]. split; [done |].
        rewrite filter_cons_True by done.
        rewrite filter_cons_False by (intros []). cbn [length]. by rewrite Hlen. }
    destruct (String.eqb_spec (clean_path line) "") as [Hempty | Hne].
    { apply Hskip. by intros [? _]. }
    destruct (bool_decide_reflect (clean_path line ∈ files)) as [Hin | Hnotin]; cbn [negb].
    + left. exists [], line, stdin. by repeat split.
    + apply Hskip. by intros [_ ?].
Qed.

Example get_input_file_ex :
  get_input_file "Input file" {["my file.txt"]}
    [""; "  missing.txt"; String (ascii_of_nat 34) "my file.txt" +:+ String (ascii_of_nat 34) " ";
     "later.txt"]
  = (Ok "my file.txt", ["later.txt"],
     [Prompt "Input file: "; Printed "❌ Please enter a file path.";
      Prompt "Input file: "; Printed "❌ File not found: missing.txt";
      Prompt "Input file: "]).
Proof. vm_compute. reflexivity. Qed.

(** ** pdf_to_images *)

Lemma prefix_nil s : String.prefix "" s = true.
Proof. by destruct s. Qed.

Lemma prefix_cons a s1 b s2 :
  String.prefix (String a s1) (String b s2) = bool_decide (a = b) && String.prefix s1 s2.
Proof.
  cbn [String.prefix]. destruct (ascii_dec a b) as [-> | Hne].
  - by rewrite bool_decide_true.
  - by rewrite bool_decide_false.
Qed.

Lemma prefix_refl s : String.prefix s s = true.
Proof.
  induction s as [| c s IH]; [done |]. rewrite prefix_cons, IH.
  by rewrite bool_decide_true.
Qed.

Lemma prefix_app s t : String.prefix s (s +:+ t) = true.
Proof.
  induction s as [| c s IH]; [apply prefix_nil |].
  rewrite string_app_cons, prefix_cons, IH. by rewrite bool_decide_true.
Qed.

Lemma occurs_cons old c s :
  Img.occurs old (String c s) = String.prefix old (String c s) || Img.occurs old s.
Proof. reflexivity. Qed.

(** A string in which [old] does not occur is left as it is. *)
Lemma replace_none old new s : Img.occurs old s = false → Img.replace old new s = s.
Proof.
  unfold Img.replace. induction s as [| c s IH]; [done |].
  rewrite occurs_cons. intros [Hp Ho]%orb_false_elim.
  cbn [Img.replace_go]. rewrite Hp. by rewrite IH.
Qed.

Lemma replace_go_skip old new s : Img.replace_go old new (String.length s) s = "".
Proof. induction s as [| c s IH]; [done | exact IH]. Qed.

(** An extension does not start inside the text before it. *)
Lemma prefix_dotless e s e' :
  dotless e → String.prefix e (s +:+ String "." e') = true → String.prefix e s = true.
Proof.
  revert s. induction e as [| d e IH]; intros s Hdot; [intros _; apply prefix_nil |].
  assert (Hd : d ≠ "."%char ∧ dotless e).
  { unfold dotless in *. cbn [Py.rfind_dot] in Hdot.
    destruct (Py.rfind_dot e); [done |].
    destruct (Ascii.eqb_spec d "."); [done | by split]. }
  destruct Hd as [Hd He]. destruct s as [| d' s].
  - change ("" +:+ String "." e') with (String "." e'). rewrite prefix_cons.
    by rewrite bool_decide_false.
  - rewrite string_app_cons, !prefix_cons.
    intros [-> Hp]%andb_prop. apply IH in Hp; [| done]. by rewrite Hp.
Qed.

(** The one occurrence of a suffix at the end of a path is replaced. *)
Lemma replace_suffix e new stem :
  dotless e → Img.occurs (String "." e) stem = false →
  Img.replace (String "." e) new (stem +:+ String "." e) = stem +:+ new.
Proof.
  intros He. unfold Img.replace. induction stem as [| c stem IH].
  - intros _. change ("" +:+ String "." e) with (String "." e). cbn [Img.replace_go].
    rewrite prefix_refl. cbn [String.length Nat.sub]. rewrite Nat.sub_0_r.
    rewrite replace_go_skip. change ("" +:+ new) with new. clear.
    induction new as [| c new IH]; [done |]. by rewrite string_app_cons, IH.
  - rewrite occurs_cons. intros [Hp Ho]%orb_false_elim.
    rewrite !string_app_cons. cbn [Img.replace_go].
    destruct (String.prefix (String "." e) (String c (stem +:+ String "." e))) eqn:Hq.
    + rewrite prefix_cons in Hq, Hp. apply andb_prop in Hq as [Hc Hq].
      apply (prefix_dotless e stem e He) in Hq. by rewrite Hc, Hq in Hp.
    + by rewrite IH.
Qed.

Lemma no_brace_cons c s :
  Img.no_brace (String c s) = true → c ≠ "{"%char ∧ c ≠ "}"%char ∧ Img.no_brace s = true.
Proof.
  cbn [Img.no_brace]. intros [Hc Hs]%andb_prop. split; [| split; [| done]].
  - intros ->. done.
  - intros ->. done.
Qed.

Lemma occurs_page_no_brace s t :
  Img.no_brace s = true → Img.occurs "{page}" (s +:+ t) = Img.occurs "{page}" t.
Proof.
  induction s as [| c s IH]; [done |]. intros (Hc & _ & Hs)%no_brace_cons.
  rewrite string_app_cons, occurs_cons, prefix_cons, bool_decide_false by done.
  by apply IH.
Qed.

Lemma format_go_no_brace i s t :
  Img.no_brace s = true →
  Img.format_go i 0 (s +:+ t) = String.append s <$> Img.format_go i 0 t.
Proof.
  induction s as [| c s IH].
  - intros _. change ("" +:+ t) with t. by destruct (Img.format_go i 0 t).
  - intros (Hc1 & Hc2 & Hs)%no_brace_cons. rewrite string_app_cons.
    cbn [Img.format_go]. rewrite !prefix_cons.
    rewrite !(bool_decide_false (_ = c)) by done. cbn [andb].
    destruct (Ascii.eqb_spec c "{"); [done |]. destruct (Ascii.eqb_spec c "}"); [done |].
    cbn [orb]. rewrite IH by done. by destruct (Img.format_go i 0 t).
Qed.

Lemma format_page_no_brace i s : Img.no_brace s = true → Img.format_page s i = Some s.
Proof.
  intros Hs. unfold Img.format_page.
  assert (Happ : s +:+ "" = s)
    by (clear; induction s as [| c s IH]; [done | by rewrite string_app_cons, IH]).
  rewrite <- Happ at 1. rewrite format_go_no_brace by done. cbn. by rewrite Happ.
Qed.

Lemma string_app_nil_r s : s +:+ "" = s.
Proof. induction s as [| c s IH]; [done | by rewrite string_app_cons, IH]. Qed.

(** Appending text without a slash extends the last component. *)
Lemma split_slash_app s t :
  Py.has_slash t = false →
  ∃ l w, Py.split_slash s = l ++ [w] ∧ Py.split_slash (s +:+ t) = l ++ [w +:+ t].
Proof.
  intros Ht. induction s as [| c s (l & w & Hs & Hst)].
  - exists [], "". split; [done |]. by apply split_slash_no_slash.
  - rewrite string_app_cons. cbn [Py.split_slash]. rewrite Hs, Hst.
    destruct (Ascii.eqb c "/").
    + by exists ("" :: l), w.
    + destruct l as [| x l]; cbn [app].
      * by exists [], (String c w).
      * by exists (String c x :: l), w.
Qed.

Lemma suffix_app p stem e :
  stem ≠ "" → Py.has_slash stem = false → e ≠ "" → dotless e → Py.has_slash e = false →
  Py.suffix (p +:+ stem +:+ "." +:+ e) = "." +:+ e.
Proof.
  intros Hstem Hslash He Hdot Hse.
  destruct (split_slash_app p (stem +:+ "." +:+ e)) as (l & w & _ & Hsplit).
  { rewrite has_slash_app, has_slash_app. by rewrite Hslash, Hse. }
  unfold Py.suffix. rewrite (name_of_split _ l _ Hsplit).
  - rewrite <- string_app_assoc. apply name_suffix_stem; [| done | done].
    intros Heq. apply (f_equal String.length) in Heq. rewrite string_length_app in Heq.
    destruct stem; [done |]. cbn [String.length] in Heq. lia.
  - intros Heq. apply (f_equal String.length) in Heq.
    rewrite string_length_app, string_length_app in Heq.
    destruct stem; [done |]. cbn [String.length] in Heq. lia.
  - intros Heq. apply (f_equal String.length) in Heq.
    rewrite string_length_app, string_length_app, string_length_app in Heq.
    destruct stem; [done |]. destruct e; [done |]. cbn [String.length] in Heq. lia.
Qed.

Lemma saves_map pattern fmt (f : nat → string) pages :
  (∀ i, Img.out_path pattern i = Some (f i)) → Img.fmt_of pattern = fmt →
  Img.saves pattern pages = Some (map (λ i, (f i, Img.save_format fmt)) pages).
Proof.
  intros Hpath <-. induction pages as [| i pages IH]; [done |].
  cbn [Img.saves map]. by rewrite Hpath, IH.
Qed.

Lemma numbered_inj stem sfx i j : numbered stem sfx i = numbered stem sfx j → i = j.
Proof.
  unfold numbered. intros H%String.app_inj. apply (String.app_inj "_") in H.
  apply string_app_inj_r in H. by apply pad3_inj.
Qed.

Lemma format_go_tail i sfx :
  sfx = ".png" ∨ sfx = ".jpg" →
  Img.format_go i 0 ("_{page:03d}" +:+ sfx) = Some ("_" +:+ pad3 i +:+ sfx).
Proof. by intros [-> | ->]. Qed.

Lemma map_const {A B} (x : B) (l : list A) : map (λ _, x) l = replicate (length l) x.
Proof. induction l as [| a l IH]; [done |]. cbn. by rewrite IH. Qed.

(** X20. The handlers for pdf to png and pdf to jpg, called with an
    output path [stem ++ sfx] (no brace in [stem], [sfx] nowhere else in
    it), save page [i] as [stem_00i ++ sfx], in the format PNG or JPEG;
    the pages get different files, and none of them is the output path
    itself. *)
Theorem pdf_to_images_numbers_pages (sfx stem : string) (is_windows : bool) (n : nat) :
  sfx = ".png" ∨ sfx = ".jpg" →
  Img.no_brace stem = true → Img.occurs sfx stem = false →
  Img.lambda sfx true is_windows (Img.Pages n) (stem +:+ sfx)
  = Some (Ok (), map (λ i, (numbered stem sfx i, Img.save_format (Py.sdrop 1 sfx)))
                   (seq 1 n))
  ∧ NoDup (numbered stem sfx <$> seq 1 n)
  ∧ stem +:+ sfx ∉ (numbered stem sfx <$> seq 1 n).
Proof.
  intros Hsfx Hbrace Hocc. split; [| split].
  - unfold Img.lambda, Img.pdf_to_images.
    assert (Hpattern : Img.replace sfx ("_{page:03d}" +:+ sfx) (stem +:+ sfx)
                       = stem +:+ "_{page:03d}" +:+ sfx).
    { destruct Hsfx as [-> | ->]; by apply (replace_suffix _ _ stem). }
    rewrite Hpattern.
    assert (Hfmt : Img.fmt_of (stem +:+ "_{page:03d}" +:+ sfx) = Py.sdrop 1 sfx).
    { assert (Hs : Py.suffix (stem +:+ "_{page:03d}" +:+ sfx) = sfx).
      { destruct Hsfx as [-> | ->].
        - exact (suffix_app stem "_{page:03d}" "png" ltac:(done) eq_refl ltac:(done)
                   eq_refl eq_refl).
        - exact (suffix_app stem "_{page:03d}" "jpg" ltac:(done) eq_refl ltac:(done)
                   eq_refl eq_refl). }
      unfold Img.fmt_of, file_ext, raw_ext. rewrite Hs.
      by destruct Hsfx as [-> | ->]. }
    rewrite (saves_map _ (Py.sdrop 1 sfx) (numbered stem sfx)); [done | | exact Hfmt].
    intros i. unfold Img.out_path.
    rewrite occurs_page_no_brace by done.
    assert (Hno : Img.occurs "{page}" ("_{page:03d}" +:+ sfx) = false)
      by (by destruct Hsfx as [-> | ->]).
    rewrite Hno. unfold Img.format_page.
    rewrite format_go_no_brace, format_go_tail by done. done.
  - apply NoDup_fmap_2; [| apply NoDup_seq]. intros i j. apply numbered_inj.
  - intros (i & Heq & _)%list_elem_of_fmap. unfold numbered in Heq.
    apply String.app_inj in Heq. by destruct Hsfx as [-> | ->].
Qed.

Lemma pdf_to_images_numbers_pages_witness :
  Img.lambda ".png" true false (Img.Pages 2) "out/scan.v2.png"
  = Some (Ok (), [("out/scan.v2_001.png", "PNG"); ("out/scan.v2_002.png", "PNG")])
  ∧ "out/scan.v2.png" ∉ (numbered "out/scan.v2" ".png" <$> seq 1 2).
Proof.
  destruct (pdf_to_images_numbers_pages ".png" "out/scan.v2" false 2
              (or_introl eq_refl) eq_refl eq_refl) as (Hrun & _ & Hout).
  split; [exact Hrun | exact Hout].
Defined.

(** X21. The handler [convert_file] uses for pdf to jpeg, called with an
    output path ending in .jpeg (no brace and no ".jpg" in it), saves
    every page to that one path: each page overwrites the one before. *)
Theorem pdf_to_images_jpeg_one_file (out : string) (is_windows : bool) (n : nat) :
  file_ext out = "jpeg" → Img.no_brace out = true → Img.occurs ".jpg" out = false →
  Img.lambda ".jpg" true is_windows (Img.Pages n) out
  = Some (Ok (), replicate n (out, "JPEG")).
Proof.
  intros Hext Hbrace Hocc. unfold Img.lambda, Img.pdf_to_images.
  rewrite replace_none by done.
  assert (Hfmt : Img.fmt_of out = "jpeg") by (unfold Img.fmt_of; by rewrite Hext).
  rewrite (saves_map out "jpeg" (λ _, out)); [| | exact Hfmt].
  - cbn [fmap option_fmap option_map]. by rewrite map_const, length_seq.
  - intros i. unfold Img.out_path.
    rewrite <- (string_app_nil_r out) at 1. rewrite occurs_page_no_brace by done.
    change (Img.occurs "{page}" "") with false. cbn match.
    by apply format_page_no_brace.
Qed.

Lemma pdf_to_images_jpeg_one_file_witness :
  Img.lambda ".jpg" true false (Img.Pages 3) "scan.jpeg"
  = Some (Ok (), [("scan.jpeg", "JPEG"); ("scan.jpeg", "JPEG"); ("scan.jpeg", "JPEG")]).
Proof.
  exact (pdf_to_images_jpeg_one_file "scan.jpeg" false 3 eq_refl eq_refl eq_refl).
Defined.

Example pdf_to_images_ex :
  Img.pdf_to_images true false (Img.Pages 2) "p{page}.png"
  = Some (Ok (), [("p_001.png", "PNG"); ("p_002.png", "PNG")])
  ∧ Img.pdf_to_images true false (Img.Pages 1) "p_{page}.png"
    = Some (Ok (), [("p__001.png", "PNG")])
  ∧ Img.pdf_to_images true false (Img.Pages 1) "scan_{page:03d}"
    = Some (Ok (), [("scan_001", "PNG")])
  ∧ Img.pdf_to_images true true Img.PDFInfoNotInstalledError "a.png"
    = Some (Raise (Exn RuntimeError "Poppler not found. Install: choco install poppler"), []).
Proof. repeat split. Qed.

(** ** The outputs of the PDF menu *)

(** The file name [with_suffix] gives: the stem of the old name, then the
    new suffix. *)
Lemma with_suffix_name p e out :
  Py.has_slash e = false →
  Py.with_suffix p ("." +:+ e) = Some out →
  e ≠ "" →
  Py.name out
  = Py.stake (String.length (Py.name p) - String.length (Py.name_suffix (Py.name p)))
      (Py.name p) +:+ "." +:+ e.
Proof.
  intros Hslash. unfold Py.with_suffix.
  assert (Hsfx : Py.has_slash ("." +:+ e) = false) by exact Hslash.
  rewrite Hsfx. destruct (_ || _); [done |].
  destruct (String.eqb_spec (Py.name p) "") as [| Hname]; [done |].
  intros [= <-] He.
  pose proof (has_slash_stake (String.length (Py.name p)
                                - String.length (Py.name_suffix (Py.name p)))
                (Py.name p) (name_no_slash p)) as Hstake.
  revert Hstake.
  generalize (Py.stake (String.length (Py.name p)
                        - String.length (Py.name_suffix (Py.name p))) (Py.name p)).
  intros stem Hstake.
  assert (Hnew : Py.has_slash (stem +:+ "." +:+ e) = false).
  { rewrite has_slash_app, has_slash_app. by rewrite Hstake, Hslash. }
  destruct (split_of_joined (Py.path_root p)
              (take (length (Py.path_parts p) - 1) (Py.path_parts p))
              (stem +:+ "." +:+ e) (path_root_cases p) Hnew) as [l' Hsplit].
  apply (name_of_split _ l' _ Hsplit).
  - intros Heq. apply (f_equal String.length) in Heq.
    rewrite string_length_app, string_length_app in Heq. cbn [String.length] in Heq. lia.
  - intros Heq. apply (f_equal String.length) in Heq.
    rewrite string_length_app, string_length_app in Heq.
    destruct e; [done |]. cbn [String.length] in Heq. lia.
Qed.

Lemma with_suffix_Some_name p sfx out : Py.with_suffix p sfx = Some out → Py.name p ≠ "".
Proof.
  unfold Py.with_suffix. intros H Hname. rewrite Hname in H.
  destruct (Py.has_slash sfx); [done |].
  by destruct (negb (String.eqb sfx "") && negb (String.prefix "." sfx) || String.eqb sfx ".").
Qed.

Lemma prefix_dot_app a t :
  a ≠ "" → String.prefix "." a = false → String.prefix "." (a +:+ t) = false.
Proof.
  destruct a as [| c a]; [done |]. intros _. rewrite string_app_cons, !prefix_cons.
  rewrite !prefix_nil. by destruct (bool_decide _).
Qed.

(** X22. [menu_pdf_operations] names the output of compress, rotate and
    watermark [get_output_path(inp, a + ".pdf")] with [a] one of
    "_compressed", "_watermarked" and "_rotated<deg>".  As [a] has no
    leading dot, the file name of the output is the stem of the input,
    then a dot, then [a], then ".pdf"; its suffix is ".pdf" and the output
    path is never the input path. *)
Theorem menu_pdf_output_beside_input (inp a out : string) :
  a ≠ "" → String.prefix "." a = false → Py.has_slash a = false →
  get_output_path inp (a +:+ ".pdf") = Some out →
  Py.name out = path_stem inp +:+ "." +:+ a +:+ ".pdf"
  ∧ Py.suffix out = ".pdf"
  ∧ out ≠ inp.
Proof.
  intros Ha Hdot Hslash. unfold get_output_path.
  rewrite prefix_dot_app by done. intros Hout.
  assert (Hslash' : Py.has_slash (a +:+ ".pdf") = false)
    by (rewrite has_slash_app; by rewrite Hslash).
  assert (He : a +:+ ".pdf" ≠ "") by (by destruct a).
  pose proof (with_suffix_name inp (a +:+ ".pdf") out Hslash' Hout He) as Hname.
  fold (path_stem inp) in Hname.
  assert (Hsuffix : ∀ s, s ≠ "" → Py.name_suffix (s +:+ "." +:+ a +:+ ".pdf") = ".pdf").
  { intros s Hs.
    assert (Hassoc : s +:+ "." +:+ a +:+ ".pdf" = (s +:+ "." +:+ a) +:+ "." +:+ "pdf")
      by (by rewrite !string_app_assoc).
    rewrite Hassoc. apply (name_suffix_stem (s +:+ "." +:+ a) "pdf"); [| done | done].
    intros Heq. apply (f_equal String.length) in Heq. rewrite string_length_app in Heq.
    destruct s; [done |]. cbn [String.length] in Heq. lia. }
  assert (Hstem : path_stem inp ≠ "").
  { pose proof (with_suffix_Some_name _ _ _ Hout) as Hnm.
    intros Heq. apply (f_equal String.length) in Heq. unfold path_stem in Heq.
    pose proof (stem_length _ Hnm). rewrite stake_length in Heq by lia.
    cbn [String.length] in Heq. lia. }
  split; [exact Hname |]. split.
  - unfold Py.suffix. rewrite Hname. by apply Hsuffix.
  - intros ->. unfold path_stem in Hname, Hstem.
    remember (Py.name inp) as nm eqn:Hnm. clear Hnm Hout.
    remember (Py.stake (String.length nm - String.length (Py.name_suffix nm)) nm) as s eqn:Hs.
    assert (Hfour : Py.name_suffix nm = ".pdf") by (rewrite Hname; by apply Hsuffix).
    rewrite Hfour in Hs. apply (f_equal String.length) in Hs, Hname.
    rewrite stake_length in Hs by lia.
    rewrite string_length_app, string_length_app, string_length_app in Hname.
    cbn [String.length] in Hs, Hname. lia.
Qed.

Lemma menu_pdf_output_beside_input_witness :
  Py.name "docs/report._compressed.pdf"
  = path_stem "docs/report.pdf" +:+ "." +:+ "_compressed" +:+ ".pdf"
  ∧ Py.suffix "docs/report._compressed.pdf" = ".pdf"
  ∧ "docs/report._compressed.pdf" ≠ "docs/report.pdf".
Proof.
  exact (menu_pdf_output_beside_input "docs/report.pdf" "_compressed"
           "docs/report._compressed.pdf" ltac:(done) eq_refl eq_refl eq_refl).
Defined.

(** ** The formats the menus offer *)

Lemma no_key_to dst :
  dst = "bmp" ∨ dst = "webp" → ∀ src, CONVERTERS !! (src, dst) = None.
Proof.
  intros Hdst src. destruct (CONVERTERS !! (src, dst)) as [h |] eqn:Hkey; [| done].
  apply CONVERTERS_lookup_Some in Hkey.
  destruct Hdst as [-> | ->]; list_cases Hkey; simplify_eq.
Qed.

Lemma no_chain_to dst :
  dst = "bmp" ∨ dst = "webp" → ∀ src, find_chain CONVERTERS src dst = None.
Proof.
  intros Hdst src. destruct (find_chain CONVERTERS src dst) as [chain |] eqn:Hchain; [| done].
  apply find_chain_Some_inv in Hchain as (mid & _ & _ & [h Hkey]%has_key_true & _).
  by rewrite no_key_to in Hkey.
Qed.

(** X23. The image menu and the custom menu offer BMP and WEBP as output
    formats (by number, and in the custom menu by name), but no input can
    be converted to them: for every input path with a file name,
    [convert_file] on the path [get_output_path] makes returns [False] with
    the unsupported-conversion error, having called no handler. *)
Theorem menus_offer_bmp_webp (X : externals) (inp ext : string) (w : world) :
  converters w = CONVERTERS → Py.name inp ≠ "" → ext = "bmp" ∨ ext = "webp" →
  (∃ idx, image_menu_ext idx = Some ext)
  ∧ (∃ n, custom_out_ext (Py.str_of_nat n) = Some ext)
  ∧ custom_out_ext ext = Some ext
  ∧ ∃ out,
      get_output_path inp ext = Some out
      ∧ convert_file X inp out w
        = (Ok false,
           log (EvPrintError (Exn ValueError ("Unsupported conversion: " +:+ file_ext inp
                                               +:+ " -> " +:+ ext))) w).
Proof.
  intros Hw Hname Hext. split; [| split; [| split]].
  - destruct Hext as [-> | ->]; [by exists 2%Z | by exists 3%Z].
  - destruct Hext as [-> | ->]; [by exists 5 | by exists 6].
  - by destruct Hext as [-> | ->].
  - assert (Hout : ∃ out, get_output_path inp ext = Some out ∧ file_ext out = ext).
    { destruct Hext as [-> | ->].
      - destruct (with_suffix_Some inp ".bmp" eq_refl eq_refl ltac:(done) Hname) as [out Hout].
        exists out. split; [exact Hout |]. unfold file_ext, raw_ext.
        by rewrite (with_suffix_suffix inp "bmp" out ltac:(done) eq_refl eq_refl Hout).
      - destruct (with_suffix_Some inp ".webp" eq_refl eq_refl ltac:(done) Hname) as [out Hout].
        exists out. split; [exact Hout |]. unfold file_ext, raw_ext.
        by rewrite (with_suffix_suffix inp "webp" out ltac:(done) eq_refl eq_refl Hout). }
    destruct Hout as (out & Hout & Hfmt). exists out. split; [exact Hout |].
    assert (Hnorm : jpeg_to_jpg ext = ext) by (by destruct Hext as [-> | ->]).
    rewrite (convert_file_unsupported_run X w inp out).
    + rewrite Hfmt. by destruct w.
    + rewrite Hw, Hfmt, Hnorm. by apply no_key_to.
    + rewrite Hw, Hfmt, Hnorm. by apply no_chain_to.
Qed.

Lemma menus_offer_bmp_webp_witness :
  ∃ out,
    get_output_path "photo.png" "webp" = Some out
    ∧ convert_file obliging "photo.png" out (initial_world {["photo.png"]})
      = (Ok false,
         log (EvPrintError (Exn ValueError "Unsupported conversion: png -> webp"))
           (initial_world {["photo.png"]})).
Proof.
  exact (proj2 (proj2 (proj2 (menus_offer_bmp_webp obliging "photo.png" "webp"
                                (initial_world {["photo.png"]}) eq_refl ltac:(done)
                                (or_intror eq_refl))))).
Defined.

(** X24. Whatever the user types in [menu_custom_conversion], the
    extension it hands to [get_output_path] is not empty, lower case and
    without leading dots, so it is the format [dispatch] would normalize it
    to up to jpeg/jpg; a choice by number always yields one of the eight
    listed formats. *)
Theorem custom_out_ext_normal (typed e : string) :
  custom_out_ext typed = Some e →
  e ≠ "" ∧ Py.lower e = e ∧ Py.lstrip_dots e = e ∧ norm_ext e = jpeg_to_jpg e
  ∧ (isdigit (Py.upper (Txt.strip typed)) = true → Py.upper e ∈ all_formats).
Proof.
  unfold custom_out_ext.
  destruct (isdigit (Py.upper (Txt.strip typed))) eqn:Hdigit.
  - destruct (nat_of_digits _) as [n |]; [| done].
    destruct (_ && _); [| done].
    assert (Hcases : ∀ name, all_formats !! Z.to_nat (Z.of_nat n - 1) = Some name →
                             name ∈ all_formats) by (intros name; apply list_elem_of_lookup_2).
    destruct (all_formats !! _) as [name |]; [| done]. specialize (Hcases name eq_refl).
    cbn [fmap option_fmap option_map].
    unfold all_formats in Hcases. list_cases Hcases; subst name; cbn;
      intros [= <-]; (split; [done |]); (split; [done |]); (split; [done |]);
      (split; [done |]); intros _; unfold all_formats; in_list.
  - destruct (String.eqb_spec (Py.lstrip_dots (Py.lower (Py.upper (Txt.strip typed)))) "")
      as [| Hne]; [done |].
    intros [= <-]. split; [done |].
    assert (Hlow : Py.lower (Py.lstrip_dots (Py.lower (Py.upper (Txt.strip typed))))
                   = Py.lstrip_dots (Py.lower (Py.upper (Txt.strip typed))))
      by (by rewrite lower_lstrip_dots, lower_idem).
    split; [exact Hlow |]. split; [apply lstrip_dots_idem |]. split; [| done].
    unfold norm_ext. by rewrite Hlow, lstrip_dots_idem.
Qed.

Lemma custom_out_ext_normal_witness :
  "jpeg" ≠ "" ∧ Py.lower "jpeg" = "jpeg" ∧ Py.lstrip_dots "jpeg" = "jpeg"
  ∧ norm_ext "jpeg" = jpeg_to_jpg "jpeg"
  ∧ (isdigit (Py.upper (Txt.strip "  .JPeg ")) = true → Py.upper "jpeg" ∈ all_formats).
Proof. exact (custom_out_ext_normal "  .JPeg " "jpeg" eq_refl). Defined.

Example custom_out_ext_ex :
  custom_out_ext "3" = Some "png" ∧ custom_out_ext " png" = Some "png"
  ∧ custom_out_ext "0" = None ∧ custom_out_ext "9" = None ∧ custom_out_ext "" = None
  ∧ custom_out_ext "007" = Some "mp3" ∧ custom_out_ext "..." = None
  ∧ custom_out_ext "tiff" = Some "tiff".
Proof. repeat split. Qed.
